(** * wdpass: protocol and key-derivation core of the WD Passport utility

    A shallow embedding of [wdpass/__init__.py] and the properties of its
    command encoding, Handy Store validation, password derivation and
    lock-state gating.

    Conventions of the embedding:
    - a Python [int] is a [Z]; a [bytes] object is a [list byte]; a list of
      ints (the [cdb] and [pw_block] lists) is a [list Z]; a [str] is the
      list of its code points;
    - a computation that may raise or call [sys.exit] returns an [outcome];
    - everything that touches the device, the terminal, the keyring or the
      entropy pool runs in the monad [M] over an explicit [world], which
      also records the history of what was printed and sent. *)

From Stdlib Require Import String HexString.
From Stdlib Require Import Init.Byte Strings.Byte.
From Stdlib Require Import ZArith List Lia Bool.
Import ListNotations.
Local Open Scope Z_scope.

(** ** Bytes *)

Definition bytes := list byte.

(** The integer value of a byte, as obtained by indexing a [bytes] object. *)
Definition byte_val (b : byte) : Z := Z.of_N (Byte.to_N b).

(** The byte with a given value; the argument is reduced modulo 256, callers
    that must reject out-of-range values test the range first. *)
Definition byte_of_Z (z : Z) : byte :=
  match Byte.of_N (Z.to_N (z mod 256)) with
  | Some b => b
  | None => x00
  end.

(** ** SHA-256 ([hashlib.sha256], FIPS 180-4) *)

Module SHA256.

Definition wrap32 (x : Z) : Z := x mod 2 ^ 32.
Definition add32 (x y : Z) : Z := wrap32 (x + y).
Definition rotr (n x : Z) : Z :=
  Z.lor (Z.shiftr x n) (wrap32 (Z.shiftl x (32 - n))).
Definition not32 (x : Z) : Z := Z.lxor x 0xFFFFFFFF.

Definition Ch (x y z : Z) : Z := Z.lxor (Z.land x y) (Z.land (not32 x) z).
Definition Maj (x y z : Z) : Z :=
  Z.lxor (Z.lxor (Z.land x y) (Z.land x z)) (Z.land y z).
Definition bsig0 (x : Z) : Z := Z.lxor (Z.lxor (rotr 2 x) (rotr 13 x)) (rotr 22 x).
Definition bsig1 (x : Z) : Z := Z.lxor (Z.lxor (rotr 6 x) (rotr 11 x)) (rotr 25 x).
Definition ssig0 (x : Z) : Z := Z.lxor (Z.lxor (rotr 7 x) (rotr 18 x)) (Z.shiftr x 3).
Definition ssig1 (x : Z) : Z := Z.lxor (Z.lxor (rotr 17 x) (rotr 19 x)) (Z.shiftr x 10).

(** The round constants and the initial chaining value are fractional
    parts of roots of the first primes: 32 bits of the cube roots of the
    first 64 primes, and of the square roots of the first 8. *)
Definition is_prime (n : nat) : bool :=
  forallb (fun d => negb (Nat.eqb (Nat.modulo n d) 0)) (seq 2 (n - 2)).

Definition primes : list Z := map Z.of_nat (filter is_prime (seq 2 310)).

(** The largest [r] below [2 ^ 35] with [r ^ k <= n]. *)
Definition root (k n : Z) : Z :=
  fold_left (fun r b => let c := r + 2 ^ Z.of_nat b in if c ^ k <=? n then c else r)
            (rev (seq 0 35)) 0.

Definition frac32_root (k p : Z) : Z := wrap32 (root k (p * 2 ^ (32 * k))).

Definition K : list Z := Eval vm_compute in map (frac32_root 3) primes.

(** The eight working variables, also the chaining value. *)
Record state := St { ha : Z; hb : Z; hc : Z; hd : Z;
                     he : Z; hf : Z; hg : Z; hh : Z }.

Definition init : state := Eval vm_compute in
  let h i := frac32_root 2 (nth i primes 0) in
  St (h 0%nat) (h 1%nat) (h 2%nat) (h 3%nat) (h 4%nat) (h 5%nat) (h 6%nat) (h 7%nat).

(** Padding: a 1 bit, zeros up to 56 mod 64, the bit length on 8 bytes. *)
Definition be_bytes (n : nat) (x : Z) : bytes :=
  map (fun i => byte_of_Z (Z.shiftr x (8 * Z.of_nat (n - 1 - i)))) (seq 0 n).

Definition pad (m : bytes) : bytes :=
  let len := Z.of_nat (length m) in
  let zeros := Z.to_nat ((55 - len) mod 64) in
  m ++ x80 :: repeat x00 zeros ++ be_bytes 8 (8 * len).

Fixpoint be_words (fuel : nat) (l : bytes) : list Z :=
  match fuel, l with
  | S fuel', b0 :: b1 :: b2 :: b3 :: rest =>
      (byte_val b0 * 2 ^ 24 + byte_val b1 * 2 ^ 16 + byte_val b2 * 2 ^ 8 + byte_val b3)
        :: be_words fuel' rest
  | _, _ => []
  end.

(** Message schedule: extend the 16 words of a block to 64. *)
Fixpoint extend (n : nat) (w : list Z) : list Z :=
  match n with
  | O => w
  | S n' =>
      let t := length w in
      let at_ k := nth (t - k) w 0 in
      extend n' (w ++ [add32 (add32 (ssig1 (at_ 2%nat)) (at_ 7%nat))
                            (add32 (ssig0 (at_ 15%nat)) (at_ 16%nat))])
  end.

Definition round (s : state) (kw : Z * Z) : state :=
  let t1 := add32 (add32 (add32 (hh s) (bsig1 (he s)))
                         (add32 (Ch (he s) (hf s) (hg s)) (fst kw))) (snd kw) in
  let t2 := add32 (bsig0 (ha s)) (Maj (ha s) (hb s) (hc s)) in
  St (add32 t1 t2) (ha s) (hb s) (hc s) (add32 (hd s) t1) (he s) (hf s) (hg s).

Definition compress (h : state) (block : bytes) : state :=
  let w := extend 48 (be_words 16 block) in
  let s := fold_left round (combine K w) h in
  St (add32 (ha h) (ha s)) (add32 (hb h) (hb s))
     (add32 (hc h) (hc s)) (add32 (hd h) (hd s))
     (add32 (he h) (he s)) (add32 (hf h) (hf s))
     (add32 (hg h) (hg s)) (add32 (hh h) (hh s)).

Definition hash_blocks (p : bytes) : state :=
  fold_left (fun h i => compress h (firstn 64 (skipn (64 * i) p)))
            (seq 0 (length p / 64)) init.

Definition digest_of (s : state) : bytes :=
  be_bytes 4 (ha s) ++ be_bytes 4 (hb s) ++ be_bytes 4 (hc s) ++ be_bytes 4 (hd s)
  ++ be_bytes 4 (he s) ++ be_bytes 4 (hf s) ++ be_bytes 4 (hg s) ++ be_bytes 4 (hh s).

(** [sha256(m).digest()] *)
Definition sha256 (m : bytes) : bytes := digest_of (hash_blocks (pad m)).

End SHA256.

Definition sha256 := SHA256.sha256.

(** ** Outcomes of Python code

    A call returns normally, leaves through [sys.exit], or raises. *)

Inductive exn :=
| IndexError          (* subscript out of range *)
| TypeError           (* bytes + str *)
| StructError         (* struct.pack / struct.unpack_from: value or size out of range *)
| UnicodeEncodeError  (* str.encode on a lone surrogate *)
| EOFError            (* getpass on an exhausted terminal *)
| SgError             (* py3_sg reports a failed SCSI request *)
| UnicodeDecodeError  (* str(b, 'utf-8') or bytes.decode on ill-formed bytes *)
| KeyError            (* os.environ[...] of a variable that is not set *)
| OSError.            (* a refused system call, an unreachable session bus *)

Inductive outcome (A : Type) :=
| Normal (a : A)
| SystemExit (status : Z)
| Raised (e : exn).
Arguments Normal {A} a.
Arguments SystemExit {A} status.
Arguments Raised {A} e.

Definition obind {A B} (o : outcome A) (k : A -> outcome B) : outcome B :=
  match o with
  | Normal a => k a
  | SystemExit n => SystemExit n
  | Raised e => Raised e
  end.

Declare Scope py_scope.
Delimit Scope py_scope with py.
Notation "x <-! c ;; k" := (obind c (fun x => k))
  (at level 61, c at next level, right associativity) : py_scope.
Local Open Scope py_scope.

(** A [str] as the list of its code points. *)
Definition pystr := list Z.

(** ** Subscripts, slices and item assignment *)

(** [b[i]] on a bytes object. *)
Definition getitem (b : bytes) (i : nat) : outcome Z :=
  match nth_error b i with
  | Some x => Normal (byte_val x)
  | None => Raised IndexError
  end.

(** [b[lo:hi]]; a slice never raises. *)
Definition slice {A} (l : list A) (lo hi : nat) : list A :=
  firstn (hi - lo) (skipn lo l).

(** [l[i] = v] on a list of ints. *)
Fixpoint setitem (l : list Z) (i : nat) (v : Z) : outcome (list Z) :=
  match l, i with
  | [], _ => Raised IndexError
  | _ :: t, O => Normal (v :: t)
  | h :: t, S i' => t' <-! setitem t i' v ;; Normal (h :: t')
  end.

(** [for c in src: l[i] = c; i += 1] *)
Fixpoint store_from (l : list Z) (i : nat) (src : list Z) : outcome (list Z) :=
  match src with
  | [] => Normal l
  | c :: rest => l' <-! setitem l i c ;; store_from l' (S i) rest
  end.

(** [s == t] for strings. *)
Fixpoint str_eqb (s t : pystr) : bool :=
  match s, t with
  | [], [] => true
  | a :: s', b :: t' => (a =? b) && str_eqb s' t'
  | _, _ => false
  end.

(** [x in l] for ints. *)
Definition int_in (x : Z) (l : list Z) : bool := existsb (Z.eqb x) l.

(** ** struct packing *)

(** [struct.pack('{n}B', *cdb)]: every item must fit an unsigned byte. *)
Definition _scsi_pack_cdb (cdb : list Z) : outcome bytes :=
  if forallb (fun c => (0 <=? c) && (c <? 256)) cdb
  then Normal (map byte_of_Z cdb)
  else Raised StructError.

(** [struct.pack('!I', num)] *)
Definition htonl (num : Z) : outcome bytes :=
  if (0 <=? num) && (num <? 2 ^ 32)
  then Normal [byte_of_Z (Z.shiftr num 24); byte_of_Z (Z.shiftr num 16);
               byte_of_Z (Z.shiftr num 8); byte_of_Z num]
  else Raised StructError.

(** [struct.pack('!H', num)] *)
Definition htons (num : Z) : outcome bytes :=
  if (0 <=? num) && (num <? 2 ^ 16)
  then Normal [byte_of_Z (Z.shiftr num 8); byte_of_Z num]
  else Raised StructError.

(** [struct.unpack_from("<I", b)[0]] *)
Definition unpack_le_u32 (b : bytes) : outcome Z :=
  match b with
  | b0 :: b1 :: b2 :: b3 :: _ =>
      Normal (byte_val b0 + byte_val b1 * 2 ^ 8 + byte_val b2 * 2 ^ 16 + byte_val b3 * 2 ^ 24)
  | _ => Raised StructError
  end.

(** [hex(n)] and the [#x] format, which agree on ints. *)
Definition hex (n : Z) : string := HexString.of_Z n.

(** ** The world: device, terminal, keyring, entropy, and the history *)

Inductive level := LFail | LSuccess | LQuestion.

Inductive event :=
| Printed (l : level) (msg : string)
| SgRead (cdb : bytes) (size : Z)        (* py3_sg.read_as_bin_str(dev, cdb, size) *)
| SgWrite (cdb : bytes) (data : bytes)   (* py3_sg.write(dev, cdb, data) *)
| SecretStored (secret : bytes).         (* an item created in the stand-in keyring *)

Record world := World {
  device_reads : list (option bytes);  (* answers to the successive reads; None: the request fails *)
  device_writes : list bool;           (* whether the successive writes are accepted *)
  tty : list pystr;                    (* what the user types at the successive getpass prompts *)
  entropy : nat -> byte;               (* the kernel entropy stream *)
  entropy_pos : nat;
  keyring : option bytes;              (* the secret the stand-in keyring of [Mock] holds *)
  keyring_writable : bool;             (* whether that keyring accepts a new item *)
  history : list event                 (* oldest first *)
}.

Definition BLOCK_SIZE : Z := 512.

Definition M (A : Type) := world -> outcome A * world.

Definition ret {A} (a : A) : M A := fun w => (Normal a, w).

Definition bind {A B} (m : M A) (k : A -> M B) : M B :=
  fun w =>
    match m w with
    | (Normal a, w') => k a w'
    | (SystemExit n, w') => (SystemExit n, w')
    | (Raised e, w') => (Raised e, w')
    end.

Notation "x <- c ;; k" := (bind c (fun x => k))
  (at level 61, c at next level, right associativity) : py_scope.
Notation "' pat <- c ;; k" := (bind c (fun x => match x with pat => k end))
  (at level 61, pat pattern, c at next level, right associativity) : py_scope.
Notation "c ;; k" := (bind c (fun _ => k))
  (at level 61, right associativity) : py_scope.

Definition lift {A} (o : outcome A) : M A := fun w => (o, w).

Definition sys_exit {A} (status : Z) : M A := fun w => (SystemExit status, w).

(** [try: body except: handler]: a bare [except] catches whatever leaves
    the body abnormally. *)
Definition try_except {A} (body handler : M A) : M A :=
  fun w =>
    match body w with
    | (Normal a, w') => (Normal a, w')
    | (_, w') => handler w'
    end.

Definition emit (e : event) : M unit :=
  fun w => (Normal tt,
            World (device_reads w) (device_writes w) (tty w) (entropy w)
                  (entropy_pos w) (keyring w) (keyring_writable w)
                  (history w ++ [e])).

Definition fail (msg : string) : M unit := emit (Printed LFail msg).
Definition success (msg : string) : M unit := emit (Printed LSuccess msg).
Definition question (msg : string) : M unit := emit (Printed LQuestion msg).

(** [py3_sg.read_as_bin_str(dev, cdb, size)] *)
Definition sg_read (cdb : bytes) (size : Z) : M bytes :=
  emit (SgRead cdb size) ;;
  fun w =>
    match device_reads w with
    | r :: rest =>
        (match r with Some d => Normal d | None => Raised SgError end,
         World rest (device_writes w) (tty w) (entropy w)
               (entropy_pos w) (keyring w) (keyring_writable w) (history w))
    | [] => (Raised SgError, w)
    end.

(** [py3_sg.write(dev, cdb, data)] *)
Definition sg_write (cdb data : bytes) : M unit :=
  emit (SgWrite cdb data) ;;
  fun w =>
    match device_writes w with
    | ok :: rest =>
        (if ok then Normal tt else Raised SgError,
         World (device_reads w) rest (tty w) (entropy w)
               (entropy_pos w) (keyring w) (keyring_writable w) (history w))
    | [] => (Raised SgError, w)
    end.

(** [getpass.getpass()] *)
Definition getpass : M pystr :=
  fun w =>
    match tty w with
    | line :: rest =>
        (Normal line,
         World (device_reads w) (device_writes w) rest (entropy w)
               (entropy_pos w) (keyring w) (keyring_writable w) (history w))
    | [] => (Raised EOFError, w)
    end.

(** [os.urandom(n)] *)
Definition urandom (n : Z) : M bytes :=
  fun w =>
    (Normal (map (entropy w) (seq (entropy_pos w) (Z.to_nat n))),
     World (device_reads w) (device_writes w) (tty w) (entropy w)
           (entropy_pos w + Z.to_nat n) (keyring w) (keyring_writable w) (history w)).

(** [for x in l: body(x)] *)
Fixpoint for_each {A} (l : list A) (body : A -> M unit) : M unit :=
  match l with
  | [] => ret tt
  | x :: rest => body x ;; for_each rest body
  end.

(** ** Handy Store access *)

Definition read_handy_store_template : list Z :=
  [0xD8; 0x00; 0x00; 0x00; 0x00; 0x01; 0x00; 0x00; 0x01; 0x00].

(** The descriptor built by [read_handy_store]: the template with the page
    number stored from index 2 on. *)
Definition read_handy_store_cdb (page : Z) : outcome (list Z) :=
  p <-! htonl page ;;
  store_from read_handy_store_template 2 (map byte_val p).

Definition read_handy_store (page : Z) : M bytes :=
  cdb <- lift (read_handy_store_cdb page) ;;
  packed <- lift (_scsi_pack_cdb cdb) ;;
  sg_read packed BLOCK_SIZE.

(** [for i in range(510): c = c + data[i]] *)
Fixpoint sum_items (data : bytes) (idx : list nat) (c : Z) : outcome Z :=
  match idx with
  | [] => Normal c
  | i :: rest => x <-! getitem data i ;; sum_items data rest (c + x)
  end.

Definition hsb_checksum (data : bytes) : outcome string :=
  c <-! sum_items data (seq 0 510) 0 ;;
  d0 <-! getitem data 0 ;;
  let c := c + d0 in
  let r := Z.land (c * -1) 0xFF in
  Normal (hex r).

Definition status_cdb : list Z :=
  [0xC0; 0x45; 0x00; 0x00; 0x00; 0x00; 0x00; 0x00; 0x30; 0x00].

Definition get_encryption_status : M (Z * Z * bytes) :=
  packed <- lift (_scsi_pack_cdb status_cdb) ;;
  data <- sg_read packed BLOCK_SIZE ;;
  d0 <- lift (getitem data 0) ;;
  (if negb (d0 =? 0x45)
   then fail ("Wrong encryption status signature " ++ hex d0) ;; sys_exit 1
   else ret tt) ;;
  d3 <- lift (getitem data 3) ;;
  d4 <- lift (getitem data 4) ;;
  ret (d3, d4, slice data 8 12).

Definition HSB1_signature : list Z := [0x00; 0x01; 0x44; 0x57].

Definition read_HSB1 : M (Z * bytes * bytes) :=
  sector_data <- read_handy_store 1 ;;
  computed <- lift (hsb_checksum sector_data) ;;
  stored <- lift (getitem sector_data 511) ;;
  (if negb (String.eqb computed (hex stored))
   then fail "Wrong HSB1 checksum" ;; sys_exit 1
   else ret tt) ;;
  for_each (seq 0 4) (fun i =>
    d <- lift (getitem sector_data i) ;;
    if negb (nth i HSB1_signature 0 =? d)
    then fail "Wrong HSB1 signature." ;; sys_exit 1
    else ret tt) ;;
  iteration <- lift (unpack_le_u32 (skipn 8 sector_data)) ;;
  let salt := slice sector_data 12 20 ++ [x00; x00] in
  let hint := slice sector_data 24 226 ++ [x00; x00] in
  ret (iteration, salt, hint).

(** ** Password derivation *)

(** The salt-cleaning loop of [mk_password_block], over the pair indices
    still to visit.  Both subscripts are below [len(salt)] for every index
    the loop visits. *)
Fixpoint clean_salt_loop (salt : bytes) (idx : list nat) (clean_salt : pystr) : pystr :=
  match idx with
  | [] => clean_salt
  | i :: rest =>
      let lo := byte_val (nth (2 * i) salt x00) in
      let hi := byte_val (nth (2 * i + 1) salt x00) in
      if (lo =? hi) && (hi =? 0x00) then clean_salt
      else clean_salt_loop salt rest (clean_salt ++ [lo])
  end.

Definition clean_salt (salt : bytes) : pystr :=
  clean_salt_loop salt (seq 0 (length salt / 2)) [].

(** The UTF-16 code units of one code point; a lone surrogate cannot be
    encoded.  (A [str] holds no code point outside 0..0x10FFFF.) *)
Definition utf16_units (cp : Z) : outcome (list Z) :=
  if (0 <=? cp) && (cp <? 0xD800) || (0xE000 <=? cp) && (cp <? 0x10000)
  then Normal [cp]
  else if (0x10000 <=? cp) && (cp <? 0x110000)
  then Normal [0xD800 + Z.shiftr (cp - 0x10000) 10;
               0xDC00 + Z.land (cp - 0x10000) 0x3FF]
  else Raised UnicodeEncodeError.

Definition le16 (u : Z) : bytes := [byte_of_Z u; byte_of_Z (Z.shiftr u 8)].

Fixpoint utf_16_le (s : pystr) : outcome bytes :=
  match s with
  | [] => Normal []
  | cp :: rest =>
      us <-! utf16_units cp ;;
      tl <-! utf_16_le rest ;;
      Normal (flat_map le16 us ++ tl)
  end.

(** [s.encode("utf-16")]: a byte-order mark, then the code units in the
    byte order of the host, which is little-endian here. *)
Definition encode_utf_16 (s : pystr) : outcome bytes :=
  body <-! utf_16_le s ;;
  Normal (le16 0xFEFF ++ body).

Definition mk_password_block (passwd : pystr) (iteration : Z) (salt : bytes)
  : outcome bytes :=
  let password := clean_salt salt ++ passwd in
  encoded <-! encode_utf_16 password ;;
  let password := skipn 2 encoded in
  Normal (Nat.iter (Z.to_nat iteration) sha256 password).

(** ** Collaborators of [unlock]

    [get_device_info] runs four shell pipelines over [lsscsi], and the two
    keyring functions switch the effective user and talk to the D-Bus
    secret service; each of them can fail in ways of its own (a missing
    [SUDO_UID], an unreachable session bus, a stored secret that is not
    base64, a device path that is not UTF-8).  The pipelines and the two
    keyring functions enter the model as arbitrary computations: what is
    proved of [unlock] holds whatever they do. *)

(** The [device] that [main] hands to [unlock]: the [str] of the [-d]
    option, or the [bytes] path that [get_device] found. *)
Inductive device_path :=
| DeviceStr (s : pystr)
| DeviceBytes (b : bytes).

(** [lsscsi host i device] is the output, stripped on the right, of the
    [i]-th pipeline of [get_device_info] (l.492-514), which greps for the
    decoded device path. *)
Record collaborators := Collaborators {
  lsscsi : nat -> bytes -> M bytes;
  get_password_from_secret_service : bytes -> M bytes;
  seve_password_to_secret_service : bytes -> bytes -> M unit
}.

(** [get_device_info(device)] for a device that is not [None].
    [str(device, 'utf-8')] (l.489) decodes a [bytes] and refuses a [str]
    with a [TypeError]. *)
Definition get_device_info (host : collaborators) (device : device_path)
  : M (list bytes) :=
  match device with
  | DeviceStr _ => lift (Raised TypeError)
  | DeviceBytes grep_string =>
      complete_path <- lsscsi host 0 grep_string ;;
      relative_path <- lsscsi host 1 grep_string ;;
      host_number <- lsscsi host 2 grep_string ;;
      dev_name <- lsscsi host 3 grep_string ;;
      ret [complete_path; relative_path; host_number; dev_name]
  end.

(** [l[i]] on a list of bytes objects. *)
Definition list_getitem (l : list bytes) (i : nat) : outcome bytes :=
  match nth_error l i with
  | Some x => Normal x
  | None => Raised IndexError
  end.

(** ** The operations *)

Definition unlock (host : collaborators) (device : device_path)
           (save_passwd unlock_with_saved_passwd : bool) : M unit :=
  let cdb := [0xC1; 0xE1; 0x00; 0x00; 0x00; 0x00; 0x00; 0x00; 0x28; 0x00] in
  '(sec_status, cipher_id, _) <- get_encryption_status ;;
  if int_in sec_status [0x00; 0x02] then
    fail "Your device is already unlocked!"
  else
    (if negb (sec_status =? 0x01)
     then fail "Wrong device status!" ;; sys_exit 1
     else ret tt) ;;
    pwblen <-
      (if int_in cipher_id [0x10; 0x12; 0x18] then ret 16
       else if int_in cipher_id [0x20; 0x22; 0x28] then ret 32
       else if cipher_id =? 0x30 then ret 32
       else fail ("Unsupported cipher " ++ hex cipher_id) ;; sys_exit 1) ;;
    pwd_hashed <-
      (if negb unlock_with_saved_passwd then
         question "Insert password to Unlock the device:" ;;
         passwd <- getpass ;;
         '(iteration, salt, _) <- read_HSB1 ;;
         lift (mk_password_block passwd iteration salt)
       else
         success "Unlock use saved password" ;;
         info <- get_device_info host device ;;
         name <- lift (list_getitem info 3) ;;
         get_password_from_secret_service host name) ;;
    (if save_passwd then
       info <- get_device_info host device ;;
       name <- lift (list_getitem info 3) ;;
       seve_password_to_secret_service host name pwd_hashed
     else ret tt) ;;
    len <- lift (htons pwblen) ;;
    let pw_block := [0x45; 0x00; 0x00; 0x00; 0x00; 0x00] ++ map byte_val len in
    cdb <- lift (setitem cdb 8 (pwblen + 8)) ;;
    try_except
      (c <- lift (_scsi_pack_cdb cdb) ;;
       p <- lift (_scsi_pack_cdb pw_block) ;;
       sg_write c (p ++ pwd_hashed) ;;
       success "Device unlocked.")
      (fail "Wrong password? Or something bad is happened. Try again").

(** What [change_password] holds in [old_passwd_hashed] and
    [new_passwd_hashed]: the digest, a [bytes], or the string built by
    the zero-filling loop, a [str]. *)
Inductive hashed :=
| HBytes (b : bytes)
| HStr (s : pystr).

(** [b + h] for a bytes object [b]. *)
Definition bytes_add (b : bytes) (h : hashed) : outcome bytes :=
  match h with
  | HBytes b' => Normal (b ++ b')
  | HStr _ => Raised TypeError
  end.

(** [s = ""; for _ in range(32): s = s + chr(0x00)] *)
Definition zero_fill : pystr :=
  fold_left (fun s _ => s ++ [0x00]) (seq 0 32) [].

(** The command [change_password] has ready when it reaches its [try]:
    descriptor, parameter block, and the two hash operands. *)
Definition change_password_build : M (list Z * list Z * hashed * hashed) :=
  let cdb := [0xC1; 0xE2; 0x00; 0x00; 0x00; 0x00; 0x00; 0x00; 0x48; 0x00] in
  '(sec_status, cipher_id, _) <- get_encryption_status ;;
  (if negb (int_in sec_status [0x02; 0x00])
   then fail "Device has to be unlocked or without encryption to perform this operation" ;;
        sys_exit 1
   else ret tt) ;;
  pwblen <-
    (if int_in cipher_id [0x10; 0x12; 0x18] then ret 16
     else if int_in cipher_id [0x20; 0x22; 0x28] then ret 32
     else if cipher_id =? 0x30 then ret 32
     else fail ("Unsupported cipher " ++ hex cipher_id) ;; sys_exit 1) ;;
  question "Insert the OLD password" ;;
  old_passwd <- getpass ;;
  question "Insert the NEW password" ;;
  new_passwd <- getpass ;;
  question "Confirm the NEW password" ;;
  new_passwd2 <- getpass ;;
  (if negb (str_eqb new_passwd new_passwd2)
   then fail "Password confirmation doesn't match the given password" ;; sys_exit 1
   else ret tt) ;;
  (if (Nat.eqb (length old_passwd) (length new_passwd)) && (Nat.eqb (length new_passwd) 0)
   then fail "Both passwords shouldn't be empty" ;; sys_exit 1
   else ret tt) ;;
  '(iteration, salt, _) <- read_HSB1 ;;
  len <- lift (htons pwblen) ;;
  let pw_block := [0x45; 0x00; 0x00; 0x00; 0x00; 0x00] ++ map byte_val len in
  '(old_passwd_hashed, pw_block) <-
    (if (0 <? length old_passwd)%nat then
       h <- lift (mk_password_block old_passwd iteration salt) ;;
       pb <- lift (setitem pw_block 3 (Z.lor (nth 3 pw_block 0) 0x10)) ;;
       ret (HBytes h, pb)
     else ret (HStr zero_fill, pw_block)) ;;
  '(new_passwd_hashed, pw_block) <-
    (if (0 <? length new_passwd)%nat then
       h <- lift (mk_password_block new_passwd iteration salt) ;;
       pb <- lift (setitem pw_block 3 (Z.lor (nth 3 pw_block 0) 0x01)) ;;
       ret (HBytes h, pb)
     else ret (HStr zero_fill, pw_block)) ;;
  pw_block <-
    (if Z.land (nth 3 pw_block 0) 0x11 =? 0x11
     then lift (setitem pw_block 3 (Z.land (nth 3 pw_block 0) 0xEE))
     else ret pw_block) ;;
  cdb <- lift (setitem cdb 8 (8 + 2 * pwblen)) ;;
  ret (cdb, pw_block, old_passwd_hashed, new_passwd_hashed).

Definition change_password : M unit :=
  '(cdb, pw_block, old_passwd_hashed, new_passwd_hashed) <- change_password_build ;;
  try_except
    (c <- lift (_scsi_pack_cdb cdb) ;;
     p <- lift (_scsi_pack_cdb pw_block) ;;
     p <- lift (bytes_add p old_passwd_hashed) ;;
     p <- lift (bytes_add p new_passwd_hashed) ;;
     sg_write c p ;;
     success "Password changed.")
    (fail "Error changing password: Wrong password or something bad is happened.").

Definition secure_erase (cipher_id : Z) : M unit :=
  let cdb := [0xC1; 0xE3; 0x00; 0x00; 0x00; 0x00; 0x00; 0x00; 0x08; 0x00] in
  '(_, current_cipher_id, key_reset) <- get_encryption_status ;;
  let cipher_id := if cipher_id =? 0 then current_cipher_id else cipher_id in
  let pw_block := [0x45; 0x00; 0x00; 0x00; 0x30; 0x00; 0x00; 0x00] in
  '(pwblen, pw_block) <-
    (if int_in cipher_id [0x10; 0x12; 0x18] then
       pb <- lift (setitem pw_block 3 0x01) ;; ret (16, pb)
     else if int_in cipher_id [0x20; 0x22; 0x28] then
       pb <- lift (setitem pw_block 3 0x01) ;; ret (32, pb)
     else if cipher_id =? 0x30 then ret (32, pw_block)
     else fail ("Unsupported cipher " ++ hex cipher_id) ;; sys_exit 1) ;;
  cdb <- lift (setitem cdb 8 (pwblen + 8)) ;;
  rand <- urandom pwblen ;;
  let pw_block := pw_block ++ map byte_val rand in
  '(_, _, key_reset) <- get_encryption_status ;;
  cdb <- lift (store_from cdb 2 (map byte_val key_reset)) ;;
  try_except
    (c <- lift (_scsi_pack_cdb cdb) ;;
     p <- lift (_scsi_pack_cdb pw_block) ;;
     sg_write c p ;;
     success "Device erased. You need to create a new partition on the device (Hint: fdisk and mkfs)")
    (fail "Something wrong.").

(** The block with byte [i] replaced. *)
Fixpoint replace_at (i : nat) (x : byte) (l : bytes) : bytes :=
  match l, i with
  | [], _ => []
  | _ :: t, O => x :: t
  | h :: t, S i' => h :: replace_at i' x t
  end.

(** ** A mock device *)

Module Mock.

(** A 512-byte block given by its non-zero bytes. *)
Definition block (cells : list (nat * Z)) : bytes :=
  map (fun i =>
         match find (fun c => Nat.eqb (fst c) i) cells with
         | Some c => byte_of_Z (snd c)
         | None => x00
         end) (seq 0 512).

(** A status answer: signature 0x45, status, cipher, key-reset token. *)
Definition status (sec_status cipher_id t0 t1 t2 t3 : Z) : bytes :=
  block [(0%nat, 0x45); (3%nat, sec_status); (4%nat, cipher_id);
         (8%nat, t0); (9%nat, t1); (10%nat, t2); (11%nat, t3)].

(** Handy Store block 1 with the given iteration count (below 256), the
    salt "AB" and the given checksum byte. *)
Definition hsb1_with (iteration checksum : Z) : bytes :=
  block [(1%nat, 0x01); (2%nat, 0x44); (3%nat, 0x57); (8%nat, iteration);
         (12%nat, 0x41); (14%nat, 0x42); (511%nat, checksum)].

(** Iteration count 1; the bytes add up to 0x120, so the checksum is 0xE0. *)
Definition hsb1 : bytes := hsb1_with 1 0xE0.

(** A block with neither the signature nor a matching checksum: all
    zero but for the checksum byte, which is 1. *)
Definition unsigned_block : bytes := block [(511%nat, 0x01)].

(** [hsb1] with the top bit of byte 0 flipped. *)
Definition hsb1_flipped : bytes := replace_at 0 x80 hsb1.

(** Status answers: locked and unlocked, with a 128-bit and a 256-bit
    cipher, and two different key-reset tokens. *)
Definition locked16 : bytes := status 0x01 0x10 0xA1 0xA2 0xA3 0xA4.
Definition unlocked16 : bytes := status 0x02 0x10 0xA1 0xA2 0xA3 0xA4.
Definition unlocked32 : bytes := status 0x02 0x22 0xA1 0xA2 0xA3 0xA4.
Definition unlocked16_next : bytes := status 0x02 0x10 0xB1 0xB2 0xB3 0xB4.
Definition blocked : bytes := status 0x06 0x10 0xA1 0xA2 0xA3 0xA4.

Definition world0 (reads : list (option bytes)) (writes : list bool)
           (typed : list pystr) : world :=
  World reads writes typed (fun i => byte_of_Z (Z.of_nat i)) 0 None true [].

(** Stand-ins for the collaborators of [unlock], for the test runs: a
    device lookup that answers the same four fields for every device, and
    a keyring that is a field of the world, answers the empty bytes when
    it holds nothing and records what it is given. *)
Definition device_info : list bytes :=
  [[x2f; x64; x65; x76; x2f; x73; x64; x62]; [x73; x64; x62]; [x32; x33];
   [x57; x44]].

Definition lookup (name : bytes) : M bytes :=
  fun w =>
    match keyring w with
    | Some secret => (Normal secret, w)
    | None => (fail "failed to read from keyring" ;; ret []) w
    end.

Definition store (name password : bytes) : M unit :=
  fun w =>
    if keyring_writable w then emit (SecretStored password) w
    else fail "Can't save password to Secret Service agent" w.

Definition host : collaborators :=
  Collaborators (fun i _ => ret (nth i device_info [])) lookup store.

Definition sdb : device_path := DeviceBytes [x2f; x64; x65; x76; x2f; x73; x64; x62].

End Mock.

(** ** Vocabulary of the statements *)

(** The commands written to the device, oldest first. *)
Fixpoint sg_writes (h : list event) : list (bytes * bytes) :=
  match h with
  | [] => []
  | SgWrite c d :: rest => (c, d) :: sg_writes rest
  | _ :: rest => sg_writes rest
  end.

(** The value of byte [i] of a block. *)
Definition item (d : bytes) (i : nat) : Z := byte_val (nth i d x00).

Definition byte_sum (l : bytes) : Z := fold_right (fun b s => byte_val b + s) 0 l.

(** The two tests of [read_HSB1] on a block. *)
Definition checksum_ok (d : bytes) : bool :=
  (- (byte_sum (firstn 510 d) + item d 0)) mod 256 =? item d 511.

Definition signature_ok (d : bytes) : bool :=
  (0x00 =? item d 0) && (0x01 =? item d 1) && (0x44 =? item d 2) && (0x57 =? item d 3).

(** What [read_HSB1] extracts from a block. *)
Definition iteration_of (d : bytes) : Z :=
  item d 8 + item d 9 * 2 ^ 8 + item d 10 * 2 ^ 16 + item d 11 * 2 ^ 24.
Definition salt_of (d : bytes) : bytes := slice d 12 20 ++ [x00; x00].
Definition hint_of (d : bytes) : bytes := slice d 24 226 ++ [x00; x00].

(** The world with more history, and after one more device read. *)
Definition logged (es : list event) (w : world) : world :=
  World (device_reads w) (device_writes w) (tty w) (entropy w)
        (entropy_pos w) (keyring w) (keyring_writable w) (history w ++ es).

Definition after_read (w : world) : world :=
  World (tl (device_reads w)) (device_writes w) (tty w) (entropy w)
        (entropy_pos w) (keyring w) (keyring_writable w) (history w).

(** The world whose device answers [d] to the next read. *)
Definition answering (d : bytes) (w : world) : world :=
  World (Some d :: device_reads w) (device_writes w) (tty w) (entropy w)
        (entropy_pos w) (keyring w) (keyring_writable w) (history w).

(** The world whose user types [line] at the next prompt. *)
Definition typing (line : pystr) (w : world) : world :=
  World (device_reads w) (device_writes w) (line :: tty w) (entropy w)
        (entropy_pos w) (keyring w) (keyring_writable w) (history w).

(** Whether the device accepts the next write, and the world after it. *)
Definition accepted (w : world) : bool :=
  match device_writes w with
  | ok :: _ => ok
  | [] => false
  end.

Definition after_write (w : world) : world :=
  World (device_reads w) (tl (device_writes w)) (tty w) (entropy w)
        (entropy_pos w) (keyring w) (keyring_writable w) (history w).

(** The world after [n] bytes of entropy were drawn. *)
Definition after_urandom (n : nat) (w : world) : world :=
  World (device_reads w) (device_writes w) (tty w) (entropy w)
        (entropy_pos w + n) (keyring w) (keyring_writable w) (history w).

(** The password block length the three operations select for a cipher. *)
Definition pwblen_of (cipher_id : Z) : option Z :=
  if int_in cipher_id [0x10; 0x12; 0x18] then Some 16
  else if int_in cipher_id [0x20; 0x22; 0x28] then Some 32
  else if cipher_id =? 0x30 then Some 32
  else None.

(** The three stretches of [unlock] on a locked device with a supported
    cipher: getting the password block (l.329-337), saving it when asked
    to (l.339-340), and sending the command (l.342-354). *)
Definition unlock_acquire (host : collaborators) (device : device_path)
           (unlock_with_saved_passwd : bool) : M bytes :=
  if negb unlock_with_saved_passwd then
    question "Insert password to Unlock the device:" ;;
    passwd <- getpass ;;
    '(iteration, salt, _) <- read_HSB1 ;;
    lift (mk_password_block passwd iteration salt)
  else
    success "Unlock use saved password" ;;
    info <- get_device_info host device ;;
    name <- lift (list_getitem info 3) ;;
    get_password_from_secret_service host name.

Definition unlock_store (host : collaborators) (device : device_path)
           (save_passwd : bool) (pwd_hashed : bytes) : M unit :=
  if save_passwd then
    info <- get_device_info host device ;;
    name <- lift (list_getitem info 3) ;;
    seve_password_to_secret_service host name pwd_hashed
  else ret tt.

Definition unlock_send (pwblen : Z) (pwd_hashed : bytes) : M unit :=
  len <- lift (htons pwblen) ;;
  let pw_block := [0x45; 0x00; 0x00; 0x00; 0x00; 0x00] ++ map byte_val len in
  cdb <- lift (setitem [0xC1; 0xE1; 0x00; 0x00; 0x00; 0x00; 0x00; 0x00; 0x28; 0x00]
                       8 (pwblen + 8)) ;;
  try_except
    (c <- lift (_scsi_pack_cdb cdb) ;;
     p <- lift (_scsi_pack_cdb pw_block) ;;
     sg_write c (p ++ pwd_hashed) ;;
     success "Device unlocked.")
    (fail "Wrong password? Or something bad is happened. Try again").

(** The flags byte and the hash operand [change_password] has ready for a
    side, given the digest of that side's passphrase. *)
Definition change_flags (old_passwd new_passwd : pystr) : Z :=
  match old_passwd, new_passwd with
  | [], [] => 0x00
  | [], _ :: _ => 0x01
  | _ :: _, [] => 0x10
  | _ :: _, _ :: _ => 0x00
  end.

Definition operand (passwd : pystr) (digest : bytes) : hashed :=
  match passwd with
  | [] => HStr (repeat 0x00 32)
  | _ :: _ => HBytes digest
  end.

(** The flags byte of the SecureErase parameter block. *)
Definition erase_flags (cipher_id : Z) : Z :=
  if cipher_id =? 0x30 then 0x00 else 0x01.

(** The cipher [secure_erase] builds its block for. *)
Definition erase_cipher (cipher_id current_cipher_id : Z) : Z :=
  if cipher_id =? 0 then current_cipher_id else cipher_id.

Definition unlock_verdict (ok : bool) : event :=
  if ok then Printed LSuccess "Device unlocked."
  else Printed LFail "Wrong password? Or something bad is happened. Try again".

Definition change_verdict (ok : bool) : event :=
  if ok then Printed LSuccess "Password changed."
  else Printed LFail "Error changing password: Wrong password or something bad is happened.".

Definition erase_verdict (ok : bool) : event :=
  if ok then Printed LSuccess "Device erased. You need to create a new partition on the device (Hint: fdisk and mkfs)"
  else Printed LFail "Something wrong.".

(** The descriptors as sent. *)
Definition status_descriptor : bytes :=
  [xc0; x45; x00; x00; x00; x00; x00; x00; x30; x00].

Definition handy_store_descriptor (page : Z) : bytes :=
  [xd8; x00; byte_of_Z (Z.shiftr page 24); byte_of_Z (Z.shiftr page 16);
   byte_of_Z (Z.shiftr page 8); byte_of_Z page; x00; x00; x01; x00].

Definition unlock_descriptor (pwblen : Z) : bytes :=
  map byte_of_Z [0xC1; 0xE1; 0x00; 0x00; 0x00; 0x00; 0x00; 0x00; pwblen + 8; 0x00].

Definition change_password_descriptor (pwblen : Z) : bytes :=
  map byte_of_Z [0xC1; 0xE2; 0x00; 0x00; 0x00; 0x00; 0x00; 0x00; 8 + 2 * pwblen; 0x00].

Definition secure_erase_descriptor (token : bytes) (pwblen : Z) : bytes :=
  [xc1; xe3] ++ token ++ map byte_of_Z [0x00; 0x00; pwblen + 8; 0x00].

(** The eight bytes that open the parameter block of Unlock and of
    ChangePassword, and of SecureErase. *)
Definition password_header (flags pwblen : Z) : bytes :=
  map byte_of_Z [0x45; 0x00; 0x00; flags; 0x00; 0x00; Z.shiftr pwblen 8; pwblen].

Definition erase_header (flags : Z) : bytes :=
  map byte_of_Z [0x45; 0x00; 0x00; flags; 0x30; 0x00; 0x00; 0x00].

(** The test of the salt-cleaning loop on pair [k]. *)
Definition pair_zero (salt : bytes) (k : nat) : bool :=
  (item salt (2 * k) =? item salt (2 * k + 1)) && (item salt (2 * k + 1) =? 0x00).

(** What [change_password] adds to the history before it reads the Handy
    Store. *)
Definition change_prompts : list event :=
  [SgRead status_descriptor BLOCK_SIZE;
   Printed LQuestion "Insert the OLD password";
   Printed LQuestion "Insert the NEW password";
   Printed LQuestion "Confirm the NEW password"].

(** The digests of the mock scenarios: salt "AB", passphrases "a" and "b",
    one iteration. *)
Definition digest_ABa : bytes := sha256 [x41; x00; x42; x00; x61; x00].
Definition digest_ABb : bytes := sha256 [x41; x00; x42; x00; x62; x00].

(** The Handy Store descriptor as the wire table prints it: [D8 00], the
    page on four bytes, then [01 00 00 01 00]. *)
Definition tabulated_handy_store_descriptor (page : Z) : list Z :=
  [0xD8; 0x00]
  ++ [Z.shiftr page 24 mod 256; Z.shiftr page 16 mod 256; Z.shiftr page 8 mod 256; page mod 256]
  ++ [0x01; 0x00; 0x00; 0x01; 0x00].

(** ** The derivation in the words of the specification *)

Module Reference.

(** Take the salt as pairs of bytes; stop at the first all-zero pair;
    keep the low byte of each surviving pair as a character. *)
Fixpoint clean (salt : bytes) : pystr :=
  match salt with
  | lo :: hi :: rest =>
      if (byte_val lo =? 0) && (byte_val hi =? 0) then []
      else byte_val lo :: clean rest
  | _ => []
  end.

(** Apply the hash, then re-apply it to its own output, [n] times in all. *)
Fixpoint rehash (n : nat) (data : bytes) : bytes :=
  match n with
  | O => data
  | S n' => rehash n' (sha256 data)
  end.

(** Encode as UTF-16 (byte-order mark, little-endian code units), drop
    the first two encoded bytes, hash [n] times. *)
Definition derive (passphrase : pystr) (salt : bytes) (n : Z) : outcome bytes :=
  encoded <-! encode_utf_16 (clean salt ++ passphrase) ;;
  Normal (rehash (Z.to_nat n) (skipn 2 encoded)).

(** The other reading of the encoding step: the little-endian code units
    alone, with their first two bytes dropped. *)
Definition derive_unmarked (passphrase : pystr) (salt : bytes) (n : Z) : outcome bytes :=
  encoded <-! utf_16_le (clean salt ++ passphrase) ;;
  Normal (rehash (Z.to_nat n) (skipn 2 encoded)).

End Reference.

(** ** The rest of the program *)

(** [cipher_id_to_str]: a dictionary, the key looked up if present. *)
Definition lookup_name (table : list (Z * string)) (key : Z) : string :=
  match find (fun kv => fst kv =? key) table with
  | Some kv => snd kv
  | None => "unknown"
  end.

Definition cipher_id_to_str (id : Z) : string :=
  lookup_name [(0x10, "AES_128_ECB"); (0x12, "AES_128_CBC"); (0x18, "AES_128_XTS");
               (0x20, "AES_256_ECB"); (0x22, "AES_256_CBC"); (0x28, "AES_256_XTS");
               (0x30, "Full Disk Encryption")]%string
              id.

(** [enable_mount]: [rescan] stands for the lookup of the device through
    [lsscsi] and the two shell commands that make the kernel scan it again. *)
Definition enable_mount (rescan : M unit) : M unit :=
  '(sec_status, _, _) <- get_encryption_status ;;
  if int_in sec_status [0x00; 0x02] then
    rescan ;;
    success "Now depending on your system you can mount your device or it will be automatically mounted."
  else
    fail "Device needs to be unlocked in order to mount it.".

(** [r.lower() == 'y']: of all code points only "y" and "Y" lower to "y". *)
Definition lower_is_y (r : pystr) : bool :=
  match r with
  | [c] => (c =? 0x79) || (c =? 0x59)
  | _ => false
  end.

(** The erase branch of [main]; [r] is what [sys.stdin.read(1)] returns. *)
Definition main_erase (r : pystr) : M unit :=
  question "Any data on the device will be lost. Are you sure you want to continue? [y/N]" ;;
  if lower_is_y r then secure_erase 0 else success "Ok. Bye.".

(** The code points [str.encode] accepts: all but the surrogates. *)
Definition scalar (cp : Z) : Prop :=
  0 <= cp < 0xD800 \/ 0xE000 <= cp < 0x110000.

Definition surrogate (cp : Z) : Prop := 0xD800 <= cp < 0xE000.

(** What the descriptor bytes of an unsigned byte list must satisfy. *)
Definition unsigned_byte (c : Z) : Prop := 0 <= c < 256.

(** The value of four bytes read most significant first. *)
Definition be_value (b : bytes) : Z :=
  fold_left (fun acc x => acc * 256 + byte_val x) b 0.

(** The checksum byte [hsb_checksum] computes for a block. *)
Definition checksum_byte (d : bytes) : Z :=
  (- (byte_sum (firstn 510 d) + item d 0)) mod 256.

(** The world whose device fails the next read. *)
Definition failing_read (w : world) : world :=
  World (None :: device_reads w) (device_writes w) (tty w) (entropy w)
        (entropy_pos w) (keyring w) (keyring_writable w) (history w).

(** * Properties *)

(** ** Bytes and hexadecimal *)

Lemma byte_val_range (b : byte) : 0 <= byte_val b < 256.
Proof.
  unfold byte_val. pose proof (Byte.to_N_bounded b). lia.
Qed.

Lemma byte_of_Z_val (b : byte) : byte_of_Z (byte_val b) = b.
Proof.
  unfold byte_of_Z. pose proof (byte_val_range b) as R.
  rewrite Z.mod_small by exact R.
  unfold byte_val. rewrite N2Z.id, Byte.of_to_N. reflexivity.
Qed.

Lemma byte_val_of_Z (z : Z) : byte_val (byte_of_Z z) = z mod 256.
Proof.
  unfold byte_of_Z, byte_val.
  pose proof (Z.mod_pos_bound z 256 ltac:(lia)) as R.
  destruct (Byte.of_N (Z.to_N (z mod 256))) as [b|] eqn:E.
  - apply Byte.to_of_N in E. rewrite E. lia.
  - apply Byte.of_N_None_iff in E. lia.
Qed.

Lemma byte_val_inj (a b : byte) : byte_val a = byte_val b -> a = b.
Proof.
  intros H. rewrite <- (byte_of_Z_val a), <- (byte_of_Z_val b), H. reflexivity.
Qed.

Lemma hex_inj (a b : Z) : hex a = hex b -> a = b.
Proof.
  unfold hex. intros H.
  rewrite <- (HexString.to_Z_of_Z a), <- (HexString.to_Z_of_Z b), H. reflexivity.
Qed.

Lemma hex_eqb (a b : Z) : String.eqb (hex a) (hex b) = (a =? b).
Proof.
  destruct (Z.eqb_spec a b) as [->|N].
  - apply String.eqb_refl.
  - apply String.eqb_neq. intros H. apply N, hex_inj, H.
Qed.

Lemma item_range (d : bytes) (i : nat) : 0 <= item d i < 256.
Proof. apply byte_val_range. Qed.

(** ** SHA-256 always yields 32 bytes *)

Lemma sha256_length (m : bytes) : length (sha256 m) = 32%nat.
Proof. reflexivity. Qed.

Example sha256_abc :
  map byte_val (sha256 [x61; x62; x63]) =
  [0xba; 0x78; 0x16; 0xbf; 0x8f; 0x01; 0xcf; 0xea; 0x41; 0x41; 0x40; 0xde;
   0x5d; 0xae; 0x22; 0x23; 0xb0; 0x03; 0x61; 0xa3; 0x96; 0x17; 0x7a; 0x9c;
   0xb4; 0x10; 0xff; 0x61; 0xf2; 0x00; 0x15; 0xad].
Proof. vm_compute. reflexivity. Qed.

Example hex_255 : hex 255 = "0xff"%string /\ hex 0 = "0x0"%string.
Proof. split; reflexivity. Qed.

(** ** Subscripts and sums *)

Lemma getitem_item (d : bytes) (i : nat) :
  (i < length d)%nat -> getitem d i = Normal (item d i).
Proof.
  intros H. unfold getitem, item.
  rewrite (nth_error_nth' d x00 H). reflexivity.
Qed.

Lemma getitem_out (d : bytes) (i : nat) :
  (length d <= i)%nat -> getitem d i = Raised IndexError.
Proof.
  intros H. unfold getitem.
  rewrite (proj2 (nth_error_None d i) H). reflexivity.
Qed.

Lemma skipn_cons_nth (d : bytes) (k : nat) :
  (k < length d)%nat -> skipn k d = nth k d x00 :: skipn (S k) d.
Proof.
  revert d. induction k as [|k IH]; intros [|b d] H; simpl in *; try lia.
  - reflexivity.
  - apply IH. lia.
Qed.

Lemma sum_items_seq (data : bytes) (n a : nat) (c : Z) :
  (a + n <= length data)%nat ->
  sum_items data (seq a n) c = Normal (c + byte_sum (firstn n (skipn a data))).
Proof.
  revert a c. induction n as [|n IH]; intros a c H; simpl.
  - f_equal. lia.
  - rewrite getitem_item by lia. simpl.
    rewrite IH by lia.
    rewrite (skipn_cons_nth data a) by lia. simpl.
    f_equal. unfold item. lia.
Qed.

Lemma land_255 (x : Z) : Z.land x 0xFF = x mod 256.
Proof. change 0xFF with (Z.ones 8). rewrite Z.land_ones by lia. reflexivity. Qed.

Lemma hsb_checksum_run (d : bytes) :
  (510 <= length d)%nat ->
  hsb_checksum d = Normal (hex ((- (byte_sum (firstn 510 d) + item d 0)) mod 256)).
Proof.
  intros H. unfold hsb_checksum.
  rewrite sum_items_seq by (simpl; lia). unfold obind.
  rewrite getitem_item by lia.
  rewrite land_255. change (skipn 0 d) with d.
  do 3 f_equal. lia.
Qed.

Lemma unpack_le_u32_skipn (d : bytes) (k : nat) :
  (k + 4 <= length d)%nat ->
  unpack_le_u32 (skipn k d) =
  Normal (item d k + item d (k + 1) * 2 ^ 8 + item d (k + 2) * 2 ^ 16
          + item d (k + 3) * 2 ^ 24).
Proof.
  intros H.
  rewrite (skipn_cons_nth d k) by lia.
  rewrite (skipn_cons_nth d (S k)) by lia.
  rewrite (skipn_cons_nth d (S (S k))) by lia.
  rewrite (skipn_cons_nth d (S (S (S k)))) by lia.
  unfold unpack_le_u32, item.
  replace (k + 1)%nat with (S k) by lia.
  replace (k + 2)%nat with (S (S k)) by lia.
  replace (k + 3)%nat with (S (S (S k))) by lia.
  reflexivity.
Qed.

(** ** Packing *)

Lemma pack_bytes (bs : bytes) : _scsi_pack_cdb (map byte_val bs) = Normal bs.
Proof.
  unfold _scsi_pack_cdb.
  assert (F : forallb (fun c => (0 <=? c) && (c <? 256)) (map byte_val bs) = true).
  { apply forallb_forall. intros x Hx. apply in_map_iff in Hx as [b [<- _]].
    pose proof (byte_val_range b). apply andb_true_iff. split; [apply Z.leb_le | apply Z.ltb_lt]; lia. }
  rewrite F. f_equal. rewrite map_map.
  rewrite <- (map_id bs) at 2. apply map_ext. intros b. apply byte_of_Z_val.
Qed.

Lemma htonl_run (p : Z) :
  0 <= p < 2 ^ 32 ->
  htonl p = Normal [byte_of_Z (Z.shiftr p 24); byte_of_Z (Z.shiftr p 16);
                    byte_of_Z (Z.shiftr p 8); byte_of_Z p].
Proof.
  intros H. unfold htonl.
  destruct (Z.leb_spec 0 p); [|lia]. destruct (Z.ltb_spec p (2 ^ 32)); [|lia].
  reflexivity.
Qed.

Lemma read_handy_store_cdb_run (p : Z) :
  0 <= p < 2 ^ 32 ->
  read_handy_store_cdb p = Normal (map byte_val (handy_store_descriptor p)).
Proof.
  intros H. unfold read_handy_store_cdb. rewrite (htonl_run p H). reflexivity.
Qed.

(** ** Running the device primitives *)

(** Unfold the plumbing of the monad, and nothing else. *)
Ltac run := cbv beta iota zeta delta [bind lift ret sys_exit fail success question].

Lemma sg_read_run (w : world) (c : bytes) (n : Z) (d : bytes) rest :
  device_reads w = Some d :: rest ->
  sg_read c n w = (Normal d, after_read (logged [SgRead c n] w)).
Proof.
  intros H. unfold sg_read, bind, emit, after_read, logged. simpl.
  rewrite H. reflexivity.
Qed.

Lemma read_handy_store_run (w : world) (p : Z) (d : bytes) rest :
  0 <= p < 2 ^ 32 ->
  device_reads w = Some d :: rest ->
  read_handy_store p w =
  (Normal d, after_read (logged [SgRead (handy_store_descriptor p) BLOCK_SIZE] w)).
Proof.
  intros Hp H. unfold read_handy_store. run.
  rewrite (read_handy_store_cdb_run p Hp), pack_bytes.
  apply (sg_read_run w _ _ d rest H).
Qed.

Lemma get_encryption_status_run (w : world) (d : bytes) rest :
  device_reads w = Some d :: rest ->
  length d = 512%nat ->
  item d 0 = 0x45 ->
  get_encryption_status w =
  (Normal (item d 3, item d 4, slice d 8 12),
   after_read (logged [SgRead status_descriptor BLOCK_SIZE] w)).
Proof.
  intros H L S. unfold get_encryption_status. run.
  change (_scsi_pack_cdb status_cdb) with (@Normal bytes status_descriptor). run.
  rewrite (sg_read_run w _ _ d rest H).
  rewrite !getitem_item by lia. rewrite S. reflexivity.
Qed.

(** A status answer with another first byte stops the program. *)
Lemma get_encryption_status_bad (w : world) (d : bytes) rest :
  device_reads w = Some d :: rest ->
  length d = 512%nat ->
  item d 0 <> 0x45 ->
  get_encryption_status w =
  (SystemExit 1,
   logged [Printed LFail ("Wrong encryption status signature " ++ hex (item d 0))]
          (after_read (logged [SgRead status_descriptor BLOCK_SIZE] w))).
Proof.
  intros H L S. unfold get_encryption_status. run.
  change (_scsi_pack_cdb status_cdb) with (@Normal bytes status_descriptor). run.
  rewrite (sg_read_run w _ _ d rest H).
  rewrite !getitem_item by lia.
  destruct (Z.eqb_spec (item d 0) 0x45) as [E|_]; [contradiction|].
  reflexivity.
Qed.

Lemma signature_loop_run (w : world) (d : bytes) :
  length d = 512%nat ->
  for_each (seq 0 4) (fun i =>
    d' <- lift (getitem d i) ;;
    if negb (nth i HSB1_signature 0 =? d')
    then fail "Wrong HSB1 signature." ;; sys_exit 1
    else ret tt) w =
  if signature_ok d then (Normal tt, w)
  else (SystemExit 1, logged [Printed LFail "Wrong HSB1 signature."] w).
Proof.
  intros L. unfold signature_ok. cbn [seq for_each]. run.
  rewrite !getitem_item by lia.
  cbn [nth HSB1_signature].
  destruct (0x00 =? item d 0); [|reflexivity].
  destruct (0x01 =? item d 1); [|reflexivity].
  destruct (0x44 =? item d 2); [|reflexivity].
  destruct (0x57 =? item d 3); reflexivity.
Qed.

(** [read_HSB1] on any 512-byte answer: the checksum is compared first,
    the signature second, and only then are the values extracted. *)
Lemma read_HSB1_run (w : world) (d : bytes) rest :
  device_reads w = Some d :: rest ->
  length d = 512%nat ->
  read_HSB1 w =
  let w1 := after_read (logged [SgRead (handy_store_descriptor 1) BLOCK_SIZE] w) in
  if negb (checksum_ok d) then
    (SystemExit 1, logged [Printed LFail "Wrong HSB1 checksum"] w1)
  else if negb (signature_ok d) then
    (SystemExit 1, logged [Printed LFail "Wrong HSB1 signature."] w1)
  else (Normal (iteration_of d, salt_of d, hint_of d), w1).
Proof.
  intros H L. unfold read_HSB1.
  unfold bind at 1. rewrite (read_handy_store_run w 1 d rest ltac:(lia) H).
  unfold bind at 1, lift at 1. rewrite hsb_checksum_run by lia.
  unfold bind at 1, lift at 1. rewrite getitem_item by lia.
  rewrite hex_eqb. fold (checksum_ok d).
  unfold bind at 1.
  destruct (checksum_ok d); cbn [negb]; [|reflexivity].
  unfold ret at 1.
  unfold bind at 1. rewrite (signature_loop_run _ d L).
  destruct (signature_ok d); cbn [negb]; [|reflexivity].
  run. rewrite (unpack_le_u32_skipn d 8) by lia. reflexivity.
Qed.

Lemma logged_logged (es1 es2 : list event) (w : world) :
  logged es2 (logged es1 w) = logged (es1 ++ es2) w.
Proof. unfold logged. simpl. rewrite <- app_assoc. reflexivity. Qed.

Lemma read_HSB1_answering (w : world) (d : bytes) :
  length d = 512%nat ->
  read_HSB1 (answering d w) =
  if negb (checksum_ok d) then
    (SystemExit 1,
     logged [SgRead (handy_store_descriptor 1) BLOCK_SIZE; Printed LFail "Wrong HSB1 checksum"] w)
  else if negb (signature_ok d) then
    (SystemExit 1,
     logged [SgRead (handy_store_descriptor 1) BLOCK_SIZE; Printed LFail "Wrong HSB1 signature."] w)
  else (Normal (iteration_of d, salt_of d, hint_of d),
        logged [SgRead (handy_store_descriptor 1) BLOCK_SIZE] w).
Proof.
  intros L.
  rewrite (read_HSB1_run (answering d w) d (device_reads w) eq_refl L).
  cbv zeta.
  change (after_read (logged ?es (answering d w))) with (logged es w).
  rewrite !logged_logged. reflexivity.
Qed.

(** ** The Handy Store read descriptor *)

Lemma shiftr_byte (p k : Z) :
  0 <= k -> byte_val (byte_of_Z (Z.shiftr p k)) = (p / 2 ^ k) mod 256.
Proof. intros H. rewrite byte_val_of_Z, Z.shiftr_div_pow2 by exact H. reflexivity. Qed.

(** C9, as amended.  For every page number that fits 32 bits, the descriptor
    of the Handy Store read has ten bytes: [D8 00], the page number
    big-endian in bytes 2 to 5, then [00 00 01 00]; the command asks for
    512 bytes and returns what the device answers. *)
Theorem read_handy_store_descriptor (p : Z) (d : bytes) (w : world) :
  0 <= p < 2 ^ 32 ->
  read_handy_store_cdb p =
    Normal [0xD8; 0x00;
            (p / 2 ^ 24) mod 256; (p / 2 ^ 16) mod 256; (p / 2 ^ 8) mod 256; p mod 256;
            0x00; 0x00; 0x01; 0x00]
  /\ read_handy_store p (answering d w) =
       (Normal d, logged [SgRead (handy_store_descriptor p) 512] w).
Proof.
  intros Hp. split.
  - rewrite (read_handy_store_cdb_run p Hp). unfold handy_store_descriptor.
    cbn [map]. rewrite !shiftr_byte by lia. rewrite byte_val_of_Z. reflexivity.
  - rewrite (read_handy_store_run (answering d w) p d (device_reads w) Hp eq_refl).
    reflexivity.
Qed.

Lemma read_handy_store_descriptor_witness :
  read_handy_store_cdb 0x01020304 =
    Normal [0xD8; 0x00; 0x01; 0x02; 0x03; 0x04; 0x00; 0x00; 0x01; 0x00]
  /\ read_handy_store 0x01020304 (answering Mock.hsb1 (Mock.world0 [] [] [])) =
       (Normal Mock.hsb1,
        logged [SgRead (handy_store_descriptor 0x01020304) 512] (Mock.world0 [] [] [])).
Proof.
  exact (read_handy_store_descriptor 0x01020304 Mock.hsb1 (Mock.world0 [] [] [])
           ltac:(lia)).
Defined.

(** C9, as stated, fails on page 2: the descriptor sent is
    [D8 00 00 00 00 02 00 00 01 00]; the tabulated layout has eleven bytes,
    and neither it nor its first ten bytes is what is sent. *)
Lemma read_handy_store_not_tabulated :
  read_handy_store_cdb 2 =
    Normal [0xD8; 0x00; 0x00; 0x00; 0x00; 0x02; 0x00; 0x00; 0x01; 0x00]
  /\ tabulated_handy_store_descriptor 2 =
       [0xD8; 0x00; 0x00; 0x00; 0x00; 0x02; 0x01; 0x00; 0x00; 0x01; 0x00]
  /\ read_handy_store_cdb 2 <> Normal (tabulated_handy_store_descriptor 2)
  /\ read_handy_store_cdb 2 <> Normal (firstn 10 (tabulated_handy_store_descriptor 2)).
Proof.
  repeat split; try reflexivity; vm_compute; intros H; discriminate H.
Qed.

(** ** Validation of Handy Store block 1 *)

(** C8, as amended.  [read_HSB1] compares the checksum first and the
    signature second.  A 512-byte block with a wrong checksum stops the
    program with the checksum error whatever its first four bytes are; a
    block with the right checksum whose first four bytes are not
    [00 01 44 57] stops it with the signature error; in both cases nothing
    that would follow the read runs, so no iteration count or salt reaches
    the derivation.  A block passing both tests yields its values. *)
Theorem read_HSB1_checks_in_order (d : bytes) (w : world) :
  length d = 512%nat ->
  (checksum_ok d = false ->
   forall (B : Type) (k : Z * bytes * bytes -> M B),
     (r <- read_HSB1 ;; k r) (answering d w) =
     (SystemExit 1,
      logged [SgRead (handy_store_descriptor 1) BLOCK_SIZE;
              Printed LFail "Wrong HSB1 checksum"] w))
  /\ (checksum_ok d = true -> signature_ok d = false ->
      forall (B : Type) (k : Z * bytes * bytes -> M B),
        (r <- read_HSB1 ;; k r) (answering d w) =
        (SystemExit 1,
         logged [SgRead (handy_store_descriptor 1) BLOCK_SIZE;
                 Printed LFail "Wrong HSB1 signature."] w))
  /\ (checksum_ok d = true -> signature_ok d = true ->
      read_HSB1 (answering d w) =
      (Normal (iteration_of d, salt_of d, hint_of d),
       logged [SgRead (handy_store_descriptor 1) BLOCK_SIZE] w)).
Proof.
  intros L. repeat split.
  - intros C B k. unfold bind. rewrite (read_HSB1_answering w d L), C. reflexivity.
  - intros C S B k. unfold bind. rewrite (read_HSB1_answering w d L), C, S. reflexivity.
  - intros C S. rewrite (read_HSB1_answering w d L), C, S. reflexivity.
Qed.

Lemma read_HSB1_checks_in_order_witness :
  read_HSB1 (answering Mock.hsb1 (Mock.world0 [] [] [])) =
  (Normal (1, [x41; x00; x42; x00; x00; x00; x00; x00; x00; x00], hint_of Mock.hsb1),
   logged [SgRead (handy_store_descriptor 1) BLOCK_SIZE] (Mock.world0 [] [] [])).
Proof.
  exact (proj2 (proj2 (read_HSB1_checks_in_order Mock.hsb1 (Mock.world0 [] [] []) eq_refl))
           eq_refl eq_refl).
Defined.

(** C8, as stated, fails on the all-zero block with checksum byte 1: its
    first four bytes are not the signature and its checksum is wrong, and
    the program stops with the checksum error, not the signature error. *)
Lemma read_HSB1_checksum_before_signature :
  map (item Mock.unsigned_block) (seq 0 4) = [0x00; 0x00; 0x00; 0x00]
  /\ item Mock.unsigned_block 511 = 0x01
  /\ read_HSB1 (answering Mock.unsigned_block (Mock.world0 [] [] [])) =
     (SystemExit 1,
      logged [SgRead (handy_store_descriptor 1) BLOCK_SIZE;
              Printed LFail "Wrong HSB1 checksum"]
             (Mock.world0 [] [] [])).
Proof.
  repeat split; vm_compute; reflexivity.
Qed.

(** ** What the checksum detects *)

Lemma replace_at_length (i : nat) (x : byte) (l : bytes) :
  length (replace_at i x l) = length l.
Proof.
  revert i. induction l as [|h t IH]; intros [|i]; simpl; auto.
Qed.

Lemma nth_replace_at_same (i : nat) (x : byte) (l : bytes) :
  (i < length l)%nat -> nth i (replace_at i x l) x00 = x.
Proof.
  revert i. induction l as [|h t IH]; intros [|i] H; simpl in *; try lia; auto.
  apply IH. lia.
Qed.

Lemma nth_replace_at_other (i j : nat) (x : byte) (l : bytes) :
  i <> j -> nth j (replace_at i x l) x00 = nth j l x00.
Proof.
  revert i j. induction l as [|h t IH]; intros [|i] [|j] H; simpl; auto; try lia.
Qed.

Lemma byte_sum_firstn_replace_at (n i : nat) (x : byte) (l : bytes) :
  (i < n)%nat -> (i < length l)%nat ->
  byte_sum (firstn n (replace_at i x l)) =
  byte_sum (firstn n l) - byte_val (nth i l x00) + byte_val x.
Proof.
  revert n i. induction l as [|h t IH]; intros [|n] [|i] Hn Hl; simpl in *; try lia.
  rewrite (IH n i) by lia. lia.
Qed.

Lemma firstn_replace_at_beyond (n i : nat) (x : byte) (l : bytes) :
  (n <= i)%nat -> firstn n (replace_at i x l) = firstn n l.
Proof.
  revert n i. induction l as [|h t IH]; intros [|n] [|i] H; simpl; auto; try lia.
  f_equal. apply IH. lia.
Qed.

Lemma slice_replace_at_beyond (lo hi i : nat) (x : byte) (l : bytes) :
  (hi <= i)%nat -> slice (replace_at i x l) lo hi = slice l lo hi.
Proof.
  unfold slice. revert lo hi i.
  induction l as [|h t IH]; intros lo hi i H.
  - destruct i; reflexivity.
  - destruct lo as [|lo].
    + cbn [skipn]. rewrite Nat.sub_0_r. apply firstn_replace_at_beyond, H.
    + destruct i as [|i]; [replace (hi - S lo)%nat with 0%nat by lia; reflexivity|].
      destruct hi as [|hi]; [reflexivity|].
      cbn [replace_at skipn]. apply (IH lo hi i). lia.
Qed.

Lemma read_HSB1_normal_inv (d : bytes) (w : world) r w' :
  length d = 512%nat ->
  read_HSB1 (answering d w) = (Normal r, w') ->
  checksum_ok d = true /\ signature_ok d = true
  /\ r = (iteration_of d, salt_of d, hint_of d).
Proof.
  intros L H. rewrite (read_HSB1_answering w d L) in H.
  destruct (checksum_ok d); cbn [negb] in H; [|discriminate H].
  destruct (signature_ok d); cbn [negb] in H; [|discriminate H].
  inversion H. auto.
Qed.

Lemma signature_ok_items (d : bytes) :
  signature_ok d = true ->
  item d 0 = 0x00 /\ item d 1 = 0x01 /\ item d 2 = 0x44 /\ item d 3 = 0x57.
Proof.
  unfold signature_ok. intros H.
  apply andb_true_iff in H as [H H3]. apply andb_true_iff in H as [H H2].
  apply andb_true_iff in H as [H0 H1].
  apply Z.eqb_eq in H0, H1, H2, H3. auto.
Qed.

(** C4, as amended.  For every 512-byte block that passes [read_HSB1]:
    the stored byte 511 is the negated sum, modulo 256, of bytes 0 to 509
    with byte 0 counted twice; replacing any one byte at offsets 1 to 509
    by a different value stops the program with the checksum error; so
    does replacing byte 0, except by 0x80, which leaves the checksum
    matching and stops the program with the signature error; byte 510 is
    not covered by the checksum. *)
Theorem hsb_checksum_detects (d : bytes) (w : world) r w' :
  length d = 512%nat ->
  read_HSB1 (answering d w) = (Normal r, w') ->
  (- (byte_sum (firstn 510 d) + item d 0)) mod 256 = item d 511
  /\ (forall (i : nat) (b : byte) (w2 : world),
        (1 <= i <= 509)%nat -> b <> nth i d x00 ->
        read_HSB1 (answering (replace_at i b d) w2) =
        (SystemExit 1,
         logged [SgRead (handy_store_descriptor 1) BLOCK_SIZE;
                 Printed LFail "Wrong HSB1 checksum"] w2))
  /\ (forall (b : byte) (w2 : world),
        b <> nth 0 d x00 -> b <> x80 ->
        read_HSB1 (answering (replace_at 0 b d) w2) =
        (SystemExit 1,
         logged [SgRead (handy_store_descriptor 1) BLOCK_SIZE;
                 Printed LFail "Wrong HSB1 checksum"] w2))
  /\ (forall w2 : world,
        read_HSB1 (answering (replace_at 0 x80 d) w2) =
        (SystemExit 1,
         logged [SgRead (handy_store_descriptor 1) BLOCK_SIZE;
                 Printed LFail "Wrong HSB1 signature."] w2))
  /\ (forall (b : byte) (w2 : world),
        fst (read_HSB1 (answering (replace_at 510 b d) w2)) =
        Normal (iteration_of d, salt_of d, hint_of d)).
Proof.
  intros L H.
  destruct (read_HSB1_normal_inv d w r w' L H) as (C & S & _).
  pose proof (signature_ok_items d S) as (S0 & S1 & S2 & S3).
  assert (C' : (- (byte_sum (firstn 510 d) + item d 0)) mod 256 = item d 511)
    by (apply Z.eqb_eq, C).
  split; [exact C'|].
  split; [|split; [|split]].
  - intros i b w2 Hi Hb.
    rewrite read_HSB1_answering by (rewrite replace_at_length; exact L).
    assert (F : checksum_ok (replace_at i b d) = false).
    { unfold checksum_ok, item.
      rewrite byte_sum_firstn_replace_at by lia.
      rewrite !(nth_replace_at_other i) by lia.
      fold (item d 0) (item d 511). apply Z.eqb_neq.
      assert (byte_val b <> byte_val (nth i d x00))
        by (intros E; apply Hb, byte_val_inj, E).
      pose proof (byte_val_range b). pose proof (byte_val_range (nth i d x00)).
      rewrite <- C'. Z.div_mod_to_equations. lia. }
    rewrite F. reflexivity.
  - intros b w2 Hb H80.
    rewrite read_HSB1_answering by (rewrite replace_at_length; exact L).
    assert (F : checksum_ok (replace_at 0 b d) = false).
    { unfold checksum_ok, item.
      rewrite byte_sum_firstn_replace_at by lia.
      rewrite nth_replace_at_same by lia.
      rewrite (nth_replace_at_other 0 511) by lia.
      fold (item d 0) (item d 511). apply Z.eqb_neq.
      assert (byte_val b <> item d 0)
        by (intros E; apply Hb, byte_val_inj, E).
      assert (byte_val b <> 128)
        by (intros E; apply H80, byte_val_inj, E).
      pose proof (byte_val_range b).
      rewrite <- C', S0 in *. Z.div_mod_to_equations. lia. }
    rewrite F. reflexivity.
  - intros w2.
    rewrite read_HSB1_answering by (rewrite replace_at_length; exact L).
    assert (T : checksum_ok (replace_at 0 x80 d) = true).
    { unfold checksum_ok, item.
      rewrite byte_sum_firstn_replace_at by lia.
      rewrite nth_replace_at_same by lia.
      rewrite (nth_replace_at_other 0 511) by lia.
      fold (item d 0) (item d 511). apply Z.eqb_eq.
      change (byte_val x80) with 128.
      rewrite <- C', S0. Z.div_mod_to_equations. lia. }
    assert (F : signature_ok (replace_at 0 x80 d) = false).
    { unfold signature_ok, item. rewrite nth_replace_at_same by lia. reflexivity. }
    rewrite T, F. reflexivity.
  - intros b w2.
    rewrite read_HSB1_answering by (rewrite replace_at_length; exact L).
    assert (T : checksum_ok (replace_at 510 b d) = true).
    { unfold checksum_ok, item.
      rewrite firstn_replace_at_beyond by lia.
      rewrite !(nth_replace_at_other 510) by lia. exact C. }
    assert (T' : signature_ok (replace_at 510 b d) = true).
    { unfold signature_ok, item.
      rewrite !(nth_replace_at_other 510) by lia. exact S. }
    rewrite T, T'. cbn [negb fst].
    unfold iteration_of, salt_of, hint_of, item.
    rewrite !(nth_replace_at_other 510) by lia.
    rewrite !slice_replace_at_beyond by lia. reflexivity.
Qed.

Lemma mock_hsb1_passes :
  read_HSB1 (answering Mock.hsb1 (Mock.world0 [] [] [])) =
  (Normal (1, salt_of Mock.hsb1, hint_of Mock.hsb1),
   logged [SgRead (handy_store_descriptor 1) BLOCK_SIZE] (Mock.world0 [] [] [])).
Proof. vm_compute. reflexivity. Qed.

Lemma hsb_checksum_detects_witness :
  item Mock.hsb1 511 = 0xE0
  /\ read_HSB1 (answering (replace_at 12 x43 Mock.hsb1) (Mock.world0 [] [] [])) =
     (SystemExit 1,
      logged [SgRead (handy_store_descriptor 1) BLOCK_SIZE;
              Printed LFail "Wrong HSB1 checksum"] (Mock.world0 [] [] [])).
Proof.
  pose proof (hsb_checksum_detects Mock.hsb1 (Mock.world0 [] [] []) _ _
                eq_refl mock_hsb1_passes) as (C & D & _).
  split.
  - rewrite <- C. vm_compute. reflexivity.
  - apply D; [lia | discriminate].
Defined.

(** C4, as stated, fails on the mock block with the top bit of byte 0
    flipped: the original passes, the flipped block differs from it in byte
    0 alone, its checksum still matches, and the program stops with the
    signature error, not the checksum error. *)
Lemma hsb_checksum_misses_byte0_flip :
  fst (read_HSB1 (answering Mock.hsb1 (Mock.world0 [] [] []))) =
    Normal (1, salt_of Mock.hsb1, hint_of Mock.hsb1)
  /\ Mock.hsb1_flipped = x80 :: tl Mock.hsb1
  /\ item Mock.hsb1 0 = 0x00
  /\ read_HSB1 (answering Mock.hsb1_flipped (Mock.world0 [] [] [])) =
     (SystemExit 1,
      logged [SgRead (handy_store_descriptor 1) BLOCK_SIZE;
              Printed LFail "Wrong HSB1 signature."] (Mock.world0 [] [] [])).
Proof.
  repeat split; vm_compute; reflexivity.
Qed.

(** ** Cleaning the salt *)

Lemma pair_zero_items (salt : bytes) (k : nat) :
  pair_zero salt k = true <-> item salt (2 * k) = 0 /\ item salt (2 * k + 1) = 0.
Proof.
  unfold pair_zero. rewrite andb_true_iff, !Z.eqb_eq. lia.
Qed.

(** The loop stops at the first all-zero pair it meets, or runs through. *)
Lemma clean_salt_loop_stops (salt : bytes) (n a : nat) (acc : pystr) :
  (exists k, (a <= k < a + n)%nat
             /\ pair_zero salt k = true
             /\ (forall j, (a <= j < k)%nat -> pair_zero salt j = false)
             /\ clean_salt_loop salt (seq a n) acc
                = acc ++ map (fun j => item salt (2 * j)) (seq a (k - a)))
  \/ ((forall j, (a <= j < a + n)%nat -> pair_zero salt j = false)
      /\ clean_salt_loop salt (seq a n) acc
         = acc ++ map (fun j => item salt (2 * j)) (seq a n)).
Proof.
  revert a acc. induction n as [|n IH]; intros a acc.
  - right. split; [intros j Hj; lia|]. simpl. rewrite app_nil_r. reflexivity.
  - cbn [seq clean_salt_loop]. fold (item salt (2 * a)) (item salt (2 * a + 1)).
    fold (pair_zero salt a).
    destruct (pair_zero salt a) eqn:Z0.
    + left. exists a.
      split; [lia|]. split; [exact Z0|]. split; [intros j Hj; lia|].
      rewrite Nat.sub_diag. simpl. rewrite app_nil_r. reflexivity.
    + destruct (IH (S a) (acc ++ [item salt (2 * a)])) as [(k & Hk & Zk & Hj & E)|(Hj & E)].
      * left. exists k.
        split; [lia|]. split; [exact Zk|]. split.
        -- intros j Hj'. destruct (Nat.eq_dec j a) as [->|Na]; [exact Z0|apply Hj; lia].
        -- rewrite E, <- app_assoc. f_equal.
           replace (k - a)%nat with (S (k - S a)) by lia. reflexivity.
      * right. split.
        -- intros j Hj'. destruct (Nat.eq_dec j a) as [->|Na]; [exact Z0|apply Hj; lia].
        -- rewrite E, <- app_assoc. reflexivity.
Qed.

Lemma slice_length (d : bytes) (lo hi : nat) :
  (hi <= length d)%nat -> length (slice d lo hi) = (hi - lo)%nat.
Proof.
  intros H. unfold slice. rewrite length_firstn, length_skipn. lia.
Qed.

(** C10.  The salt that [read_HSB1] returns for a 512-byte answer is the
    eight bytes at offsets 12 to 19 followed by two zero bytes; on such a
    salt the cleaning loop stops at an all-zero pair no later than the
    appended one (pair 4), keeping the low bytes of the pairs before it, so
    the cleaned salt has at most four characters. *)
Theorem read_HSB1_salt_bounded (d : bytes) (w : world) it salt hint w' :
  length d = 512%nat ->
  read_HSB1 (answering d w) = (Normal (it, salt, hint), w') ->
  salt = slice d 12 20 ++ [x00; x00]
  /\ length salt = 10%nat
  /\ (exists k, (k <= 4)%nat
                /\ item salt (2 * k) = 0 /\ item salt (2 * k + 1) = 0
                /\ (forall j, (j < k)%nat -> pair_zero salt j = false)
                /\ clean_salt salt = map (fun j => item salt (2 * j)) (seq 0 k))
  /\ (length (clean_salt salt) <= 4)%nat.
Proof.
  intros L H.
  destruct (read_HSB1_normal_inv d w _ w' L H) as (_ & _ & E).
  inversion E; subst it salt hint. clear E.
  assert (L8 : length (slice d 12 20) = 8%nat) by (rewrite slice_length; lia).
  assert (L10 : length (salt_of d) = 10%nat)
    by (unfold salt_of; rewrite length_app, L8; reflexivity).
  assert (Z4 : pair_zero (salt_of d) 4 = true).
  { unfold pair_zero, item, salt_of.
    rewrite !app_nth2 by lia. rewrite L8. reflexivity. }
  assert (K : exists k, (k <= 4)%nat
                /\ pair_zero (salt_of d) k = true
                /\ (forall j, (j < k)%nat -> pair_zero (salt_of d) j = false)
                /\ clean_salt (salt_of d)
                   = map (fun j => item (salt_of d) (2 * j)) (seq 0 k)).
  { unfold clean_salt. rewrite L10. change (10 / 2)%nat with 5%nat.
    destruct (clean_salt_loop_stops (salt_of d) 5 0 []) as [(k & Hk & Zk & Hj & E)|(Hj & _)].
    - exists k. rewrite Nat.sub_0_r in E.
      split; [lia|]. split; [exact Zk|]. split; [|exact E].
      intros j Hj'. apply Hj. lia.
    - rewrite Hj in Z4 by lia. discriminate Z4. }
  destruct K as (k & Hk & Zk & Hj & E).
  split; [reflexivity|]. split; [exact L10|]. split.
  - exists k. apply pair_zero_items in Zk as [Z0 Z1]. auto.
  - rewrite E, length_map, length_seq. exact Hk.
Qed.

Lemma read_HSB1_salt_bounded_witness :
  salt_of Mock.hsb1 = slice Mock.hsb1 12 20 ++ [x00; x00]
  /\ clean_salt (salt_of Mock.hsb1) = [0x41; 0x42]
  /\ (length (clean_salt (salt_of Mock.hsb1)) <= 4)%nat.
Proof.
  pose proof (read_HSB1_salt_bounded Mock.hsb1 (Mock.world0 [] [] []) _ _ _ _
                eq_refl mock_hsb1_passes) as (E & _ & _ & B).
  split; [exact E|]. split; [vm_compute; reflexivity | exact B].
Defined.

(** ** The derivation against its reference *)

Lemma pair_ind (P : bytes -> Prop) :
  P [] -> (forall x, P [x]) -> (forall x y l, P l -> P (x :: y :: l)) ->
  forall l, P l.
Proof.
  intros H0 H1 H2. fix F 1. intros [|x [|y l]].
  - exact H0.
  - apply H1.
  - apply H2, F.
Qed.

Lemma half_SS (n : nat) : (S (S n) / 2 = S (n / 2))%nat.
Proof.
  replace (S (S n)) with (1 * 2 + n)%nat by lia.
  rewrite Nat.div_add_l by lia. reflexivity.
Qed.

Lemma clean_salt_loop_reference (rest : bytes) :
  forall (pre : bytes) (a : nat) (acc : pystr),
    length pre = (2 * a)%nat ->
    clean_salt_loop (pre ++ rest) (seq a (length rest / 2)) acc
    = acc ++ Reference.clean rest.
Proof.
  induction rest as [|x|lo hi rest IH] using pair_ind; intros pre a acc L.
  - simpl. symmetry. apply app_nil_r.
  - simpl. symmetry. apply app_nil_r.
  - cbn [length]. rewrite half_SS. cbn [seq clean_salt_loop Reference.clean].
    rewrite !app_nth2 by lia.
    replace (2 * a - length pre)%nat with 0%nat by lia.
    replace (2 * a + 1 - length pre)%nat with 1%nat by lia.
    cbn [nth].
    replace ((byte_val lo =? byte_val hi) && (byte_val hi =? 0))
      with ((byte_val lo =? 0) && (byte_val hi =? 0)).
    2:{ destruct (Z.eqb_spec (byte_val hi) 0) as [->|]; [|rewrite !andb_false_r; reflexivity].
        rewrite !andb_true_r. reflexivity. }
    destruct ((byte_val lo =? 0) && (byte_val hi =? 0)).
    + rewrite app_nil_r. reflexivity.
    + specialize (IH (pre ++ [lo; hi]) (S a) (acc ++ [byte_val lo])).
      rewrite <- app_assoc in IH. cbn [app] in IH.
      rewrite IH by (rewrite length_app; simpl; lia).
      rewrite <- app_assoc. reflexivity.
Qed.

Lemma clean_salt_reference (salt : bytes) : clean_salt salt = Reference.clean salt.
Proof.
  unfold clean_salt. apply (clean_salt_loop_reference salt [] 0 []). reflexivity.
Qed.

Lemma iter_rehash (n : nat) (data : bytes) :
  Nat.iter n sha256 data = Reference.rehash n data.
Proof.
  revert data. induction n as [|n IH]; intros data; [reflexivity|].
  cbn [Reference.rehash]. rewrite <- IH, Nat.iter_swap. reflexivity.
Qed.

Lemma rehash_length (n : nat) (data : bytes) :
  (1 <= n)%nat -> length (Reference.rehash n data) = 32%nat.
Proof.
  intros H. rewrite <- iter_rehash.
  destruct n as [|n]; [lia|]. cbn [Nat.iter]. apply sha256_length.
Qed.

(** Dropping two bytes of the marked encoding removes the mark alone. *)
Lemma encode_utf_16_unmarked (s : pystr) :
  (encoded <-! encode_utf_16 s ;; Normal (skipn 2 encoded)) = utf_16_le s.
Proof.
  unfold encode_utf_16. destruct (utf_16_le s); reflexivity.
Qed.

(** C2, as amended.  For every passphrase, salt and iteration count the
    derivation is the reference one: clean the salt pair by pair up to the
    first all-zero pair, keeping low bytes; append the passphrase; encode
    as UTF-16 with its byte-order mark and drop the first two bytes, which
    leaves the little-endian code units of the whole text; hash the result
    [n] times in all.  The result is a 32-byte digest when [n] is at least
    1; for [n = 0] it is the encoded text itself. *)
Theorem mk_password_block_reference (passwd : pystr) (salt : bytes) (n : Z) :
  mk_password_block passwd n salt = Reference.derive passwd salt n
  /\ mk_password_block passwd n salt =
       (text <-! utf_16_le (Reference.clean salt ++ passwd) ;;
        Normal (Reference.rehash (Z.to_nat n) text))
  /\ (1 <= n ->
      forall out, mk_password_block passwd n salt = Normal out -> length out = 32%nat)
  /\ (n <= 0 ->
      mk_password_block passwd n salt = utf_16_le (Reference.clean salt ++ passwd)).
Proof.
  assert (E : mk_password_block passwd n salt =
              (text <-! utf_16_le (Reference.clean salt ++ passwd) ;;
               Normal (Reference.rehash (Z.to_nat n) text))).
  { unfold mk_password_block. rewrite clean_salt_reference.
    unfold encode_utf_16.
    destruct (utf_16_le (Reference.clean salt ++ passwd)); cbn [obind]; try reflexivity.
    rewrite iter_rehash. reflexivity. }
  split; [|split; [exact E|split]].
  - unfold mk_password_block, Reference.derive. rewrite clean_salt_reference.
    destruct (encode_utf_16 (Reference.clean salt ++ passwd)); cbn [obind]; try reflexivity.
    rewrite iter_rehash. reflexivity.
  - intros Hn out H. rewrite E in H.
    destruct (utf_16_le (Reference.clean salt ++ passwd)); cbn [obind] in H;
      inversion H. apply rehash_length. lia.
  - intros Hn. rewrite E.
    replace (Z.to_nat n) with 0%nat by lia.
    destruct (utf_16_le (Reference.clean salt ++ passwd)); reflexivity.
Qed.

Lemma mk_password_block_reference_witness :
  mk_password_block [0x61] 1 (salt_of Mock.hsb1)
  = Normal (sha256 [x41; x00; x42; x00; x61; x00])
  /\ length (sha256 [x41; x00; x42; x00; x61; x00]) = 32%nat.
Proof.
  assert (E : mk_password_block [0x61] 1 (salt_of Mock.hsb1)
              = Normal (sha256 [x41; x00; x42; x00; x61; x00]))
    by (vm_compute; reflexivity).
  split; [exact E|].
  exact (proj1 (proj2 (proj2 (mk_password_block_reference [0x61] (salt_of Mock.hsb1) 1)))
           ltac:(lia) _ E).
Defined.

(** C2, as stated, fails for the iteration count 0: the derivation returns
    the encoded text, here two bytes, and not a 32-byte digest. *)
Lemma mk_password_block_zero_iterations :
  mk_password_block [0x61] 0 (repeat x00 8) = Normal [x61; x00]
  /\ length [x61; x00] <> 32%nat.
Proof.
  split; [vm_compute; reflexivity | discriminate].
Qed.

(** Read as "the little-endian code units alone, minus their first two
    bytes", the encoding step would lose the first character; the code
    does not: with an empty salt and the passphrase "a" it hashes
    [61 00], that reading hashes nothing. *)
Remark derive_unmarked_drops_a_character :
  mk_password_block [0x61] 1 (repeat x00 8) = Normal (sha256 [x61; x00])
  /\ Reference.derive_unmarked [0x61] (repeat x00 8) 1 = Normal (sha256 [])
  /\ sha256 [x61; x00] <> sha256 [].
Proof.
  repeat split; try (vm_compute; reflexivity).
  vm_compute. intros H. discriminate H.
Qed.

(** ** Writes, and the selection of the block length *)

Lemma sg_write_run (w : world) (c p : bytes) :
  sg_write c p w =
  (if accepted w then Normal tt else Raised SgError,
   after_write (logged [SgWrite c p] w)).
Proof.
  unfold sg_write, bind, emit, accepted, after_write, logged. simpl.
  destruct (device_writes w) as [|[|] rest]; reflexivity.
Qed.

Lemma sg_writes_app (h1 h2 : list event) :
  sg_writes (h1 ++ h2) = sg_writes h1 ++ sg_writes h2.
Proof.
  induction h1 as [|e h1 IH]; [reflexivity|].
  destruct e; simpl; rewrite IH; reflexivity.
Qed.

Lemma pwblen_of_cases (c n : Z) : pwblen_of c = Some n -> n = 16 \/ n = 32.
Proof.
  unfold pwblen_of. intros H.
  destruct (int_in c [0x10; 0x12; 0x18]); [inversion H; auto|].
  destruct (int_in c [0x20; 0x22; 0x28]); [inversion H; auto|].
  destruct (c =? 0x30); [inversion H; auto|discriminate H].
Qed.

Lemma select_pwblen_run (c : Z) (w : world) :
  (if int_in c [0x10; 0x12; 0x18] then ret 16
   else if int_in c [0x20; 0x22; 0x28] then ret 32
   else if c =? 0x30 then ret 32
   else fail ("Unsupported cipher " ++ hex c) ;; sys_exit 1) w =
  match pwblen_of c with
  | Some n => (Normal n, w)
  | None => (SystemExit 1, logged [Printed LFail ("Unsupported cipher " ++ hex c)] w)
  end.
Proof.
  unfold pwblen_of.
  destruct (int_in c [0x10; 0x12; 0x18]); [reflexivity|].
  destruct (int_in c [0x20; 0x22; 0x28]); [reflexivity|].
  destruct (c =? 0x30); reflexivity.
Qed.

Lemma pack_in_range (l : list Z) :
  Forall (fun c => 0 <= c < 256) l -> _scsi_pack_cdb l = Normal (map byte_of_Z l).
Proof.
  intros F. unfold _scsi_pack_cdb.
  replace (forallb (fun c => (0 <=? c) && (c <? 256)) l) with true; [reflexivity|].
  symmetry. apply forallb_forall. intros x Hx.
  rewrite Forall_forall in F. specialize (F x Hx).
  apply andb_true_iff. split; [apply Z.leb_le | apply Z.ltb_lt]; lia.
Qed.

(** ** Unlock *)

Lemma status_read_answering (d : bytes) (w : world) :
  length d = 512%nat ->
  item d 0 = 0x45 ->
  get_encryption_status (answering d w) =
  (Normal (item d 3, item d 4, slice d 8 12),
   logged [SgRead status_descriptor BLOCK_SIZE] w).
Proof.
  intros L S.
  apply (get_encryption_status_run (answering d w) d (device_reads w) eq_refl L S).
Qed.

Lemma unlock_already_unlocked (host : collaborators) (device : device_path)
      (d : bytes) (w : world) (save saved : bool) :
  length d = 512%nat -> item d 0 = 0x45 ->
  item d 3 = 0x00 \/ item d 3 = 0x02 ->
  unlock host device save saved (answering d w) =
  (Normal tt,
   logged [SgRead status_descriptor BLOCK_SIZE;
           Printed LFail "Your device is already unlocked!"] w).
Proof.
  intros L S H. unfold unlock. run.
  rewrite (status_read_answering d w L S).
  replace (int_in (item d 3) [0x00; 0x02]) with true
    by (destruct H as [-> | ->]; reflexivity).
  unfold emit, logged. simpl. rewrite <- app_assoc. reflexivity.
Qed.

Lemma unlock_wrong_status (host : collaborators) (device : device_path)
      (d : bytes) (w : world) (save saved : bool) :
  length d = 512%nat -> item d 0 = 0x45 ->
  item d 3 <> 0x00 -> item d 3 <> 0x01 -> item d 3 <> 0x02 ->
  unlock host device save saved (answering d w) =
  (SystemExit 1,
   logged [SgRead status_descriptor BLOCK_SIZE;
           Printed LFail "Wrong device status!"] w).
Proof.
  intros L S H0 H1 H2. unfold unlock. run.
  rewrite (status_read_answering d w L S).
  replace (int_in (item d 3) [0x00; 0x02]) with false.
  2:{ unfold int_in, existsb.
      destruct (Z.eqb_spec (item d 3) 0x00); [contradiction|].
      destruct (Z.eqb_spec (item d 3) 0x02); [contradiction|]. reflexivity. }
  destruct (Z.eqb_spec (item d 3) 0x01); [contradiction|].
  unfold emit, logged. simpl. rewrite <- app_assoc. reflexivity.
Qed.

Lemma getpass_typing (line : pystr) (w : world) :
  getpass (typing line w) = (Normal line, w).
Proof. destruct w. reflexivity. Qed.

Lemma read_HSB1_valid (d : bytes) (w : world) :
  length d = 512%nat -> checksum_ok d = true -> signature_ok d = true ->
  read_HSB1 (answering d w) =
  (Normal (iteration_of d, salt_of d, hint_of d),
   logged [SgRead (handy_store_descriptor 1) BLOCK_SIZE] w).
Proof.
  intros L C S. rewrite (read_HSB1_answering w d L), C, S. reflexivity.
Qed.

Ltac step := cbv beta iota zeta.

(** Two spellings of the same world. *)
Ltac same_world w :=
  destruct w;
  unfold answering, typing, logged, after_write, after_read, after_urandom, accepted;
  cbn [device_reads device_writes tty entropy entropy_pos keyring keyring_writable
       history tl];
  rewrite <- ?app_assoc; reflexivity.

(** Spell a world out field by field. *)
Ltac fields w :=
  destruct w as [r wr t e p k kw h];
  unfold answering, typing, failing_read, logged, after_write, after_urandom, accepted;
  cbn [device_reads device_writes tty entropy entropy_pos keyring keyring_writable history].

(** The tail of [unlock]: pack, write, report. *)
Lemma unlock_send_run (n : Z) (pwd : bytes) (w : world) :
  n = 16 \/ n = 32 ->
  (len <- lift (htons n) ;;
   let pw_block := [0x45; 0x00; 0x00; 0x00; 0x00; 0x00] ++ map byte_val len in
   cdb <- lift (setitem [0xC1; 0xE1; 0x00; 0x00; 0x00; 0x00; 0x00; 0x00; 0x28; 0x00]
                        8 (n + 8)) ;;
   try_except
     (c <- lift (_scsi_pack_cdb cdb) ;;
      p <- lift (_scsi_pack_cdb pw_block) ;;
      sg_write c (p ++ pwd) ;;
      success "Device unlocked.")
     (fail "Wrong password? Or something bad is happened. Try again")) w =
  (Normal tt,
   logged [unlock_verdict (accepted w)]
          (after_write (logged [SgWrite (unlock_descriptor n)
                                        (password_header 0 n ++ pwd)] w))).
Proof.
  intros [-> | ->].
  - change (htons 16) with (@Normal bytes [x00; x10]).
    unfold bind at 1, lift at 1. step.
    unfold bind at 1, lift at 1. cbn [setitem obind]. step.
    unfold try_except.
    unfold bind at 1, lift at 1.
    change (_scsi_pack_cdb _) with (Normal (unlock_descriptor 16)) at 1. step.
    unfold bind at 1, lift at 1.
    change (_scsi_pack_cdb _) with (Normal (password_header 0 16)) at 1. step.
    unfold bind at 1. rewrite sg_write_run.
    destruct (accepted w); reflexivity.
  - change (htons 32) with (@Normal bytes [x00; x20]).
    unfold bind at 1, lift at 1. step.
    unfold bind at 1, lift at 1. cbn [setitem obind]. step.
    unfold try_except.
    unfold bind at 1, lift at 1.
    change (_scsi_pack_cdb _) with (Normal (unlock_descriptor 32)) at 1. step.
    unfold bind at 1, lift at 1.
    change (_scsi_pack_cdb _) with (Normal (password_header 0 32)) at 1. step.
    unfold bind at 1. rewrite sg_write_run.
    destruct (accepted w); reflexivity.
Qed.

(** The same runs on a world spelled out field by field, for rewriting. *)
Section Fields.
Variables (r : list (option bytes)) (wr : list bool) (t : list pystr)
          (e : nat -> byte) (p : nat) (k : option bytes) (kw : bool)
          (h : list event).

Lemma status_read_fields (d : bytes) :
  length d = 512%nat -> item d 0 = 0x45 ->
  get_encryption_status (World (Some d :: r) wr t e p k kw h) =
  (Normal (item d 3, item d 4, slice d 8 12),
   World r wr t e p k kw (h ++ [SgRead status_descriptor BLOCK_SIZE])).
Proof. intros L S. exact (status_read_answering d (World r wr t e p k kw h) L S). Qed.

Lemma read_HSB1_fields (d : bytes) :
  length d = 512%nat -> checksum_ok d = true -> signature_ok d = true ->
  read_HSB1 (World (Some d :: r) wr t e p k kw h) =
  (Normal (iteration_of d, salt_of d, hint_of d),
   World r wr t e p k kw (h ++ [SgRead (handy_store_descriptor 1) BLOCK_SIZE])).
Proof. intros L C S. exact (read_HSB1_valid d (World r wr t e p k kw h) L C S). Qed.

Lemma getpass_fields (line : pystr) :
  getpass (World r wr (line :: t) e p k kw h) = (Normal line, World r wr t e p k kw h).
Proof. reflexivity. Qed.

Lemma emit_fields (ev : event) :
  emit ev (World r wr t e p k kw h) = (Normal tt, World r wr t e p k kw (h ++ [ev])).
Proof. reflexivity. Qed.

Lemma unlock_send_fields (n : Z) (pwd : bytes) :
  n = 16 \/ n = 32 ->
  (len <- lift (htons n) ;;
   let pw_block := [0x45; 0x00; 0x00; 0x00; 0x00; 0x00] ++ map byte_val len in
   cdb <- lift (setitem [0xC1; 0xE1; 0x00; 0x00; 0x00; 0x00; 0x00; 0x00; 0x28; 0x00]
                        8 (n + 8)) ;;
   try_except
     (c <- lift (_scsi_pack_cdb cdb) ;;
      p <- lift (_scsi_pack_cdb pw_block) ;;
      sg_write c (p ++ pwd) ;;
      success "Device unlocked.")
     (fail "Wrong password? Or something bad is happened. Try again"))
    (World r wr t e p k kw h) =
  (Normal tt,
   World r (tl wr) t e p k kw
         ((h ++ [SgWrite (unlock_descriptor n) (password_header 0 n ++ pwd)])
          ++ [unlock_verdict (accepted (World r wr t e p k kw h))])).
Proof. intros H. exact (unlock_send_run n pwd (World r wr t e p k kw h) H). Qed.

End Fields.

(** [unlock] on a locked device with a supported cipher is its three
    stretches in a row, run after the status query. *)
Lemma unlock_locked_run (host : collaborators) (device : device_path)
      (dS : bytes) (n : Z) (save saved : bool) (w : world) :
  length dS = 512%nat -> item dS 0 = 0x45 -> item dS 3 = 0x01 ->
  pwblen_of (item dS 4) = Some n ->
  unlock host device save saved (answering dS w) =
  (pwd <- unlock_acquire host device saved ;;
   unlock_store host device save pwd ;;
   unlock_send n pwd)
    (logged [SgRead status_descriptor BLOCK_SIZE] w).
Proof.
  intros LS S0 S3 Hn. unfold unlock. step.
  unfold bind at 1. rewrite (status_read_answering dS w LS S0). step.
  rewrite S3. change (int_in 0x01 [0x00; 0x02]) with false.
  change (negb (0x01 =? 0x01)) with false. step.
  unfold bind at 1, ret at 1. step.
  unfold bind at 1. rewrite select_pwblen_run, Hn. step.
  reflexivity.
Qed.

(** Getting the password block from a typed passphrase. *)
Lemma unlock_acquire_typed (host : collaborators) (device : device_path)
      (dH : bytes) (passwd : pystr) (w : world) :
  length dH = 512%nat -> checksum_ok dH = true -> signature_ok dH = true ->
  unlock_acquire host device false (answering dH (typing passwd w)) =
  (mk_password_block passwd (iteration_of dH) (salt_of dH),
   logged [Printed LQuestion "Insert password to Unlock the device:";
           SgRead (handy_store_descriptor 1) BLOCK_SIZE] w).
Proof.
  intros LH C S. fields w. unfold unlock_acquire. cbn [negb].
  unfold bind at 1, question at 1. rewrite emit_fields. step.
  unfold bind at 1. rewrite getpass_fields. step.
  unfold bind at 1. rewrite (read_HSB1_fields _ _ _ _ _ _ _ _ dH LH C S). step.
  unfold lift. rewrite <- app_assoc. reflexivity.
Qed.

(** [unlock] on a locked device, asking for the passphrase and not asked
    to save it: the collaborators are not called. *)
Lemma unlock_locked_typed (host : collaborators) (device : device_path)
      (dS dH : bytes) (passwd : pystr) (pwd : bytes) (n : Z) (w : world) :
  length dS = 512%nat -> item dS 0 = 0x45 -> item dS 3 = 0x01 ->
  pwblen_of (item dS 4) = Some n ->
  length dH = 512%nat -> checksum_ok dH = true -> signature_ok dH = true ->
  mk_password_block passwd (iteration_of dH) (salt_of dH) = Normal pwd ->
  unlock host device false false (answering dS (answering dH (typing passwd w))) =
  (Normal tt,
   logged [SgRead status_descriptor BLOCK_SIZE;
           Printed LQuestion "Insert password to Unlock the device:";
           SgRead (handy_store_descriptor 1) BLOCK_SIZE;
           SgWrite (unlock_descriptor n) (password_header 0 n ++ pwd);
           unlock_verdict (accepted w)]
          (after_write w)).
Proof.
  intros LS S0 S3 Hn LH C S Hpwd.
  rewrite (unlock_locked_run host device dS n false false _ LS S0 S3 Hn).
  unfold bind at 1.
  change (logged [SgRead status_descriptor BLOCK_SIZE] (answering dH (typing passwd w)))
    with (answering dH (typing passwd (logged [SgRead status_descriptor BLOCK_SIZE] w))).
  rewrite (unlock_acquire_typed host device dH passwd _ LH C S), Hpwd. step.
  unfold unlock_store. unfold bind at 1, ret at 1. step.
  unfold unlock_send. rewrite (unlock_send_run n pwd _ (pwblen_of_cases _ _ Hn)).
  same_world w.
Qed.

(** C5.  [unlock] reads the status and is gated on it, whatever its
    collaborators do.  With status 0x00 or 0x02 it reports that the device
    is already unlocked and returns, and with any status other than 0x00,
    0x01, 0x02 it reports a wrong status and exits; in both cases the
    status query is all that went to the device.  With status 0x01 and a
    supported cipher it goes on to get the password block, to save it when
    asked to, and to write one unlock command: with a typed passphrase, a
    valid Handy Store block and nothing to save the whole run is given;
    in general the command is written as soon as the two earlier
    stretches return. *)
Theorem unlock_gated_on_status (host : collaborators) (device : device_path)
        (dS : bytes) (w : world) :
  length dS = 512%nat -> item dS 0 = 0x45 ->
  (item dS 3 = 0x00 \/ item dS 3 = 0x02 ->
   forall save saved,
     unlock host device save saved (answering dS w) =
     (Normal tt,
      logged [SgRead status_descriptor BLOCK_SIZE;
              Printed LFail "Your device is already unlocked!"] w))
  /\ (item dS 3 <> 0x00 -> item dS 3 <> 0x01 -> item dS 3 <> 0x02 ->
      forall save saved,
        unlock host device save saved (answering dS w) =
        (SystemExit 1,
         logged [SgRead status_descriptor BLOCK_SIZE;
                 Printed LFail "Wrong device status!"] w))
  /\ (item dS 3 = 0x01 ->
      forall n, pwblen_of (item dS 4) = Some n ->
        (forall dH passwd pwd,
            length dH = 512%nat -> checksum_ok dH = true -> signature_ok dH = true ->
            mk_password_block passwd (iteration_of dH) (salt_of dH) = Normal pwd ->
            unlock host device false false
                   (answering dS (answering dH (typing passwd w))) =
            (Normal tt,
             logged [SgRead status_descriptor BLOCK_SIZE;
                     Printed LQuestion "Insert password to Unlock the device:";
                     SgRead (handy_store_descriptor 1) BLOCK_SIZE;
                     SgWrite (unlock_descriptor n) (password_header 0 n ++ pwd);
                     unlock_verdict (accepted w)]
                    (after_write w)))
        /\ (forall save saved pwd w2 w3,
               unlock_acquire host device saved
                              (logged [SgRead status_descriptor BLOCK_SIZE] w)
               = (Normal pwd, w2) ->
               unlock_store host device save pwd w2 = (Normal tt, w3) ->
               unlock host device save saved (answering dS w) =
               (Normal tt,
                logged [SgWrite (unlock_descriptor n) (password_header 0 n ++ pwd);
                        unlock_verdict (accepted w3)]
                       (after_write w3)))).
Proof.
  intros LS S0. split; [|split].
  - intros H save saved. apply unlock_already_unlocked; assumption.
  - intros H0 H1 H2 save saved. apply unlock_wrong_status; assumption.
  - intros S3 n Hn. split.
    + intros dH passwd pwd LH C S Hpwd.
      apply unlock_locked_typed; assumption.
    + intros save saved pwd w2 w3 A B.
      rewrite (unlock_locked_run host device dS n save saved w LS S0 S3 Hn).
      unfold bind at 1. rewrite A. step.
      unfold bind at 1. rewrite B. step.
      unfold unlock_send. rewrite (unlock_send_run n pwd _ (pwblen_of_cases _ _ Hn)).
      same_world w3.
Qed.

(** ** ChangePassword *)

Lemma str_eqb_refl (s : pystr) : str_eqb s s = true.
Proof.
  induction s as [|c s IH]; [reflexivity|].
  simpl. rewrite Z.eqb_refl, IH. reflexivity.
Qed.

(** [change_password] up to its [try], on an unlocked or unencrypted
    device whose user confirms the new passphrase. *)
Lemma change_password_build_run (dS dH : bytes) (old new : pystr) (ho hn : bytes)
      (n : Z) (w : world) :
  length dS = 512%nat -> item dS 0 = 0x45 ->
  item dS 3 = 0x00 \/ item dS 3 = 0x02 ->
  pwblen_of (item dS 4) = Some n ->
  length dH = 512%nat -> checksum_ok dH = true -> signature_ok dH = true ->
  old <> [] \/ new <> [] ->
  (old <> [] -> mk_password_block old (iteration_of dH) (salt_of dH) = Normal ho) ->
  (new <> [] -> mk_password_block new (iteration_of dH) (salt_of dH) = Normal hn) ->
  change_password_build
    (answering dS (answering dH (typing old (typing new (typing new w))))) =
  (Normal ([0xC1; 0xE2; 0x00; 0x00; 0x00; 0x00; 0x00; 0x00; 8 + 2 * n; 0x00],
           [0x45; 0x00; 0x00; change_flags old new; 0x00; 0x00; 0x00; n],
           operand old ho, operand new hn),
   logged (change_prompts ++ [SgRead (handy_store_descriptor 1) BLOCK_SIZE]) w).
Proof.
  intros LS S0 S3 Hn LH C S NE Ho Hh.
  destruct w as [r wr t e p k kw h].
  unfold answering, typing, logged, change_prompts.
  cbn [device_reads device_writes tty entropy entropy_pos keyring keyring_writable history].
  unfold change_password_build. step.
  unfold bind at 1. rewrite (status_read_fields _ _ _ _ _ _ _ _ dS LS S0). step.
  replace (negb (int_in (item dS 3) [0x02; 0x00])) with false
    by (destruct S3 as [-> | ->]; reflexivity).
  unfold bind at 1, ret at 1. step.
  unfold bind at 1. rewrite select_pwblen_run, Hn. step.
  unfold bind at 1, question at 1. rewrite emit_fields. step.
  unfold bind at 1. rewrite getpass_fields. step.
  unfold bind at 1, question at 1. rewrite emit_fields. step.
  unfold bind at 1. rewrite getpass_fields. step.
  unfold bind at 1, question at 1. rewrite emit_fields. step.
  unfold bind at 1. rewrite getpass_fields. step.
  rewrite str_eqb_refl. cbn [negb].
  unfold bind at 1, ret at 1. step.
  assert (N16 : n = 16 \/ n = 32) by (apply (pwblen_of_cases _ _ Hn)).
  destruct old as [|o old]; destruct new as [|c new];
    try (destruct NE as [NE | NE]; contradiction NE; reflexivity).
  - cbn [length Nat.eqb andb Nat.ltb Nat.leb].
    unfold bind at 1, ret at 1. step.
    unfold bind at 1. rewrite (read_HSB1_fields _ _ _ _ _ _ _ _ dH LH C S). step.
    rewrite (Hh ltac:(discriminate)).
    destruct N16 as [-> | ->];
      [change (htons 16) with (@Normal bytes [x00; x10])
      |change (htons 32) with (@Normal bytes [x00; x20])];
      unfold bind, lift, ret; step; cbn [map app setitem obind nth];
      rewrite <- !app_assoc; reflexivity.
  - cbn [length Nat.eqb andb Nat.ltb Nat.leb].
    unfold bind at 1, ret at 1. step.
    unfold bind at 1. rewrite (read_HSB1_fields _ _ _ _ _ _ _ _ dH LH C S). step.
    rewrite (Ho ltac:(discriminate)).
    destruct N16 as [-> | ->];
      [change (htons 16) with (@Normal bytes [x00; x10])
      |change (htons 32) with (@Normal bytes [x00; x20])];
      unfold bind, lift, ret; step; cbn [map app setitem obind nth];
      rewrite <- !app_assoc; reflexivity.
  - cbn [length Nat.eqb andb Nat.ltb Nat.leb].
    rewrite andb_false_r.
    unfold bind at 1, ret at 1. step.
    unfold bind at 1. rewrite (read_HSB1_fields _ _ _ _ _ _ _ _ dH LH C S). step.
    rewrite (Ho ltac:(discriminate)), (Hh ltac:(discriminate)).
    destruct N16 as [-> | ->];
      [change (htons 16) with (@Normal bytes [x00; x10])
      |change (htons 32) with (@Normal bytes [x00; x20])];
      unfold bind, lift, ret; step; cbn [map app setitem obind nth];
      rewrite <- !app_assoc; reflexivity.
Qed.

(** With both passphrases given, the command is written: the header, then
    the two hash operands as they are. *)
Lemma change_password_sends (dS dH : bytes) (o c : Z) (old new : pystr)
      (ho hn : bytes) (n : Z) (w : world) :
  length dS = 512%nat -> item dS 0 = 0x45 ->
  item dS 3 = 0x00 \/ item dS 3 = 0x02 ->
  pwblen_of (item dS 4) = Some n ->
  length dH = 512%nat -> checksum_ok dH = true -> signature_ok dH = true ->
  mk_password_block (o :: old) (iteration_of dH) (salt_of dH) = Normal ho ->
  mk_password_block (c :: new) (iteration_of dH) (salt_of dH) = Normal hn ->
  change_password
    (answering dS (answering dH
       (typing (o :: old) (typing (c :: new) (typing (c :: new) w))))) =
  (Normal tt,
   logged (change_prompts
           ++ [SgRead (handy_store_descriptor 1) BLOCK_SIZE;
               SgWrite (change_password_descriptor n) (password_header 0 n ++ ho ++ hn);
               change_verdict (accepted w)])
          (after_write w)).
Proof.
  intros LS S0 S3 Hn LH C S Ho Hh. unfold change_password.
  assert (NE : o :: old <> [] \/ c :: new <> []) by (left; discriminate).
  unfold bind at 1.
  rewrite (change_password_build_run dS dH (o :: old) (c :: new) ho hn n w
             LS S0 S3 Hn LH C S NE (fun _ => Ho) (fun _ => Hh)).
  step. cbn [operand change_flags]. unfold try_except.
  destruct (pwblen_of_cases _ _ Hn) as [-> | ->].
  - unfold bind at 1, lift at 1.
    change (_scsi_pack_cdb _) with (Normal (change_password_descriptor 16)) at 1. step.
    unfold bind at 1, lift at 1.
    change (_scsi_pack_cdb _) with (Normal (password_header 0 16)) at 1. step.
    unfold bind, lift, bytes_add. step. rewrite sg_write_run.
    rewrite <- app_assoc.
    destruct w as [r wr t e p k kw h]. unfold accepted.
    cbn [device_writes]. destruct wr as [|[|] wr];
      unfold success, fail, emit, logged, after_write;
      cbn [device_reads device_writes tty entropy entropy_pos keyring keyring_writable
           history change_verdict tl];
      rewrite <- !app_assoc; reflexivity.
  - unfold bind at 1, lift at 1.
    change (_scsi_pack_cdb _) with (Normal (change_password_descriptor 32)) at 1. step.
    unfold bind at 1, lift at 1.
    change (_scsi_pack_cdb _) with (Normal (password_header 0 32)) at 1. step.
    unfold bind, lift, bytes_add. step. rewrite sg_write_run.
    rewrite <- app_assoc.
    destruct w as [r wr t e p k kw h]. unfold accepted.
    cbn [device_writes]. destruct wr as [|[|] wr];
      unfold success, fail, emit, logged, after_write;
      cbn [device_reads device_writes tty entropy entropy_pos keyring keyring_writable
           history change_verdict tl];
      rewrite <- !app_assoc; reflexivity.
Qed.

(** With one passphrase empty, the operand of that side is a [str]; adding
    it to the packed block raises, the bare [except] reports an error, and
    nothing is written. *)
Lemma change_password_one_side_empty (dS dH : bytes) (old new : pystr)
      (ho hn : bytes) (n : Z) (w : world) :
  length dS = 512%nat -> item dS 0 = 0x45 ->
  item dS 3 = 0x00 \/ item dS 3 = 0x02 ->
  pwblen_of (item dS 4) = Some n ->
  length dH = 512%nat -> checksum_ok dH = true -> signature_ok dH = true ->
  (old = [] /\ new <> []) \/ (old <> [] /\ new = []) ->
  (old <> [] -> mk_password_block old (iteration_of dH) (salt_of dH) = Normal ho) ->
  (new <> [] -> mk_password_block new (iteration_of dH) (salt_of dH) = Normal hn) ->
  change_password
    (answering dS (answering dH (typing old (typing new (typing new w))))) =
  (Normal tt,
   logged (change_prompts
           ++ [SgRead (handy_store_descriptor 1) BLOCK_SIZE;
               Printed LFail
                 "Error changing password: Wrong password or something bad is happened."])
          w).
Proof.
  intros LS S0 S3 Hn LH C S E Ho Hh. unfold change_password.
  assert (NE : old <> [] \/ new <> []) by tauto.
  unfold bind at 1.
  rewrite (change_password_build_run dS dH old new ho hn n w
             LS S0 S3 Hn LH C S NE Ho Hh).
  step. unfold try_except.
  assert (P : exists c p,
             _scsi_pack_cdb [0xC1; 0xE2; 0x00; 0x00; 0x00; 0x00; 0x00; 0x00; 8 + 2 * n; 0x00]
             = Normal c
             /\ _scsi_pack_cdb [0x45; 0x00; 0x00; change_flags old new; 0x00; 0x00; 0x00; n]
                = Normal p).
  { destruct (pwblen_of_cases _ _ Hn) as [-> | ->];
      destruct old as [|o old]; destruct new as [|c new];
      eexists; eexists; split; reflexivity. }
  destruct P as (c & p & -> & ->).
  assert (T : bytes_add p (operand old ho) = Raised TypeError
              \/ exists p', bytes_add p (operand old ho) = Normal p'
                            /\ bytes_add p' (operand new hn) = Raised TypeError).
  { destruct old as [|o old].
    - left. reflexivity.
    - right. destruct new as [|c' new].
      + eexists. split; reflexivity.
      + exfalso. destruct E as [[E _] | [_ E]]; discriminate E. }
  unfold bind, lift. step.
  destruct T as [-> | (p' & -> & ->)]; step;
    unfold fail, emit, logged; cbn [history device_reads device_writes tty entropy
                                     entropy_pos keyring keyring_writable];
    rewrite <- app_assoc; reflexivity.
Qed.

(** ** SecureErase *)

Lemma slice_8_12 (d : bytes) :
  length d = 512%nat ->
  slice d 8 12 = [nth 8 d x00; nth 9 d x00; nth 10 d x00; nth 11 d x00].
Proof.
  intros L. unfold slice.
  rewrite (skipn_cons_nth d 8) by lia. rewrite (skipn_cons_nth d 9) by lia.
  rewrite (skipn_cons_nth d 10) by lia. rewrite (skipn_cons_nth d 11) by lia.
  reflexivity.
Qed.

Lemma pack_app_bytes (l : list Z) (bs : bytes) :
  Forall (fun c => 0 <= c < 256) l ->
  _scsi_pack_cdb (l ++ map byte_val bs) = Normal (map byte_of_Z l ++ bs).
Proof.
  intros F. rewrite pack_in_range.
  - rewrite map_app, map_map. do 2 f_equal.
    rewrite <- (map_id bs) at 2. apply map_ext. intros b. apply byte_of_Z_val.
  - apply Forall_app. split; [exact F|].
    apply Forall_forall. intros x Hx. apply in_map_iff in Hx as [b [<- _]].
    apply byte_val_range.
Qed.

Lemma select_erase_run (c : Z) (w : world) :
  (if int_in c [0x10; 0x12; 0x18] then
     pb <- lift (setitem [0x45; 0x00; 0x00; 0x00; 0x30; 0x00; 0x00; 0x00] 3 0x01) ;;
     ret (16, pb)
   else if int_in c [0x20; 0x22; 0x28] then
     pb <- lift (setitem [0x45; 0x00; 0x00; 0x00; 0x30; 0x00; 0x00; 0x00] 3 0x01) ;;
     ret (32, pb)
   else if c =? 0x30 then ret (32, [0x45; 0x00; 0x00; 0x00; 0x30; 0x00; 0x00; 0x00])
   else fail ("Unsupported cipher " ++ hex c) ;; sys_exit 1) w =
  match pwblen_of c with
  | Some n => (Normal (n, [0x45; 0x00; 0x00; erase_flags c; 0x30; 0x00; 0x00; 0x00]), w)
  | None => (SystemExit 1, logged [Printed LFail ("Unsupported cipher " ++ hex c)] w)
  end.
Proof.
  unfold pwblen_of, erase_flags, int_in, existsb.
  destruct (Z.eqb_spec c 0x10) as [->|]; [reflexivity|].
  destruct (Z.eqb_spec c 0x12) as [->|]; [reflexivity|].
  destruct (Z.eqb_spec c 0x18) as [->|]; [reflexivity|].
  destruct (Z.eqb_spec c 0x20) as [->|]; [reflexivity|].
  destruct (Z.eqb_spec c 0x22) as [->|]; [reflexivity|].
  destruct (Z.eqb_spec c 0x28) as [->|]; [reflexivity|].
  cbn [orb]. destruct (c =? 0x30); reflexivity.
Qed.

Lemma erase_flags_range (c : Z) : 0 <= erase_flags c < 256.
Proof. unfold erase_flags. destruct (c =? 0x30); lia. Qed.

(** [secure_erase] on a device that answers two status queries. *)
Lemma secure_erase_run (cipher_id : Z) (d1 d2 : bytes) (n : Z) (w : world) :
  length d1 = 512%nat -> item d1 0 = 0x45 ->
  length d2 = 512%nat -> item d2 0 = 0x45 ->
  pwblen_of (erase_cipher cipher_id (item d1 4)) = Some n ->
  secure_erase cipher_id (answering d1 (answering d2 w)) =
  (Normal tt,
   logged [SgRead status_descriptor BLOCK_SIZE;
           SgRead status_descriptor BLOCK_SIZE;
           SgWrite (secure_erase_descriptor (slice d2 8 12) n)
                   (erase_header (erase_flags (erase_cipher cipher_id (item d1 4)))
                    ++ map (entropy w) (seq (entropy_pos w) (Z.to_nat n)));
           erase_verdict (accepted w)]
          (after_write (after_urandom (Z.to_nat n) w))).
Proof.
  intros L1 S1 L2 S2 Hn.
  destruct w as [r wr t e p k kw h].
  unfold answering, after_write, after_urandom, logged, accepted.
  cbn [device_reads device_writes tty entropy entropy_pos keyring keyring_writable history].
  unfold secure_erase. step.
  unfold bind at 1. rewrite (status_read_fields _ _ _ _ _ _ _ _ d1 L1 S1). step.
  fold (erase_cipher cipher_id (item d1 4)).
  unfold bind at 1. rewrite select_erase_run, Hn. step.
  assert (N16 : n = 16 \/ n = 32) by (apply (pwblen_of_cases _ _ Hn)).
  unfold bind at 1, lift at 1. cbn [setitem obind]. step.
  unfold bind at 1, urandom at 1.
  cbn [device_reads device_writes tty entropy entropy_pos keyring keyring_writable history].
  step.
  unfold bind at 1. rewrite (status_read_fields _ _ _ _ _ _ _ _ d2 L2 S2). step.
  rewrite (slice_8_12 d2 L2).
  unfold bind at 1, lift at 1. cbn [map store_from setitem obind]. step.
  unfold try_except.
  unfold bind at 1, lift at 1.
  rewrite pack_in_range.
  2:{ repeat constructor; try lia; try apply byte_val_range. }
  step.
  unfold bind at 1, lift at 1.
  rewrite pack_app_bytes.
  2:{ pose proof (erase_flags_range (erase_cipher cipher_id (item d1 4))).
      repeat constructor; lia. }
  step.
  replace (map byte_of_Z
             [0xC1; 0xE3; byte_val (nth 8 d2 x00); byte_val (nth 9 d2 x00);
              byte_val (nth 10 d2 x00); byte_val (nth 11 d2 x00);
              0x00; 0x00; n + 8; 0x00])
    with (secure_erase_descriptor
            [nth 8 d2 x00; nth 9 d2 x00; nth 10 d2 x00; nth 11 d2 x00] n)
    by (unfold secure_erase_descriptor; cbn [map app];
        rewrite !byte_of_Z_val; reflexivity).
  fold (erase_header (erase_flags (erase_cipher cipher_id (item d1 4)))).
  unfold bind at 1. rewrite sg_write_run.
  destruct wr as [|[|] wr];
    unfold accepted, after_write, logged, success, fail, emit;
    cbn [device_reads device_writes tty entropy entropy_pos keyring keyring_writable
         history tl erase_verdict];
    rewrite <- !app_assoc; reflexivity.
Qed.

(** C7.  [secure_erase] queries the status twice and then writes one
    command.  Bytes 2 to 5 of the descriptor it writes are the key-reset
    token of the second answer, the status read that immediately precedes
    the write in the history; the token of the first answer is not used. *)
Theorem secure_erase_token_fresh (cipher_id : Z) (d1 d2 : bytes) (n : Z) (w : world) :
  length d1 = 512%nat -> item d1 0 = 0x45 ->
  length d2 = 512%nat -> item d2 0 = 0x45 ->
  pwblen_of (erase_cipher cipher_id (item d1 4)) = Some n ->
  let out := secure_erase cipher_id (answering d1 (answering d2 w)) in
  let descriptor := secure_erase_descriptor (slice d2 8 12) n in
  fst out = Normal tt
  /\ history (snd out) =
     history w
     ++ [SgRead status_descriptor BLOCK_SIZE;
         SgRead status_descriptor BLOCK_SIZE;
         SgWrite descriptor
                 (erase_header (erase_flags (erase_cipher cipher_id (item d1 4)))
                  ++ map (entropy w) (seq (entropy_pos w) (Z.to_nat n)));
         erase_verdict (accepted w)]
  /\ slice descriptor 2 6 = slice d2 8 12
  /\ fst (get_encryption_status (answering d2 w)) =
     Normal (item d2 3, item d2 4, slice d2 8 12).
Proof.
  intros L1 S1 L2 S2 Hn. cbv zeta.
  rewrite (secure_erase_run cipher_id d1 d2 n w L1 S1 L2 S2 Hn).
  split; [reflexivity|]. split; [reflexivity|]. split.
  - rewrite (slice_8_12 d2 L2). reflexivity.
  - rewrite (status_read_answering d2 w L2 S2). reflexivity.
Qed.

Lemma secure_erase_token_fresh_witness :
  slice Mock.unlocked16 8 12 = [xa1; xa2; xa3; xa4]
  /\ slice Mock.unlocked16_next 8 12 = [xb1; xb2; xb3; xb4]
  /\ sg_writes (history (snd (secure_erase 0
        (answering Mock.unlocked16
           (answering Mock.unlocked16_next (Mock.world0 [] [true] [])))))) =
     [([xc1; xe3; xb1; xb2; xb3; xb4; x00; x00; x18; x00],
       [x45; x00; x00; x01; x30; x00; x00; x00;
        x00; x01; x02; x03; x04; x05; x06; x07;
        x08; x09; x0a; x0b; x0c; x0d; x0e; x0f])].
Proof.
  pose proof (secure_erase_token_fresh 0 Mock.unlocked16 Mock.unlocked16_next 16
                (Mock.world0 [] [true] []) eq_refl eq_refl eq_refl eq_refl eq_refl)
    as (_ & H & _).
  cbv zeta in H. rewrite H.
  repeat split; vm_compute; reflexivity.
Defined.

(** ** What is appended as the password hash *)

Lemma password_header_length (flags n : Z) : length (password_header flags n) = 8%nat.
Proof. reflexivity. Qed.

Lemma mock_derive_a :
  mk_password_block [0x61] (iteration_of Mock.hsb1) (salt_of Mock.hsb1) = Normal digest_ABa.
Proof. vm_compute. reflexivity. Qed.

Lemma mock_derive_b :
  mk_password_block [0x62] (iteration_of Mock.hsb1) (salt_of Mock.hsb1) = Normal digest_ABb.
Proof. vm_compute. reflexivity. Qed.

(** C1 on the code.  On a device with the 128-bit cipher 0x10 the block
    length is 16.  [unlock] announces 24 bytes in byte 8 of its descriptor
    and a 16-byte hash in its header, and hands over 40 bytes: the header,
    then all 32 bytes of the digest.  [change_password] with two
    passphrases announces 40 bytes and hands over 72.  [secure_erase], for
    the same cipher, hands over the 24 bytes it announces. *)
Theorem password_hash_longer_than_announced :
  pwblen_of (item Mock.locked16 4) = Some 16
  /\ sg_writes (history (snd
       (unlock Mock.host Mock.sdb false false
          (answering Mock.locked16
             (answering Mock.hsb1 (typing [0x61] (Mock.world0 [] [true] []))))))) =
     [(map byte_of_Z [0xC1; 0xE1; 0x00; 0x00; 0x00; 0x00; 0x00; 0x00; 24; 0x00],
       map byte_of_Z [0x45; 0x00; 0x00; 0x00; 0x00; 0x00; 0x00; 16] ++ digest_ABa)]
  /\ length digest_ABa = 32%nat
  /\ digest_ABa <> firstn 16 digest_ABa
  /\ length (map byte_of_Z [0x45; 0x00; 0x00; 0x00; 0x00; 0x00; 0x00; 16] ++ digest_ABa)
     = 40%nat
  /\ sg_writes (history (snd
       (change_password
          (answering Mock.unlocked16
             (answering Mock.hsb1
                (typing [0x61] (typing [0x62] (typing [0x62]
                   (Mock.world0 [] [true] []))))))))) =
     [(map byte_of_Z [0xC1; 0xE2; 0x00; 0x00; 0x00; 0x00; 0x00; 0x00; 40; 0x00],
       map byte_of_Z [0x45; 0x00; 0x00; 0x00; 0x00; 0x00; 0x00; 16]
       ++ digest_ABa ++ digest_ABb)]
  /\ length (map byte_of_Z [0x45; 0x00; 0x00; 0x00; 0x00; 0x00; 0x00; 16]
             ++ digest_ABa ++ digest_ABb) = 72%nat
  /\ map (fun command => (item (fst command) 8, length (snd command)))
         (sg_writes (history (snd
            (secure_erase 0
               (answering Mock.unlocked16
                  (answering Mock.unlocked16_next (Mock.world0 [] [true] [])))))))
     = [(24, 24%nat)].
Proof.
  split; [reflexivity|]. split; [vm_compute; reflexivity|].
  split; [reflexivity|]. split; [vm_compute; intros H; discriminate H|].
  repeat split; vm_compute; reflexivity.
Qed.

Lemma unlock_gated_on_status_witness :
  unlock Mock.host Mock.sdb false false
         (answering Mock.unlocked16 (Mock.world0 [] [true] [])) =
    (Normal tt,
     logged [SgRead status_descriptor BLOCK_SIZE;
             Printed LFail "Your device is already unlocked!"]
            (Mock.world0 [] [true] []))
  /\ unlock Mock.host Mock.sdb false false
            (answering Mock.blocked (Mock.world0 [] [true] [])) =
    (SystemExit 1,
     logged [SgRead status_descriptor BLOCK_SIZE;
             Printed LFail "Wrong device status!"]
            (Mock.world0 [] [true] []))
  /\ unlock Mock.host Mock.sdb false false
            (answering Mock.locked16
               (answering Mock.hsb1 (typing [0x61] (Mock.world0 [] [true] [])))) =
    (Normal tt,
     logged [SgRead status_descriptor BLOCK_SIZE;
             Printed LQuestion "Insert password to Unlock the device:";
             SgRead (handy_store_descriptor 1) BLOCK_SIZE;
             SgWrite (unlock_descriptor 16) (password_header 0 16 ++ digest_ABa);
             Printed LSuccess "Device unlocked."]
            (Mock.world0 [] [] []))
  /\ sg_writes (history (snd
       (unlock Mock.host Mock.sdb true true
          (answering Mock.locked16 (Mock.world0 [] [true] []))))) =
     [(unlock_descriptor 16, password_header 0 16)].
Proof.
  split; [|split; [|split]].
  - apply (proj1 (unlock_gated_on_status Mock.host Mock.sdb Mock.unlocked16
                    (Mock.world0 [] [true] []) eq_refl eq_refl)).
    right. reflexivity.
  - apply (proj1 (proj2 (unlock_gated_on_status Mock.host Mock.sdb Mock.blocked
                           (Mock.world0 [] [true] []) eq_refl eq_refl)));
      vm_compute; discriminate.
  - exact (proj1 (proj2 (proj2 (unlock_gated_on_status Mock.host Mock.sdb Mock.locked16
                                   (Mock.world0 [] [true] []) eq_refl eq_refl))
                    eq_refl 16 eq_refl)
             Mock.hsb1 [0x61] digest_ABa eq_refl eq_refl eq_refl mock_derive_a).
  - rewrite (proj2 (proj2 (proj2 (unlock_gated_on_status Mock.host Mock.sdb Mock.locked16
                                    (Mock.world0 [] [true] []) eq_refl eq_refl))
                     eq_refl 16 eq_refl)
               true true [] _ _ eq_refl eq_refl).
    reflexivity.
Defined.

(** C6 on the code.  With an empty old passphrase and the new passphrase
    "b", [change_password] prepares for the old side a [str] of 32 NUL
    characters, on the cipher 0x22 whose block length is 32 as on the
    cipher 0x10 whose block length is 16; adding that [str] to the packed
    block raises, and on both devices the run ends with nothing written. *)
Theorem change_password_zero_hash_unsent :
  pwblen_of (item Mock.unlocked32 4) = Some 32
  /\ fst (change_password_build
            (answering Mock.unlocked32
               (answering Mock.hsb1
                  (typing [] (typing [0x62] (typing [0x62] (Mock.world0 [] [true] []))))))) =
     Normal ([0xC1; 0xE2; 0x00; 0x00; 0x00; 0x00; 0x00; 0x00; 0x48; 0x00],
             [0x45; 0x00; 0x00; 0x01; 0x00; 0x00; 0x00; 0x20],
             HStr (repeat 0x00 32), HBytes digest_ABb)
  /\ bytes_add (map byte_of_Z [0x45; 0x00; 0x00; 0x01; 0x00; 0x00; 0x00; 0x20])
               (HStr (repeat 0x00 32)) = Raised TypeError
  /\ sg_writes (history (snd
       (change_password
          (answering Mock.unlocked32
             (answering Mock.hsb1
                (typing [] (typing [0x62] (typing [0x62] (Mock.world0 [] [true] []))))))))) =
     []
  /\ pwblen_of (item Mock.unlocked16 4) = Some 16
  /\ fst (change_password_build
            (answering Mock.unlocked16
               (answering Mock.hsb1
                  (typing [] (typing [0x62] (typing [0x62] (Mock.world0 [] [true] []))))))) =
     Normal ([0xC1; 0xE2; 0x00; 0x00; 0x00; 0x00; 0x00; 0x00; 0x28; 0x00],
             [0x45; 0x00; 0x00; 0x01; 0x00; 0x00; 0x00; 0x10],
             HStr (repeat 0x00 32), HBytes digest_ABb)
  /\ sg_writes (history (snd
       (change_password
          (answering Mock.unlocked16
             (answering Mock.hsb1
                (typing [] (typing [0x62] (typing [0x62] (Mock.world0 [] [true] []))))))))) =
     [].
Proof.
  repeat split; vm_compute; reflexivity.
Qed.

(** C3 on the code.  On an unlocked device with the cipher 0x22, with the
    old passphrase "a" and an empty new passphrase, [change_password]
    prepares the flags byte 0x10, and with an empty old passphrase and the
    new passphrase "b" the flags byte 0x01; in both runs the operand of
    the empty side is a [str], adding it to the packed block raises, and
    the run ends on the error message with nothing written. *)
Theorem change_password_one_empty_side_unsent :
  (let w := answering Mock.unlocked32
              (answering Mock.hsb1
                 (typing [0x61] (typing [] (typing [] (Mock.world0 [] [true] []))))) in
   fst (change_password_build w) =
     Normal ([0xC1; 0xE2; 0x00; 0x00; 0x00; 0x00; 0x00; 0x00; 0x48; 0x00],
             [0x45; 0x00; 0x00; 0x10; 0x00; 0x00; 0x00; 0x20],
             HBytes digest_ABa, HStr (repeat 0x00 32))
   /\ bytes_add (map byte_of_Z [0x45; 0x00; 0x00; 0x10; 0x00; 0x00; 0x00; 0x20]
                 ++ digest_ABa) (HStr (repeat 0x00 32)) = Raised TypeError
   /\ change_password w =
      (Normal tt,
       logged (change_prompts
               ++ [SgRead (handy_store_descriptor 1) BLOCK_SIZE;
                   Printed LFail
                     "Error changing password: Wrong password or something bad is happened."])
              (Mock.world0 [] [true] []))
   /\ sg_writes (history (snd (change_password w))) = [])
  /\ (let w := answering Mock.unlocked32
                 (answering Mock.hsb1
                    (typing [] (typing [0x62] (typing [0x62] (Mock.world0 [] [true] []))))) in
      fst (change_password_build w) =
        Normal ([0xC1; 0xE2; 0x00; 0x00; 0x00; 0x00; 0x00; 0x00; 0x48; 0x00],
                [0x45; 0x00; 0x00; 0x01; 0x00; 0x00; 0x00; 0x20],
                HStr (repeat 0x00 32), HBytes digest_ABb)
      /\ sg_writes (history (snd (change_password w))) = []).
Proof.
  cbv zeta. repeat split; vm_compute; reflexivity.
Qed.

(** * Further properties of the program *)

(** ** Names of ciphers *)

(** X1.  The ciphers [cipher_id_to_str] has a name for are those the
    operations select a block length for: the name is "unknown" exactly
    when unlock, change_password and secure_erase reject the cipher; the
    three AES-128 names go with the length 16, the other four with 32. *)
Theorem cipher_named_iff_supported (id : Z) :
  (cipher_id_to_str id = "unknown"%string <-> pwblen_of id = None)
  /\ (pwblen_of id = Some 16 <->
      In (cipher_id_to_str id) ["AES_128_ECB"; "AES_128_CBC"; "AES_128_XTS"]%string)
  /\ (pwblen_of id = Some 32 <->
      In (cipher_id_to_str id)
         ["AES_256_ECB"; "AES_256_CBC"; "AES_256_XTS"; "Full Disk Encryption"]%string).
Proof.
  unfold cipher_id_to_str, lookup_name, pwblen_of, int_in, existsb, find, fst, snd.
  rewrite !(Z.eqb_sym _ id).
  destruct (Z.eqb_spec id 0x10) as [->|]; [cbn; intuition (try discriminate; auto)|].
  destruct (Z.eqb_spec id 0x12) as [->|]; [cbn; intuition (try discriminate; auto)|].
  destruct (Z.eqb_spec id 0x18) as [->|]; [cbn; intuition (try discriminate; auto)|].
  destruct (Z.eqb_spec id 0x20) as [->|]; [cbn; intuition (try discriminate; auto)|].
  destruct (Z.eqb_spec id 0x22) as [->|]; [cbn; intuition (try discriminate; auto)|].
  destruct (Z.eqb_spec id 0x28) as [->|]; [cbn; intuition (try discriminate; auto)|].
  destruct (Z.eqb_spec id 0x30) as [->|]; cbn; intuition (try discriminate; auto).
Qed.

(** ** Packing and byte order *)

Lemma forallb_unsigned (l : list Z) :
  forallb (fun c => (0 <=? c) && (c <? 256)) l = true <-> Forall unsigned_byte l.
Proof.
  rewrite forallb_forall, Forall_forall. unfold unsigned_byte.
  split; intros H x Hx; specialize (H x Hx).
  - apply andb_true_iff in H as [A B]. apply Z.leb_le in A. apply Z.ltb_lt in B. lia.
  - apply andb_true_iff. split; [apply Z.leb_le | apply Z.ltb_lt]; lia.
Qed.

(** X2.  [_scsi_pack_cdb] packs a list of ints exactly when each of them is
    an unsigned byte, and then the packed bytes read back as the list,
    item for item; with any item out of range it raises [struct.error].
    Conversely every bytes object is the packing of its own items. *)
Theorem scsi_pack_cdb_round_trip (cdb : list Z) :
  (Forall unsigned_byte cdb ->
   exists packed, _scsi_pack_cdb cdb = Normal packed
                  /\ map byte_val packed = cdb
                  /\ length packed = length cdb)
  /\ (~ Forall unsigned_byte cdb -> _scsi_pack_cdb cdb = Raised StructError)
  /\ (forall packed : bytes, _scsi_pack_cdb (map byte_val packed) = Normal packed).
Proof.
  split; [|split].
  - intros F. exists (map byte_of_Z cdb).
    split; [apply pack_in_range, F|]. split; [|apply length_map].
    rewrite map_map. rewrite <- (map_id cdb) at 2.
    apply map_ext_in. intros c Hc. rewrite byte_val_of_Z.
    rewrite Forall_forall in F. apply Z.mod_small, F, Hc.
  - intros NF. unfold _scsi_pack_cdb.
    destruct (forallb (fun c => (0 <=? c) && (c <? 256)) cdb) eqn:E; [|reflexivity].
    apply forallb_unsigned in E. contradiction.
  - apply pack_bytes.
Qed.

Lemma scsi_pack_cdb_round_trip_witness :
  exists packed, _scsi_pack_cdb status_cdb = Normal packed
                 /\ map byte_val packed = status_cdb
                 /\ length packed = 10%nat.
Proof.
  apply (proj1 (scsi_pack_cdb_round_trip status_cdb)).
  unfold unsigned_byte, status_cdb. repeat constructor; lia.
Defined.

Lemma htonl_out_of_range (num : Z) :
  num < 0 \/ 2 ^ 32 <= num -> htonl num = Raised StructError.
Proof.
  intros H. unfold htonl.
  destruct (Z.leb_spec 0 num); [|reflexivity].
  destruct (Z.ltb_spec num (2 ^ 32)); [lia|reflexivity].
Qed.

(** X3.  [htonl] and [htons] write a number most significant byte first:
    within range the four (two) bytes read back, big-endian, as the
    number; out of range they raise [struct.error]. *)
Theorem htonl_htons_big_endian (num : Z) :
  (0 <= num < 2 ^ 32 ->
   exists b, htonl num = Normal b /\ length b = 4%nat /\ be_value b = num)
  /\ (num < 0 \/ 2 ^ 32 <= num -> htonl num = Raised StructError)
  /\ (0 <= num < 2 ^ 16 ->
      exists b, htons num = Normal b /\ length b = 2%nat /\ be_value b = num)
  /\ (num < 0 \/ 2 ^ 16 <= num -> htons num = Raised StructError).
Proof.
  split; [|split; [|split]].
  - intros H. rewrite (htonl_run num H). eexists. split; [reflexivity|].
    split; [reflexivity|].
    unfold be_value. cbn [fold_left].
    rewrite !shiftr_byte by lia. rewrite byte_val_of_Z.
    change (2 ^ 24) with 16777216. change (2 ^ 16) with 65536. change (2 ^ 8) with 256.
    change (2 ^ 32) with 4294967296 in H.
    Z.div_mod_to_equations. lia.
  - apply htonl_out_of_range.
  - intros H. unfold htons.
    destruct (Z.leb_spec 0 num); [|lia]. destruct (Z.ltb_spec num (2 ^ 16)); [|lia].
    eexists. split; [reflexivity|]. split; [reflexivity|].
    unfold be_value. cbn [fold_left andb].
    rewrite !shiftr_byte by lia. rewrite byte_val_of_Z.
    change (2 ^ 8) with 256. change (2 ^ 16) with 65536 in *.
    Z.div_mod_to_equations. lia.
  - intros H. unfold htons.
    destruct (Z.leb_spec 0 num); [|reflexivity].
    destruct (Z.ltb_spec num (2 ^ 16)); [lia|reflexivity].
Qed.

Lemma htonl_htons_big_endian_witness :
  (exists b, htonl 0x01020304 = Normal b /\ length b = 4%nat /\ be_value b = 0x01020304)
  /\ htons (-1) = Raised StructError.
Proof.
  pose proof (htonl_htons_big_endian 0x01020304) as (A & _).
  pose proof (htonl_htons_big_endian (-1)) as (_ & _ & _ & B).
  split; [apply A; lia | apply B; lia].
Defined.

(** X4.  [read_handy_store] with a page number that does not fit 32 bits
    raises [struct.error] while building the descriptor: nothing is sent
    to the device and the world is untouched. *)
Theorem read_handy_store_page_out_of_range (page : Z) (w : world) :
  page < 0 \/ 2 ^ 32 <= page ->
  read_handy_store page w = (Raised StructError, w).
Proof.
  intros H. unfold read_handy_store, read_handy_store_cdb, bind, lift.
  rewrite (htonl_out_of_range page H). reflexivity.
Qed.

Lemma read_handy_store_page_out_of_range_witness :
  read_handy_store (2 ^ 32) (answering Mock.hsb1 (Mock.world0 [] [] [])) =
  (Raised StructError, answering Mock.hsb1 (Mock.world0 [] [] [])).
Proof.
  apply read_handy_store_page_out_of_range. right. lia.
Defined.

(** ** The checksum byte *)

Lemma checksum_ok_iff (d : bytes) : checksum_ok d = true <-> item d 511 = checksum_byte d.
Proof. unfold checksum_ok, checksum_byte. rewrite Z.eqb_eq. split; auto. Qed.

Lemma checksum_byte_replace_tail (d : bytes) (i : nat) (b : byte) :
  (510 <= i)%nat -> checksum_byte (replace_at i b d) = checksum_byte d.
Proof.
  intros H. unfold checksum_byte, item.
  rewrite firstn_replace_at_beyond by lia.
  rewrite (nth_replace_at_other i 0) by lia. reflexivity.
Qed.

(** X5.  The checksum [hsb_checksum] computes does not depend on bytes 510
    and 511 of the block, and for every 512-byte block with the signature
    there is exactly one value of byte 511 that [read_HSB1] accepts: the
    computed checksum.  With that byte the block's values are returned,
    with any other the program stops with the checksum error. *)
Theorem hsb_checksum_unique_byte (d : bytes) (b : byte) (w : world) :
  length d = 512%nat ->
  signature_ok d = true ->
  hsb_checksum (replace_at 511 b d) = hsb_checksum d
  /\ hsb_checksum (replace_at 510 b d) = hsb_checksum d
  /\ hsb_checksum d = Normal (hex (checksum_byte d))
  /\ (byte_val b = checksum_byte d ->
      read_HSB1 (answering (replace_at 511 b d) w) =
      (Normal (iteration_of d, salt_of d, hint_of d),
       logged [SgRead (handy_store_descriptor 1) BLOCK_SIZE] w))
  /\ (byte_val b <> checksum_byte d ->
      read_HSB1 (answering (replace_at 511 b d) w) =
      (SystemExit 1,
       logged [SgRead (handy_store_descriptor 1) BLOCK_SIZE;
               Printed LFail "Wrong HSB1 checksum"] w)).
Proof.
  intros L S.
  assert (L' : forall i, length (replace_at i b d) = 512%nat)
    by (intros i; rewrite replace_at_length; exact L).
  assert (I : item (replace_at 511 b d) 511 = byte_val b)
    by (unfold item; rewrite nth_replace_at_same by lia; reflexivity).
  split; [|split; [|split; [|split]]].
  - rewrite !hsb_checksum_run by (rewrite ?replace_at_length; lia).
    fold (checksum_byte (replace_at 511 b d)) (checksum_byte d).
    rewrite checksum_byte_replace_tail by lia. reflexivity.
  - rewrite !hsb_checksum_run by (rewrite ?replace_at_length; lia).
    fold (checksum_byte (replace_at 510 b d)) (checksum_byte d).
    rewrite checksum_byte_replace_tail by lia. reflexivity.
  - apply hsb_checksum_run. lia.
  - intros E. rewrite read_HSB1_answering by apply L'.
    assert (C : checksum_ok (replace_at 511 b d) = true).
    { apply checksum_ok_iff. rewrite I, checksum_byte_replace_tail by lia. exact E. }
    assert (S' : signature_ok (replace_at 511 b d) = true).
    { unfold signature_ok, item. rewrite !(nth_replace_at_other 511) by lia. exact S. }
    rewrite C, S'. cbn [negb].
    unfold iteration_of, salt_of, hint_of, item.
    rewrite !(nth_replace_at_other 511) by lia.
    rewrite !slice_replace_at_beyond by lia. reflexivity.
  - intros N. rewrite read_HSB1_answering by apply L'.
    assert (C : checksum_ok (replace_at 511 b d) = false).
    { destruct (checksum_ok (replace_at 511 b d)) eqn:E; [|reflexivity].
      apply checksum_ok_iff in E.
      rewrite I, checksum_byte_replace_tail in E by lia. contradiction. }
    rewrite C. reflexivity.
Qed.

Lemma hsb_checksum_unique_byte_witness :
  read_HSB1 (answering (replace_at 511 xe0 (Mock.hsb1_with 1 0x00)) (Mock.world0 [] [] [])) =
    (Normal (1, salt_of Mock.hsb1, hint_of Mock.hsb1),
     logged [SgRead (handy_store_descriptor 1) BLOCK_SIZE] (Mock.world0 [] [] []))
  /\ read_HSB1 (answering (replace_at 511 xe1 (Mock.hsb1_with 1 0x00)) (Mock.world0 [] [] [])) =
    (SystemExit 1,
     logged [SgRead (handy_store_descriptor 1) BLOCK_SIZE;
             Printed LFail "Wrong HSB1 checksum"] (Mock.world0 [] [] [])).
Proof.
  split.
  - apply (hsb_checksum_unique_byte (Mock.hsb1_with 1 0x00) xe0 (Mock.world0 [] [] [])
             eq_refl eq_refl).
    vm_compute. reflexivity.
  - apply (hsb_checksum_unique_byte (Mock.hsb1_with 1 0x00) xe1 (Mock.world0 [] [] [])
             eq_refl eq_refl).
    vm_compute. discriminate.
Defined.

(** ** More on the derivation *)

Lemma reference_clean_cut (k : nat) :
  forall pre rest : bytes,
    length pre = (2 * k)%nat ->
    Reference.clean (pre ++ x00 :: x00 :: rest) = Reference.clean pre.
Proof.
  induction k as [|k IH]; intros pre rest L.
  - destruct pre; [reflexivity|discriminate L].
  - destruct pre as [|lo [|hi pre]]; try (simpl in L; lia).
    cbn [app Reference.clean].
    destruct ((byte_val lo =? 0) && (byte_val hi =? 0)); [reflexivity|].
    rewrite IH by (simpl in L; lia). reflexivity.
Qed.

(** X6.  The derivation reads the salt up to its first all-zero pair only:
    whatever follows a zero pair at an even offset does not change the
    password block, for any passphrase and iteration count. *)
Theorem mk_password_block_ignores_salt_tail
        (passwd : pystr) (iteration : Z) (pre rest : bytes) (k : nat) :
  length pre = (2 * k)%nat ->
  mk_password_block passwd iteration (pre ++ x00 :: x00 :: rest)
  = mk_password_block passwd iteration pre.
Proof.
  intros L. unfold mk_password_block.
  rewrite !clean_salt_reference, (reference_clean_cut k pre rest L). reflexivity.
Qed.

Lemma mk_password_block_ignores_salt_tail_witness :
  mk_password_block [0x61] 1 ([x41; x00; x42; x00] ++ x00 :: x00 :: [x43; x00; x44; x00])
  = mk_password_block [0x61] 1 [x41; x00; x42; x00].
Proof.
  apply (mk_password_block_ignores_salt_tail [0x61] 1 [x41; x00; x42; x00]
           [x43; x00; x44; x00] 2).
  reflexivity.
Defined.

Lemma utf16_units_scalar (c : Z) : scalar c -> exists us, utf16_units c = Normal us.
Proof.
  unfold utf16_units, scalar. intros Hc.
  destruct ((0 <=? c) && (c <? 0xD800) || (0xE000 <=? c) && (c <? 0x10000)) eqn:B;
    [eexists; reflexivity|].
  destruct ((0x10000 <=? c) && (c <? 0x110000)) eqn:B'; [eexists; reflexivity|].
  exfalso.
  apply orb_false_iff in B as [B1 B2].
  apply andb_false_iff in B1, B2, B'. lia.
Qed.

Lemma utf16_units_surrogate (c : Z) :
  surrogate c -> utf16_units c = Raised UnicodeEncodeError.
Proof.
  unfold utf16_units, surrogate. intros Hc.
  replace ((0 <=? c) && (c <? 0xD800) || (0xE000 <=? c) && (c <? 0x10000)) with false.
  2:{ symmetry. apply orb_false_iff. split; apply andb_false_iff; lia. }
  replace ((0x10000 <=? c) && (c <? 0x110000)) with false
    by (symmetry; apply andb_false_iff; lia).
  reflexivity.
Qed.

Lemma utf_16_le_scalars (s : pystr) :
  Forall scalar s -> exists b, utf_16_le s = Normal b.
Proof.
  induction 1 as [|c s Hc _ IH]; [eexists; reflexivity|].
  destruct IH as (tl & E). destruct (utf16_units_scalar c Hc) as (us & U).
  cbn [utf_16_le]. rewrite E, U. eexists. reflexivity.
Qed.

Lemma utf_16_le_surrogate (s : pystr) :
  Forall (fun c => scalar c \/ surrogate c) s ->
  Exists surrogate s -> utf_16_le s = Raised UnicodeEncodeError.
Proof.
  induction 1 as [|c s Hc Hs IH]; intros E; [inversion E|].
  cbn [utf_16_le].
  assert (D : surrogate c \/ (scalar c /\ Exists surrogate s)).
  { inversion E; subst; [left; assumption|].
    destruct Hc as [Hc|Hc]; [right; split; assumption|left; exact Hc]. }
  destruct D as [Sc | [Sc Es]].
  - rewrite (utf16_units_surrogate c Sc). reflexivity.
  - destruct (utf16_units_scalar c Sc) as (us & ->). rewrite (IH Es). reflexivity.
Qed.

(** The password block is the hash, iterated, of the little-endian code
    units of cleaned salt and passphrase. *)
Lemma mk_password_block_plain (passwd : pystr) (iteration : Z) (salt : bytes) :
  mk_password_block passwd iteration salt =
  (text <-! utf_16_le (Reference.clean salt ++ passwd) ;;
   Normal (Nat.iter (Z.to_nat iteration) sha256 text)).
Proof.
  unfold mk_password_block. rewrite clean_salt_reference.
  unfold encode_utf_16.
  destruct (utf_16_le (Reference.clean salt ++ passwd)); reflexivity.
Qed.

Lemma reference_clean_bytes (salt : bytes) : Forall scalar (Reference.clean salt).
Proof.
  induction salt as [|x|lo hi salt IH] using pair_ind; try constructor.
  cbn [Reference.clean].
  destruct ((byte_val lo =? 0) && (byte_val hi =? 0)); constructor; [|exact IH].
  pose proof (byte_val_range lo). unfold scalar. lia.
Qed.

(** X7.  The derivation fails only on the passphrase, and only on lone
    surrogates: for every salt and iteration count it returns a password
    block when the passphrase holds no surrogate code point, and raises
    [UnicodeEncodeError] when it holds one. *)
Theorem mk_password_block_fails_on_surrogates_only
        (passwd : pystr) (iteration : Z) (salt : bytes) :
  Forall (fun c => scalar c \/ surrogate c) passwd ->
  (Forall scalar passwd ->
   exists out, mk_password_block passwd iteration salt = Normal out)
  /\ (Exists surrogate passwd ->
      mk_password_block passwd iteration salt = Raised UnicodeEncodeError).
Proof.
  intros V. rewrite mk_password_block_plain. split.
  - intros F.
    destruct (utf_16_le_scalars (Reference.clean salt ++ passwd)) as (b & ->).
    + apply Forall_app. split; [apply reference_clean_bytes|exact F].
    + eexists. reflexivity.
  - intros X.
    rewrite utf_16_le_surrogate; [reflexivity| |].
    + apply Forall_app. split; [|exact V].
      eapply Forall_impl; [|apply reference_clean_bytes]. intros c Hc. left. exact Hc.
    + apply Exists_app. right. exact X.
Qed.

Lemma mk_password_block_fails_on_surrogates_only_witness :
  (exists out, mk_password_block [0x61; 0x1F600] 1 (salt_of Mock.hsb1) = Normal out)
  /\ mk_password_block [0x61; 0xD83D] 1 (salt_of Mock.hsb1) = Raised UnicodeEncodeError.
Proof.
  split.
  - apply (mk_password_block_fails_on_surrogates_only [0x61; 0x1F600] 1 (salt_of Mock.hsb1)).
    + unfold scalar. repeat constructor; lia.
    + unfold scalar. repeat constructor; lia.
  - apply (mk_password_block_fails_on_surrogates_only [0x61; 0xD83D] 1 (salt_of Mock.hsb1)).
    + unfold scalar, surrogate. repeat constructor; lia.
    + unfold surrogate. apply Exists_cons_tl, Exists_cons_hd. lia.
Defined.

(** X8.  One more iteration hashes the password block once more: for a
    non-negative count [n] the block for [n + 1] is the SHA-256 of the
    block for [n], hence 32 bytes long; a count of zero or less leaves the
    encoded text unhashed. *)
Theorem mk_password_block_next_iteration (passwd : pystr) (n : Z) (salt : bytes) :
  (0 <= n ->
   mk_password_block passwd (n + 1) salt =
   (block <-! mk_password_block passwd n salt ;; Normal (sha256 block)))
  /\ (n <= 0 -> mk_password_block passwd n salt = mk_password_block passwd 0 salt).
Proof.
  rewrite !mk_password_block_plain. split.
  - intros H. replace (Z.to_nat (n + 1)) with (S (Z.to_nat n)) by lia.
    destruct (utf_16_le (Reference.clean salt ++ passwd)); reflexivity.
  - intros H. replace (Z.to_nat n) with 0%nat by lia. reflexivity.
Qed.

Lemma mk_password_block_next_iteration_witness :
  mk_password_block [0x61] (1 + 1) (salt_of Mock.hsb1) = Normal (sha256 digest_ABa).
Proof.
  rewrite (proj1 (mk_password_block_next_iteration [0x61] 1 (salt_of Mock.hsb1))) by lia.
  pose proof mock_derive_a as D. change (iteration_of Mock.hsb1) with 1 in D.
  rewrite D. reflexivity.
Defined.

(** ** Operations that stop before they write *)

Lemma status_bad_fields r wr t e p k kw h (d : bytes) :
  length d = 512%nat -> item d 0 <> 0x45 ->
  get_encryption_status (World (Some d :: r) wr t e p k kw h) =
  (SystemExit 1,
   World r wr t e p k kw
         (h ++ [SgRead status_descriptor BLOCK_SIZE;
                Printed LFail ("Wrong encryption status signature " ++ hex (item d 0))])).
Proof.
  intros L S.
  rewrite (get_encryption_status_bad (World (Some d :: r) wr t e p k kw h) d r eq_refl L S).
  unfold logged, after_read.
  cbn [device_reads device_writes tty entropy entropy_pos keyring keyring_writable history tl].
  rewrite <- app_assoc. reflexivity.
Qed.

Lemma status_failing_fields r wr t e p k kw h :
  get_encryption_status (World (None :: r) wr t e p k kw h) =
  (Raised SgError,
   World r wr t e p k kw (h ++ [SgRead status_descriptor BLOCK_SIZE])).
Proof. reflexivity. Qed.

(** X9.  A status answer whose first byte is not 0x45 stops every
    operation: unlock, change_password, secure_erase and enable_mount all
    exit with status 1 after reporting the byte they found; the status
    query is all that went to the device, no passphrase was asked, no
    entropy drawn, and the rescan did not run. *)
Theorem wrong_status_signature_stops_all (d : bytes) (w : world) :
  length d = 512%nat -> item d 0 <> 0x45 ->
  let stopped :=
    (@SystemExit unit 1,
     logged [SgRead status_descriptor BLOCK_SIZE;
             Printed LFail ("Wrong encryption status signature " ++ hex (item d 0))] w) in
  (forall host device save saved, unlock host device save saved (answering d w) = stopped)
  /\ change_password (answering d w) = stopped
  /\ (forall cipher_id, secure_erase cipher_id (answering d w) = stopped)
  /\ (forall rescan, enable_mount rescan (answering d w) = stopped).
Proof.
  intros L S. cbv zeta. fields w.
  split; [|split; [|split]].
  - intros host device save saved. unfold unlock. step.
    unfold bind at 1. rewrite (status_bad_fields _ _ _ _ _ _ _ _ d L S). reflexivity.
  - unfold change_password, change_password_build. step.
    unfold bind at 1. unfold bind at 1.
    rewrite (status_bad_fields _ _ _ _ _ _ _ _ d L S). reflexivity.
  - intros cipher_id. unfold secure_erase. step.
    unfold bind at 1. rewrite (status_bad_fields _ _ _ _ _ _ _ _ d L S). reflexivity.
  - intros rescan. unfold enable_mount.
    unfold bind at 1. rewrite (status_bad_fields _ _ _ _ _ _ _ _ d L S). reflexivity.
Qed.

Lemma wrong_status_signature_stops_all_witness :
  unlock Mock.host Mock.sdb false false (answering Mock.unsigned_block (Mock.world0 [] [true] [[0x61]])) =
  (SystemExit 1,
   logged [SgRead status_descriptor BLOCK_SIZE;
           Printed LFail "Wrong encryption status signature 0x0"]
          (Mock.world0 [] [true] [[0x61]])).
Proof.
  apply (proj1 (wrong_status_signature_stops_all Mock.unsigned_block
                  (Mock.world0 [] [true] [[0x61]]) eq_refl ltac:(vm_compute; discriminate))).
Defined.

(** X10.  A failed status read is not caught: when the device fails the
    status query, every operation ends with the error of the transport,
    having printed nothing and sent nothing else. *)
Theorem failed_status_read_propagates (w : world) :
  let failed :=
    (@Raised unit SgError, logged [SgRead status_descriptor BLOCK_SIZE] w) in
  (forall host device save saved,
      unlock host device save saved (failing_read w) = failed)
  /\ change_password (failing_read w) = failed
  /\ (forall cipher_id, secure_erase cipher_id (failing_read w) = failed)
  /\ (forall rescan, enable_mount rescan (failing_read w) = failed).
Proof.
  cbv zeta. fields w.
  split; [|split; [|split]].
  - intros host device save saved. unfold unlock. step.
    unfold bind at 1. rewrite status_failing_fields. reflexivity.
  - unfold change_password, change_password_build. step.
    unfold bind at 1. unfold bind at 1. rewrite status_failing_fields. reflexivity.
  - intros cipher_id. unfold secure_erase. step.
    unfold bind at 1. rewrite status_failing_fields. reflexivity.
  - intros rescan. unfold enable_mount.
    unfold bind at 1. rewrite status_failing_fields. reflexivity.
Qed.

(** X11.  A cipher without a block length stops the operation at the
    selection: unlock on a locked device, change_password on an unlocked
    or unencrypted one, and secure_erase (for the cipher it was given, or
    the current one when given 0) exit with status 1 after reporting the
    cipher; no passphrase was asked, the Handy Store was not read, no
    entropy was drawn, and nothing was written. *)
Theorem unsupported_cipher_stops (d : bytes) (w : world) :
  length d = 512%nat -> item d 0 = 0x45 ->
  (item d 3 = 0x01 -> pwblen_of (item d 4) = None ->
   forall host device save saved,
     unlock host device save saved (answering d w) =
     (SystemExit 1,
      logged [SgRead status_descriptor BLOCK_SIZE;
              Printed LFail ("Unsupported cipher " ++ hex (item d 4))] w))
  /\ (item d 3 = 0x00 \/ item d 3 = 0x02 -> pwblen_of (item d 4) = None ->
      change_password (answering d w) =
      (SystemExit 1,
       logged [SgRead status_descriptor BLOCK_SIZE;
               Printed LFail ("Unsupported cipher " ++ hex (item d 4))] w))
  /\ (forall cipher_id,
        pwblen_of (erase_cipher cipher_id (item d 4)) = None ->
        secure_erase cipher_id (answering d w) =
        (SystemExit 1,
         logged [SgRead status_descriptor BLOCK_SIZE;
                 Printed LFail ("Unsupported cipher "
                                ++ hex (erase_cipher cipher_id (item d 4)))] w)).
Proof.
  intros L S0. fields w.
  split; [|split].
  - intros S3 N host device save saved. unfold unlock. step.
    unfold bind at 1. rewrite (status_read_fields _ _ _ _ _ _ _ _ d L S0). step.
    rewrite S3. change (int_in 0x01 [0x00; 0x02]) with false.
    change (negb (0x01 =? 0x01)) with false. step.
    unfold bind at 1, ret at 1. step.
    unfold bind at 1. rewrite select_pwblen_run, N.
    unfold logged.
    cbn [device_reads device_writes tty entropy entropy_pos keyring keyring_writable history].
    rewrite <- app_assoc. reflexivity.
  - intros S3 N. unfold change_password, change_password_build. step.
    unfold bind at 1. unfold bind at 1.
    rewrite (status_read_fields _ _ _ _ _ _ _ _ d L S0). step.
    replace (negb (int_in (item d 3) [0x02; 0x00])) with false
      by (destruct S3 as [-> | ->]; reflexivity).
    unfold bind at 1, ret at 1. step.
    unfold bind at 1. rewrite select_pwblen_run, N.
    unfold logged.
    cbn [device_reads device_writes tty entropy entropy_pos keyring keyring_writable history].
    rewrite <- app_assoc. reflexivity.
  - intros cipher_id N. unfold secure_erase. step.
    unfold bind at 1. rewrite (status_read_fields _ _ _ _ _ _ _ _ d L S0). step.
    fold (erase_cipher cipher_id (item d 4)).
    unfold bind at 1. rewrite select_erase_run, N.
    unfold logged.
    cbn [device_reads device_writes tty entropy entropy_pos keyring keyring_writable history].
    rewrite <- app_assoc. reflexivity.
Qed.

Lemma unsupported_cipher_stops_witness :
  secure_erase 0x11 (answering Mock.unlocked16 (Mock.world0 [] [true] [])) =
  (SystemExit 1,
   logged [SgRead status_descriptor BLOCK_SIZE;
           Printed LFail "Unsupported cipher 0x11"] (Mock.world0 [] [true] [])).
Proof.
  apply (proj2 (proj2 (unsupported_cipher_stops Mock.unlocked16
                         (Mock.world0 [] [true] []) eq_refl eq_refl)) 0x11).
  reflexivity.
Defined.

Lemma str_eqb_eq (s u : pystr) : str_eqb s u = true -> s = u.
Proof.
  revert u. induction s as [|a s IH]; intros [|b u] H; try discriminate H; [reflexivity|].
  simpl in H. apply andb_true_iff in H as [A B].
  apply Z.eqb_eq in A. rewrite A, (IH u B). reflexivity.
Qed.

Lemma str_eqb_neq (s u : pystr) : s <> u -> str_eqb s u = false.
Proof.
  intros N. destruct (str_eqb s u) eqn:E; [|reflexivity].
  exfalso. apply N, str_eqb_eq, E.
Qed.

(** X12.  change_password refuses before it touches the Handy Store: on a
    device that is neither unlocked nor unencrypted it exits at once, with
    no passphrase asked; when the confirmation differs from the new
    passphrase, and when old and new passphrase are both empty, it exits
    after the three prompts.  In each case the status query is all that
    went to the device. *)
Theorem change_password_refusals (d : bytes) (w : world) :
  length d = 512%nat -> item d 0 = 0x45 ->
  (item d 3 <> 0x00 -> item d 3 <> 0x02 ->
   change_password (answering d w) =
   (SystemExit 1,
    logged [SgRead status_descriptor BLOCK_SIZE;
            Printed LFail
              "Device has to be unlocked or without encryption to perform this operation"]
           w))
  /\ (item d 3 = 0x00 \/ item d 3 = 0x02 ->
      forall n, pwblen_of (item d 4) = Some n ->
        (forall old new new2,
            new <> new2 ->
            change_password (answering d (typing old (typing new (typing new2 w)))) =
            (SystemExit 1,
             logged (change_prompts
                     ++ [Printed LFail
                           "Password confirmation doesn't match the given password"]) w))
        /\ change_password (answering d (typing [] (typing [] (typing [] w)))) =
           (SystemExit 1,
            logged (change_prompts ++ [Printed LFail "Both passwords shouldn't be empty"])
                   w)).
Proof.
  intros L S0. fields w. unfold change_prompts.
  split.
  - intros H0 H2. unfold change_password, change_password_build. step.
    unfold bind at 1. unfold bind at 1.
    rewrite (status_read_fields _ _ _ _ _ _ _ _ d L S0). step.
    replace (negb (int_in (item d 3) [0x02; 0x00])) with true.
    2:{ unfold int_in, existsb.
        destruct (Z.eqb_spec (item d 3) 0x02); [contradiction|].
        destruct (Z.eqb_spec (item d 3) 0x00); [contradiction|]. reflexivity. }
    unfold bind, fail, sys_exit. rewrite emit_fields. step.
    rewrite <- app_assoc. reflexivity.
  - intros S3 n Hn.
    split.
    + intros old new new2 N. unfold change_password, change_password_build. step.
      unfold bind at 1. unfold bind at 1.
      rewrite (status_read_fields _ _ _ _ _ _ _ _ d L S0). step.
      replace (negb (int_in (item d 3) [0x02; 0x00])) with false
        by (destruct S3 as [-> | ->]; reflexivity).
      unfold bind at 1, ret at 1. step.
      unfold bind at 1. rewrite select_pwblen_run, Hn. step.
      unfold bind at 1, question at 1. rewrite emit_fields. step.
      unfold bind at 1. rewrite getpass_fields. step.
      unfold bind at 1, question at 1. rewrite emit_fields. step.
      unfold bind at 1. rewrite getpass_fields. step.
      unfold bind at 1, question at 1. rewrite emit_fields. step.
      unfold bind at 1. rewrite getpass_fields. step.
      rewrite (str_eqb_neq new new2 N). cbn [negb].
      unfold bind, fail, sys_exit. rewrite emit_fields. step.
      rewrite <- !app_assoc. reflexivity.
    + unfold change_password, change_password_build. step.
      unfold bind at 1. unfold bind at 1.
      rewrite (status_read_fields _ _ _ _ _ _ _ _ d L S0). step.
      replace (negb (int_in (item d 3) [0x02; 0x00])) with false
        by (destruct S3 as [-> | ->]; reflexivity).
      unfold bind at 1, ret at 1. step.
      unfold bind at 1. rewrite select_pwblen_run, Hn. step.
      unfold bind at 1, question at 1. rewrite emit_fields. step.
      unfold bind at 1. rewrite getpass_fields. step.
      unfold bind at 1, question at 1. rewrite emit_fields. step.
      unfold bind at 1. rewrite getpass_fields. step.
      unfold bind at 1, question at 1. rewrite emit_fields. step.
      unfold bind at 1. rewrite getpass_fields. step.
      cbn [str_eqb negb length Nat.eqb andb].
      unfold bind at 1, ret at 1. step.
      unfold bind, fail, sys_exit. rewrite emit_fields. step.
      rewrite <- !app_assoc. reflexivity.
Qed.

Lemma change_password_refusals_witness :
  change_password (answering Mock.locked16 (Mock.world0 [] [true] [[0x61]; [0x62]; [0x62]])) =
    (SystemExit 1,
     logged [SgRead status_descriptor BLOCK_SIZE;
             Printed LFail
               "Device has to be unlocked or without encryption to perform this operation"]
            (Mock.world0 [] [true] [[0x61]; [0x62]; [0x62]]))
  /\ change_password
       (answering Mock.unlocked16
          (typing [0x61] (typing [0x62] (typing [0x63] (Mock.world0 [] [true] []))))) =
     (SystemExit 1,
      logged (change_prompts
              ++ [Printed LFail "Password confirmation doesn't match the given password"])
             (Mock.world0 [] [true] [])).
Proof.
  split.
  - apply (proj1 (change_password_refusals Mock.locked16
                    (Mock.world0 [] [true] [[0x61]; [0x62]; [0x62]]) eq_refl eq_refl));
      vm_compute; discriminate.
  - apply (proj1 (proj2 (change_password_refusals Mock.unlocked16
                           (Mock.world0 [] [true] []) eq_refl eq_refl)
                    (or_intror eq_refl) 16 eq_refl)).
    discriminate.
Defined.

(** ** A Handy Store block that fails validation *)

Lemma read_HSB1_invalid_fields r wr t e p k kw h (d : bytes) :
  length d = 512%nat ->
  checksum_ok d = false \/ signature_ok d = false ->
  exists msg,
    read_HSB1 (World (Some d :: r) wr t e p k kw h) =
    (SystemExit 1,
     World r wr t e p k kw
           (h ++ [SgRead (handy_store_descriptor 1) BLOCK_SIZE; Printed LFail msg])).
Proof.
  intros L B.
  pose proof (read_HSB1_answering (World r wr t e p k kw h) d L) as R.
  unfold answering, logged in R.
  cbn [device_reads device_writes tty entropy entropy_pos keyring keyring_writable history]
    in R.
  rewrite R.
  destruct (checksum_ok d); cbn [negb]; [|eexists; reflexivity].
  destruct (signature_ok d); cbn [negb]; [|eexists; reflexivity].
  destruct B as [B|B]; discriminate B.
Qed.

Lemma unlock_invalid_handy_store (host : collaborators) (device : device_path)
      (dS dH : bytes) (n : Z) (save : bool) (passwd : pystr) (w : world) :
  length dS = 512%nat -> item dS 0 = 0x45 -> item dS 3 = 0x01 ->
  pwblen_of (item dS 4) = Some n ->
  length dH = 512%nat ->
  checksum_ok dH = false \/ signature_ok dH = false ->
  exists msg,
    unlock host device save false (answering dS (answering dH (typing passwd w))) =
    (SystemExit 1,
     logged [SgRead status_descriptor BLOCK_SIZE;
             Printed LQuestion "Insert password to Unlock the device:";
             SgRead (handy_store_descriptor 1) BLOCK_SIZE;
             Printed LFail msg] w).
Proof.
  intros LS S0 S3 Hn LH B. fields w. unfold unlock. step.
  unfold bind at 1. rewrite (status_read_fields _ _ _ _ _ _ _ _ dS LS S0). step.
  rewrite S3. change (int_in 0x01 [0x00; 0x02]) with false.
  change (negb (0x01 =? 0x01)) with false. step.
  unfold bind at 1, ret at 1. step.
  unfold bind at 1. rewrite select_pwblen_run, Hn. step.
  cbn [negb].
  unfold bind at 1. unfold bind at 1. unfold question at 1. rewrite emit_fields. step.
  unfold bind at 1. rewrite getpass_fields. step.
  unfold bind at 1.
  destruct (read_HSB1_invalid_fields r wr t e p k kw
              ((h ++ [SgRead status_descriptor BLOCK_SIZE])
               ++ [Printed LQuestion "Insert password to Unlock the device:"])
              dH LH B) as (msg & ->).
  step. exists msg. rewrite <- !app_assoc. reflexivity.
Qed.

Lemma change_password_invalid_handy_store (dS dH : bytes) (n : Z)
      (old new : pystr) (w : world) :
  length dS = 512%nat -> item dS 0 = 0x45 ->
  item dS 3 = 0x00 \/ item dS 3 = 0x02 ->
  pwblen_of (item dS 4) = Some n ->
  length dH = 512%nat ->
  checksum_ok dH = false \/ signature_ok dH = false ->
  old <> [] \/ new <> [] ->
  exists msg,
    change_password
      (answering dS (answering dH (typing old (typing new (typing new w))))) =
    (SystemExit 1,
     logged (change_prompts
             ++ [SgRead (handy_store_descriptor 1) BLOCK_SIZE; Printed LFail msg]) w).
Proof.
  intros LS S0 S3 Hn LH B NE. fields w. unfold change_prompts.
  unfold change_password, change_password_build. step.
  unfold bind at 1. unfold bind at 1.
  rewrite (status_read_fields _ _ _ _ _ _ _ _ dS LS S0). step.
  replace (negb (int_in (item dS 3) [0x02; 0x00])) with false
    by (destruct S3 as [-> | ->]; reflexivity).
  unfold bind at 1, ret at 1. step.
  unfold bind at 1. rewrite select_pwblen_run, Hn. step.
  unfold bind at 1, question at 1. rewrite emit_fields. step.
  unfold bind at 1. rewrite getpass_fields. step.
  unfold bind at 1, question at 1. rewrite emit_fields. step.
  unfold bind at 1. rewrite getpass_fields. step.
  unfold bind at 1, question at 1. rewrite emit_fields. step.
  unfold bind at 1. rewrite getpass_fields. step.
  rewrite str_eqb_refl. cbn [negb].
  unfold bind at 1, ret at 1. step.
  replace ((Nat.eqb (length old) (length new)) && (Nat.eqb (length new) 0)) with false.
  2:{ symmetry. apply andb_false_iff.
      destruct new as [|c new]; [|right; reflexivity].
      destruct old as [|o old]; [destruct NE as [NE|NE]; contradiction|left; reflexivity]. }
  unfold bind at 1, ret at 1. step.
  unfold bind at 1.
  match goal with
  | |- context [read_HSB1 (World _ _ _ _ _ _ _ ?hh)] =>
      destruct (read_HSB1_invalid_fields r wr t e p k kw hh dH LH B) as (msg & ->)
  end.
  step. exists msg. rewrite <- !app_assoc. reflexivity.
Qed.

(** X13.  Neither unlock nor change_password writes to the device when
    Handy Store block 1 fails its checksum or its signature: both exit
    with status 1 right after reading the block, after the passphrases
    were typed. *)
Theorem invalid_handy_store_never_written (dS dH : bytes) (n : Z) (w : world) :
  length dS = 512%nat -> item dS 0 = 0x45 ->
  pwblen_of (item dS 4) = Some n ->
  length dH = 512%nat ->
  checksum_ok dH = false \/ signature_ok dH = false ->
  (item dS 3 = 0x01 ->
   forall host device save passwd,
     let out := unlock host device save false
                  (answering dS (answering dH (typing passwd w))) in
     fst out = SystemExit 1
     /\ sg_writes (history (snd out)) = sg_writes (history w))
  /\ (item dS 3 = 0x00 \/ item dS 3 = 0x02 ->
      forall old new,
        old <> [] \/ new <> [] ->
        let out := change_password
                     (answering dS (answering dH
                        (typing old (typing new (typing new w))))) in
        fst out = SystemExit 1
        /\ sg_writes (history (snd out)) = sg_writes (history w)).
Proof.
  intros LS S0 Hn LH B. split.
  - intros S3 host device save passwd. cbv zeta.
    destruct (unlock_invalid_handy_store host device dS dH n save passwd w
                LS S0 S3 Hn LH B)
      as (msg & ->).
    split; [reflexivity|].
    cbn [snd logged history]. rewrite sg_writes_app. cbn [sg_writes].
    apply app_nil_r.
  - intros S3 old new NE. cbv zeta.
    destruct (change_password_invalid_handy_store dS dH n old new w LS S0 S3 Hn LH B NE)
      as (msg & ->).
    split; [reflexivity|].
    cbn [snd logged history]. rewrite !sg_writes_app. cbn [sg_writes].
    apply app_nil_r.
Qed.

Lemma invalid_handy_store_never_written_witness :
  fst (unlock Mock.host Mock.sdb false false
         (answering Mock.locked16
            (answering Mock.hsb1_flipped (typing [0x61] (Mock.world0 [] [true] []))))) =
    SystemExit 1
  /\ sg_writes (history (snd
       (unlock Mock.host Mock.sdb false false
          (answering Mock.locked16
             (answering Mock.hsb1_flipped (typing [0x61] (Mock.world0 [] [true] []))))))) =
     [].
Proof.
  exact (proj1 (invalid_handy_store_never_written Mock.locked16 Mock.hsb1_flipped 16
                  (Mock.world0 [] [true] []) eq_refl eq_refl eq_refl eq_refl
                  (or_intror eq_refl))
           eq_refl Mock.host Mock.sdb false [0x61]).
Defined.

(** ** A write the device rejects *)

(** X14.  A rejected write never raises and never exits: unlock (with a
    typed passphrase and nothing to save, whatever its collaborators are)
    and change_password (with two passphrases) return normally whether or
    not the device accepts the write, and so does secure_erase; the command
    is the last thing sent, and the message after it tells which way it
    went. *)
Theorem rejected_write_is_only_reported (dS dH : bytes) (n : Z) (w : world) :
  length dS = 512%nat -> item dS 0 = 0x45 ->
  pwblen_of (item dS 4) = Some n ->
  length dH = 512%nat -> checksum_ok dH = true -> signature_ok dH = true ->
  (item dS 3 = 0x01 ->
   forall host device passwd pwd,
     mk_password_block passwd (iteration_of dH) (salt_of dH) = Normal pwd ->
     let out := unlock host device false false
                  (answering dS (answering dH (typing passwd w))) in
     fst out = Normal tt
     /\ exists before,
         history (snd out) =
         before ++ [SgWrite (unlock_descriptor n) (password_header 0 n ++ pwd);
                    unlock_verdict (accepted w)])
  /\ (item dS 3 = 0x00 \/ item dS 3 = 0x02 ->
      forall o old c new ho hn,
        mk_password_block (o :: old) (iteration_of dH) (salt_of dH) = Normal ho ->
        mk_password_block (c :: new) (iteration_of dH) (salt_of dH) = Normal hn ->
        let out := change_password
                     (answering dS (answering dH
                        (typing (o :: old) (typing (c :: new) (typing (c :: new) w))))) in
        fst out = Normal tt
        /\ exists before,
            history (snd out) =
            before ++ [SgWrite (change_password_descriptor n)
                               (password_header 0 n ++ ho ++ hn);
                       change_verdict (accepted w)])
  /\ (forall d2,
        length d2 = 512%nat -> item d2 0 = 0x45 ->
        let out := secure_erase 0 (answering dS (answering d2 w)) in
        fst out = Normal tt
        /\ exists before payload,
            history (snd out) =
            before ++ [SgWrite (secure_erase_descriptor (slice d2 8 12) n) payload;
                       erase_verdict (accepted w)]).
Proof.
  intros LS S0 Hn LH C S. split; [|split].
  - intros S3 host device passwd pwd Hpwd. cbv zeta.
    rewrite (unlock_locked_typed host device dS dH passwd pwd n w
               LS S0 S3 Hn LH C S Hpwd).
    split; [reflexivity|].
    exists (history w
            ++ [SgRead status_descriptor BLOCK_SIZE;
                Printed LQuestion "Insert password to Unlock the device:";
                SgRead (handy_store_descriptor 1) BLOCK_SIZE]).
    cbn [snd logged after_write history].
    rewrite <- !app_assoc. reflexivity.
  - intros S3 o old c new ho hn Ho Hh. cbv zeta.
    rewrite (change_password_sends dS dH o c old new ho hn n w LS S0 S3 Hn LH C S Ho Hh).
    split; [reflexivity|].
    exists (history w ++ change_prompts ++ [SgRead (handy_store_descriptor 1) BLOCK_SIZE]).
    cbn [snd logged after_write history].
    rewrite <- !app_assoc. reflexivity.
  - intros d2 L2 S2. cbv zeta.
    assert (Hn' : pwblen_of (erase_cipher 0 (item dS 4)) = Some n) by exact Hn.
    rewrite (secure_erase_run 0 dS d2 n w LS S0 L2 S2 Hn').
    split; [reflexivity|].
    exists (history w ++ [SgRead status_descriptor BLOCK_SIZE;
                          SgRead status_descriptor BLOCK_SIZE]).
    eexists.
    cbn [snd logged after_write after_urandom history].
    rewrite <- !app_assoc. reflexivity.
Qed.

Lemma rejected_write_is_only_reported_witness :
  fst (unlock Mock.host Mock.sdb false false
         (answering Mock.locked16
            (answering Mock.hsb1 (typing [0x61] (Mock.world0 [] [false] []))))) = Normal tt
  /\ exists before,
      history (snd
        (unlock Mock.host Mock.sdb false false
           (answering Mock.locked16
              (answering Mock.hsb1 (typing [0x61] (Mock.world0 [] [false] [])))))) =
      before ++ [SgWrite (unlock_descriptor 16) (password_header 0 16 ++ digest_ABa);
                 Printed LFail "Wrong password? Or something bad is happened. Try again"].
Proof.
  exact (proj1 (rejected_write_is_only_reported Mock.locked16 Mock.hsb1 16
                  (Mock.world0 [] [false] []) eq_refl eq_refl eq_refl eq_refl eq_refl eq_refl)
           eq_refl Mock.host Mock.sdb [0x61] digest_ABa mock_derive_a).
Defined.

(** ** More on secure_erase *)

(** X15.  The command secure_erase writes is as long as it announces:
    byte 8 of the descriptor is the block length plus 8, and the parameter
    block is an 8-byte header, whose flags byte is 0x00 for the cipher 0x30
    and 0x01 otherwise, followed by exactly block-length bytes drawn from
    the entropy pool, which advances by that many bytes. *)
Theorem secure_erase_command_shape (cipher_id : Z) (d1 d2 : bytes) (n : Z) (w : world) :
  length d1 = 512%nat -> item d1 0 = 0x45 ->
  length d2 = 512%nat -> item d2 0 = 0x45 ->
  pwblen_of (erase_cipher cipher_id (item d1 4)) = Some n ->
  let out := secure_erase cipher_id (answering d1 (answering d2 w)) in
  exists descriptor random,
    sg_writes (history (snd out)) =
      sg_writes (history w)
      ++ [(descriptor,
           erase_header (erase_flags (erase_cipher cipher_id (item d1 4))) ++ random)]
    /\ length descriptor = 10%nat
    /\ item descriptor 8 = n + 8
    /\ Z.of_nat (length random) = n
    /\ Z.of_nat (length (erase_header (erase_flags (erase_cipher cipher_id (item d1 4)))
                         ++ random)) = item descriptor 8
    /\ random = map (entropy w) (seq (entropy_pos w) (Z.to_nat n))
    /\ entropy_pos (snd out) = (entropy_pos w + Z.to_nat n)%nat.
Proof.
  intros L1 S1 L2 S2 Hn. cbv zeta.
  rewrite (secure_erase_run cipher_id d1 d2 n w L1 S1 L2 S2 Hn).
  exists (secure_erase_descriptor (slice d2 8 12) n).
  exists (map (entropy w) (seq (entropy_pos w) (Z.to_nat n))).
  assert (N : n = 16 \/ n = 32) by apply (pwblen_of_cases _ _ Hn).
  assert (LR : Z.of_nat (length (map (entropy w) (seq (entropy_pos w) (Z.to_nat n)))) = n)
    by (rewrite length_map, length_seq; lia).
  assert (I8 : item (secure_erase_descriptor (slice d2 8 12) n) 8 = n + 8).
  { rewrite (slice_8_12 d2 L2). destruct N as [-> | ->]; reflexivity. }
  split; [|split; [|split; [|split; [|split; [|split]]]]].
  - cbn [snd logged after_write after_urandom history].
    rewrite sg_writes_app. destruct (accepted w); reflexivity.
  - rewrite (slice_8_12 d2 L2). reflexivity.
  - exact I8.
  - exact LR.
  - rewrite length_app, I8, Nat2Z.inj_add, LR. unfold erase_header.
    rewrite length_map. simpl length. lia.
  - reflexivity.
  - reflexivity.
Qed.

Lemma secure_erase_command_shape_witness :
  exists descriptor random,
    sg_writes (history (snd
      (secure_erase 0x30
         (answering Mock.unlocked16
            (answering Mock.unlocked16_next (Mock.world0 [] [true] [])))))) =
      [] ++ [(descriptor, erase_header 0x00 ++ random)]
    /\ item descriptor 8 = 32 + 8
    /\ Z.of_nat (length random) = 32.
Proof.
  destruct (secure_erase_command_shape 0x30 Mock.unlocked16 Mock.unlocked16_next 32
              (Mock.world0 [] [true] []) eq_refl eq_refl eq_refl eq_refl eq_refl)
    as (descriptor & random & W & _ & I & R & _).
  exists descriptor, random. split; [exact W|]. split; [exact I|exact R].
Defined.

(** X16.  What secure_erase writes depends on the first status answer
    through its cipher byte only, and on the second through its key-reset
    token only: the security status of the device, which is not tested,
    and everything else in the two answers make no difference. *)
Theorem secure_erase_reads_cipher_and_token_only
        (cipher_id : Z) (d1 d1' d2 d2' : bytes) (n : Z) (w : world) :
  length d1 = 512%nat -> item d1 0 = 0x45 ->
  length d1' = 512%nat -> item d1' 0 = 0x45 ->
  length d2 = 512%nat -> item d2 0 = 0x45 ->
  length d2' = 512%nat -> item d2' 0 = 0x45 ->
  pwblen_of (erase_cipher cipher_id (item d1 4)) = Some n ->
  item d1' 4 = item d1 4 ->
  slice d2' 8 12 = slice d2 8 12 ->
  secure_erase cipher_id (answering d1' (answering d2' w))
  = secure_erase cipher_id (answering d1 (answering d2 w)).
Proof.
  intros L1 S1 L1' S1' L2 S2 L2' S2' Hn E4 E8.
  assert (Hn' : pwblen_of (erase_cipher cipher_id (item d1' 4)) = Some n)
    by (rewrite E4; exact Hn).
  rewrite (secure_erase_run cipher_id d1 d2 n w L1 S1 L2 S2 Hn).
  rewrite (secure_erase_run cipher_id d1' d2' n w L1' S1' L2' S2' Hn').
  rewrite E4, E8. reflexivity.
Qed.

Lemma secure_erase_reads_cipher_and_token_only_witness :
  secure_erase 0 (answering Mock.locked16
                    (answering Mock.unlocked16_next (Mock.world0 [] [true] [])))
  = secure_erase 0 (answering Mock.unlocked16
                      (answering Mock.unlocked16_next (Mock.world0 [] [true] []))).
Proof.
  apply (secure_erase_reads_cipher_and_token_only 0 Mock.unlocked16 Mock.locked16
           Mock.unlocked16_next Mock.unlocked16_next 16 (Mock.world0 [] [true] []));
    reflexivity.
Defined.

(** ** Mounting, and the confirmation of an erase *)

(** X17.  enable_mount runs the rescan only on an unlocked or unencrypted
    device, right after the status query, and reports success once it
    returns; on any other status it prints that the device needs to be
    unlocked and returns normally, without exiting, with the rescan not
    run and nothing but the status query sent. *)
Theorem enable_mount_gated (d : bytes) (rescan : M unit) (w : world) :
  length d = 512%nat -> item d 0 = 0x45 ->
  (item d 3 = 0x00 \/ item d 3 = 0x02 ->
   enable_mount rescan (answering d w) =
   (rescan ;;
    success "Now depending on your system you can mount your device or it will be automatically mounted.")
     (logged [SgRead status_descriptor BLOCK_SIZE] w))
  /\ (item d 3 <> 0x00 -> item d 3 <> 0x02 ->
      enable_mount rescan (answering d w) =
      (Normal tt,
       logged [SgRead status_descriptor BLOCK_SIZE;
               Printed LFail "Device needs to be unlocked in order to mount it."] w)).
Proof.
  intros L S0. split.
  - intros S3. unfold enable_mount. unfold bind at 1.
    rewrite (status_read_answering d w L S0). step.
    replace (int_in (item d 3) [0x00; 0x02]) with true
      by (destruct S3 as [-> | ->]; reflexivity).
    reflexivity.
  - intros H0 H2. unfold enable_mount. unfold bind at 1.
    rewrite (status_read_answering d w L S0). step.
    replace (int_in (item d 3) [0x00; 0x02]) with false.
    2:{ unfold int_in, existsb.
        destruct (Z.eqb_spec (item d 3) 0x00); [contradiction|].
        destruct (Z.eqb_spec (item d 3) 0x02); [contradiction|]. reflexivity. }
    unfold fail, emit, logged.
    cbn [history device_reads device_writes tty entropy entropy_pos
         keyring keyring_writable].
    rewrite <- app_assoc. reflexivity.
Qed.

Lemma enable_mount_gated_witness :
  enable_mount (ret tt) (answering Mock.locked16 (Mock.world0 [] [] [])) =
  (Normal tt,
   logged [SgRead status_descriptor BLOCK_SIZE;
           Printed LFail "Device needs to be unlocked in order to mount it."]
          (Mock.world0 [] [] [])).
Proof.
  apply (proj2 (enable_mount_gated Mock.locked16 (ret tt) (Mock.world0 [] [] [])
                  eq_refl eq_refl)); vm_compute; discriminate.
Defined.

(** X18.  The erase branch of [main] erases only on the answer "y" or "Y":
    then it runs secure_erase with cipher 0, that is for the cipher the
    device reports; on any other answer, the empty one included, it prints
    "Ok. Bye." and nothing at all goes to the device. *)
Theorem main_erase_needs_confirmation (r : pystr) (w : world) :
  (r = [0x79] \/ r = [0x59] ->
   main_erase r w =
   secure_erase 0
     (logged [Printed LQuestion
                "Any data on the device will be lost. Are you sure you want to continue? [y/N]"]
             w))
  /\ (r <> [0x79] -> r <> [0x59] ->
      main_erase r w =
      (Normal tt,
       logged [Printed LQuestion
                 "Any data on the device will be lost. Are you sure you want to continue? [y/N]";
               Printed LSuccess "Ok. Bye."] w)).
Proof.
  split.
  - intros [-> | ->]; reflexivity.
  - intros Ny NY.
    assert (F : lower_is_y r = false).
    { destruct r as [|c [|c' r]]; try reflexivity. cbn [lower_is_y].
      destruct (Z.eqb_spec c 0x79) as [->|]; [contradiction Ny; reflexivity|].
      destruct (Z.eqb_spec c 0x59) as [->|]; [contradiction NY; reflexivity|].
      reflexivity. }
    unfold main_erase, bind, question, success, emit. rewrite F.
    unfold logged. cbn [history device_reads device_writes tty entropy entropy_pos
                        keyring keyring_writable].
    rewrite <- app_assoc. reflexivity.
Qed.

Lemma main_erase_needs_confirmation_witness :
  main_erase [0x6E]
    (answering Mock.unlocked16 (answering Mock.unlocked16_next (Mock.world0 [] [true] []))) =
  (Normal tt,
   logged [Printed LQuestion
             "Any data on the device will be lost. Are you sure you want to continue? [y/N]";
           Printed LSuccess "Ok. Bye."]
          (answering Mock.unlocked16
             (answering Mock.unlocked16_next (Mock.world0 [] [true] [])))).
Proof.
  apply (proj2 (main_erase_needs_confirmation [0x6E]
                  (answering Mock.unlocked16
                     (answering Mock.unlocked16_next (Mock.world0 [] [true] [])))));
    discriminate.
Defined.

(** ** What the two readers return *)

(** X19.  On a 512-byte answer with the signature, get_encryption_status
    returns byte 3 of the answer as the status, byte 4 as the cipher and,
    as the token, exactly the four bytes 8 to 11; status and cipher are
    unsigned bytes, and two answers that agree on bytes 3, 4 and 8 to 11
    are told apart by nothing it returns. *)
Theorem get_encryption_status_fields (d d' : bytes) (w : world) :
  length d = 512%nat -> item d 0 = 0x45 ->
  get_encryption_status (answering d w) =
  (Normal (item d 3, item d 4, [nth 8 d x00; nth 9 d x00; nth 10 d x00; nth 11 d x00]),
   logged [SgRead status_descriptor BLOCK_SIZE] w)
  /\ item d 3 = byte_val (nth 3 d x00) /\ item d 4 = byte_val (nth 4 d x00)
  /\ 0 <= item d 3 < 256 /\ 0 <= item d 4 < 256
  /\ (length d' = 512%nat -> item d' 0 = 0x45 ->
      item d' 3 = item d 3 -> item d' 4 = item d 4 -> slice d' 8 12 = slice d 8 12 ->
      get_encryption_status (answering d' w) = get_encryption_status (answering d w)).
Proof.
  intros L S0.
  split; [rewrite (status_read_answering d w L S0), (slice_8_12 d L); reflexivity|].
  split; [reflexivity|]. split; [reflexivity|].
  split; [apply item_range|]. split; [apply item_range|].
  intros L' S0' E3 E4 E8.
  rewrite (status_read_answering d w L S0), (status_read_answering d' w L' S0').
  rewrite E3, E4, E8. reflexivity.
Qed.

Lemma get_encryption_status_fields_witness :
  get_encryption_status (answering Mock.locked16 (Mock.world0 [] [] [])) =
  (Normal (0x01, 0x10, [xa1; xa2; xa3; xa4]),
   logged [SgRead status_descriptor BLOCK_SIZE] (Mock.world0 [] [] [])).
Proof.
  exact (proj1 (get_encryption_status_fields Mock.locked16 Mock.locked16
                  (Mock.world0 [] [] []) eq_refl eq_refl)).
Defined.

(** X20.  Whatever read_HSB1 returns for a 512-byte answer, the iteration
    count is the little-endian value of bytes 8 to 11, below 2 ^ 32 and
    not negative, the salt has 10 bytes and the hint 204, each ending in
    the two zero bytes appended to it. *)
Theorem read_HSB1_values (d : bytes) (w : world) it salt hint w' :
  length d = 512%nat ->
  read_HSB1 (answering d w) = (Normal (it, salt, hint), w') ->
  it = item d 8 + item d 9 * 2 ^ 8 + item d 10 * 2 ^ 16 + item d 11 * 2 ^ 24
  /\ 0 <= it < 2 ^ 32
  /\ length salt = 10%nat /\ skipn 8 salt = [x00; x00]
  /\ length hint = 204%nat /\ skipn 202 hint = [x00; x00]
  /\ w' = logged [SgRead (handy_store_descriptor 1) BLOCK_SIZE] w.
Proof.
  intros L H.
  pose proof (read_HSB1_answering w d L) as R. rewrite H in R.
  destruct (checksum_ok d); cbn [negb] in R; [|discriminate R].
  destruct (signature_ok d); cbn [negb] in R; [|discriminate R].
  inversion R; subst it salt hint w'. clear R H.
  assert (L8 : length (slice d 12 20) = 8%nat) by (rewrite slice_length; lia).
  assert (L202 : length (slice d 24 226) = 202%nat) by (rewrite slice_length; lia).
  split; [reflexivity|]. split.
  - unfold iteration_of.
    pose proof (item_range d 8). pose proof (item_range d 9).
    pose proof (item_range d 10). pose proof (item_range d 11).
    change (2 ^ 8) with 256. change (2 ^ 16) with 65536.
    change (2 ^ 24) with 16777216. change (2 ^ 32) with 4294967296. lia.
  - unfold salt_of, hint_of. rewrite !length_app, L8, L202.
    split; [reflexivity|]. split.
    + rewrite skipn_app, L8, Nat.sub_diag. rewrite skipn_all2 by lia. reflexivity.
    + split; [reflexivity|]. split; [|reflexivity].
      rewrite skipn_app, L202, Nat.sub_diag. rewrite skipn_all2 by lia. reflexivity.
Qed.

Lemma read_HSB1_values_witness :
  1 = item Mock.hsb1 8 + item Mock.hsb1 9 * 2 ^ 8 + item Mock.hsb1 10 * 2 ^ 16
      + item Mock.hsb1 11 * 2 ^ 24
  /\ length (salt_of Mock.hsb1) = 10%nat
  /\ length (hint_of Mock.hsb1) = 204%nat.
Proof.
  destruct (read_HSB1_values Mock.hsb1 (Mock.world0 [] [] []) _ _ _ _
              eq_refl mock_hsb1_passes) as (I & _ & S & _ & H & _).
  split; [exact I|]. split; [exact S|exact H].
Defined.

(** ** The collaborators in unlock *)

(** [unlock] asked to save the password of a typed passphrase, up to the
    point where it turns to its collaborators. *)
Lemma unlock_locked_saving (host : collaborators) (device : device_path)
      (dS dH : bytes) (passwd : pystr) (pwd : bytes) (n : Z) (w : world) :
  length dS = 512%nat -> item dS 0 = 0x45 -> item dS 3 = 0x01 ->
  pwblen_of (item dS 4) = Some n ->
  length dH = 512%nat -> checksum_ok dH = true -> signature_ok dH = true ->
  mk_password_block passwd (iteration_of dH) (salt_of dH) = Normal pwd ->
  unlock host device true false (answering dS (answering dH (typing passwd w))) =
  (unlock_store host device true pwd ;; unlock_send n pwd)
    (logged [SgRead status_descriptor BLOCK_SIZE;
             Printed LQuestion "Insert password to Unlock the device:";
             SgRead (handy_store_descriptor 1) BLOCK_SIZE] w).
Proof.
  intros LS S0 S3 Hn LH C S Hpwd.
  rewrite (unlock_locked_run host device dS n true false _ LS S0 S3 Hn).
  unfold bind at 1.
  change (logged [SgRead status_descriptor BLOCK_SIZE] (answering dH (typing passwd w)))
    with (answering dH (typing passwd (logged [SgRead status_descriptor BLOCK_SIZE] w))).
  rewrite (unlock_acquire_typed host device dH passwd _ LH C S), Hpwd. step.
  f_equal. same_world w.
Qed.

(** X21.  With the [str] device path of the [-d] option, unlock of a
    locked device never gets as far as writing when it has to name the
    device for the keyring: asked to use the saved password it raises
    TypeError right after announcing it, and asked to save a typed
    passphrase it raises TypeError after the Handy Store block was read;
    the keyring functions are not called and nothing is written. *)
Theorem unlock_str_device_raises (host : collaborators) (s : pystr)
        (dS : bytes) (n : Z) (w : world) :
  length dS = 512%nat -> item dS 0 = 0x45 -> item dS 3 = 0x01 ->
  pwblen_of (item dS 4) = Some n ->
  (forall save,
      unlock host (DeviceStr s) save true (answering dS w) =
      (Raised TypeError,
       logged [SgRead status_descriptor BLOCK_SIZE;
               Printed LSuccess "Unlock use saved password"] w))
  /\ (forall dH passwd pwd,
        length dH = 512%nat -> checksum_ok dH = true -> signature_ok dH = true ->
        mk_password_block passwd (iteration_of dH) (salt_of dH) = Normal pwd ->
        unlock host (DeviceStr s) true false
               (answering dS (answering dH (typing passwd w))) =
        (Raised TypeError,
         logged [SgRead status_descriptor BLOCK_SIZE;
                 Printed LQuestion "Insert password to Unlock the device:";
                 SgRead (handy_store_descriptor 1) BLOCK_SIZE] w)).
Proof.
  intros LS S0 S3 Hn. split.
  - intros save.
    rewrite (unlock_locked_run host (DeviceStr s) dS n save true w LS S0 S3 Hn).
    unfold unlock_acquire. cbn [negb].
    unfold bind at 1. unfold bind at 1. unfold success at 1, emit at 1. step.
    unfold bind at 1. unfold get_device_info, lift. step.
    same_world w.
  - intros dH passwd pwd LH C S Hpwd.
    rewrite (unlock_locked_saving host (DeviceStr s) dS dH passwd pwd n w
               LS S0 S3 Hn LH C S Hpwd).
    unfold unlock_store.
    unfold bind at 1. unfold bind at 1. unfold get_device_info, lift. step.
    reflexivity.
Qed.

Lemma unlock_str_device_raises_witness :
  unlock Mock.host (DeviceStr [0x2f; 0x64; 0x65; 0x76; 0x2f; 0x73; 0x64; 0x62]) false true
         (answering Mock.locked16 (Mock.world0 [] [true] [])) =
  (Raised TypeError,
   logged [SgRead status_descriptor BLOCK_SIZE;
           Printed LSuccess "Unlock use saved password"] (Mock.world0 [] [true] [])).
Proof.
  exact (proj1 (unlock_str_device_raises Mock.host
                  [0x2f; 0x64; 0x65; 0x76; 0x2f; 0x73; 0x64; 0x62] Mock.locked16 16
                  (Mock.world0 [] [true] []) eq_refl eq_refl eq_refl eq_refl) false).
Defined.

(** X22.  unlock asked to save the password of a typed passphrase hands
    the derived password block to the keyring function, under the fourth
    field of the device information, before it writes to the device.
    When the keyring function returns, the same block is sent in the
    unlock command, whether or not the device accepts it; when the keyring
    function raises or exits, unlock ends the same way there and then,
    and the command is not written. *)
Theorem unlock_saves_before_writing (dS dH : bytes) (passwd : pystr) (pwd : bytes)
        (n : Z) (w : world) :
  length dS = 512%nat -> item dS 0 = 0x45 -> item dS 3 = 0x01 ->
  pwblen_of (item dS 4) = Some n ->
  length dH = 512%nat -> checksum_ok dH = true -> signature_ok dH = true ->
  mk_password_block passwd (iteration_of dH) (salt_of dH) = Normal pwd ->
  forall host device info name w2,
    get_device_info host device
      (logged [SgRead status_descriptor BLOCK_SIZE;
               Printed LQuestion "Insert password to Unlock the device:";
               SgRead (handy_store_descriptor 1) BLOCK_SIZE] w) = (Normal info, w2) ->
    nth_error info 3 = Some name ->
    (forall w3,
        seve_password_to_secret_service host name pwd w2 = (Normal tt, w3) ->
        unlock host device true false (answering dS (answering dH (typing passwd w))) =
        (Normal tt,
         logged [SgWrite (unlock_descriptor n) (password_header 0 n ++ pwd);
                 unlock_verdict (accepted w3)]
                (after_write w3)))
    /\ (forall o w3,
          seve_password_to_secret_service host name pwd w2 = (o, w3) ->
          o <> Normal tt ->
          unlock host device true false (answering dS (answering dH (typing passwd w))) =
          (o, w3)).
Proof.
  intros LS S0 S3 Hn LH C S Hpwd host device info name w2 I N.
  assert (E : unlock host device true false
                     (answering dS (answering dH (typing passwd w))) =
              (seve_password_to_secret_service host name pwd ;; unlock_send n pwd) w2).
  { rewrite (unlock_locked_saving host device dS dH passwd pwd n w
               LS S0 S3 Hn LH C S Hpwd).
    unfold unlock_store.
    unfold bind at 1. unfold bind at 1. rewrite I. step.
    unfold bind at 1. unfold lift at 1, list_getitem. rewrite N. step.
    reflexivity. }
  rewrite E. unfold bind. split.
  - intros w3 K. rewrite K. step.
    unfold unlock_send. rewrite (unlock_send_run n pwd _ (pwblen_of_cases _ _ Hn)).
    same_world w3.
  - intros o w3 K NE. rewrite K.
    destruct o as [[]| |]; [contradiction NE; reflexivity|reflexivity|reflexivity].
Qed.

Lemma unlock_saves_before_writing_witness :
  history (snd (unlock Mock.host Mock.sdb true false
    (answering Mock.locked16
       (answering Mock.hsb1 (typing [0x61] (Mock.world0 [] [false] [])))))) =
  [SgRead status_descriptor BLOCK_SIZE;
   Printed LQuestion "Insert password to Unlock the device:";
   SgRead (handy_store_descriptor 1) BLOCK_SIZE;
   SecretStored digest_ABa;
   SgWrite (unlock_descriptor 16) (password_header 0 16 ++ digest_ABa);
   Printed LFail "Wrong password? Or something bad is happened. Try again"].
Proof.
  pose (w1 := logged [SgRead status_descriptor BLOCK_SIZE;
                      Printed LQuestion "Insert password to Unlock the device:";
                      SgRead (handy_store_descriptor 1) BLOCK_SIZE]
                     (Mock.world0 [] [false] [])).
  assert (I : get_device_info Mock.host Mock.sdb w1 = (Normal Mock.device_info, w1))
    by reflexivity.
  assert (N : nth_error Mock.device_info 3 = Some [x57; x44]) by reflexivity.
  assert (K : seve_password_to_secret_service Mock.host [x57; x44] digest_ABa w1 =
              (Normal tt, logged [SecretStored digest_ABa] w1)) by reflexivity.
  rewrite (proj1 (unlock_saves_before_writing Mock.locked16 Mock.hsb1 [0x61] digest_ABa 16
                    (Mock.world0 [] [false] [])
                    eq_refl eq_refl eq_refl eq_refl eq_refl eq_refl eq_refl mock_derive_a
                    Mock.host Mock.sdb Mock.device_info [x57; x44] w1 I N)
             (logged [SecretStored digest_ABa] w1) K).
  reflexivity.
Defined.
